(** * Daily Focus Timer and Study Planner: the page scripts, embedded and verified

    The repository holds two browser scripts.  The focus timer
    (countdown, reset, daily session count kept in localStorage) and the
    study planner (manual tasks, JSON import, statistics).  Both are
    translated here function by function; the DOM nodes and the module-level
    variables a function touches become fields of a page record, and every
    reading of the host clock becomes an argument of the function that
    makes it. *)

From Stdlib Require Import ZArith QArith Qabs List String Ascii Bool Lia Floats.
Import ListNotations.

Local Open Scope string_scope.
Local Open Scope Z_scope.

(** ** Host numbers and strings

    The scripts count in whole numbers, so a JavaScript number is an integer
    or NaN.  Integers are exact here, as they are in the host up to 2^53 in
    size; beyond that the host rounds them to a double, and from 10^21 on it
    prints them with an exponent.  The one quotient the scripts take, the
    percentage of the planner, is a double: [round_double] below gives the
    double nearest to a rational.  A string is the text in UTF-8, one
    [ascii] for each byte. *)
Module Js.

Inductive number : Type :=
| Num (z : Z)
| NaN.

Definition add (a b : number) : number :=
  match a, b with
  | Num x, Num y => Num (x + y)
  | _, _ => NaN
  end.

(** [a || 0] on numbers: NaN and 0 are falsy. *)
Definition or_zero (a : number) : Z :=
  match a with
  | Num z => z
  | NaN => 0
  end.

Definition digit_char (d : Z) : ascii := ascii_of_nat (48 + Z.to_nat d).

(** Decimal digits of a non-negative integer, most significant first, put in
    front of [acc]. *)
Fixpoint digits_acc (fuel : nat) (n : Z) (acc : string) : string :=
  match fuel with
  | O => acc
  | S fuel' =>
      let acc' := String (digit_char (n mod 10)) acc in
      if n <? 10 then acc' else digits_acc fuel' (n / 10) acc'
  end.

Definition digits (n : Z) : string :=
  digits_acc (S (Z.to_nat (Z.log2 n))) n "".

(** [String(z)] for an integer. *)
Definition string_of_Z (z : Z) : string :=
  if z <? 0 then String "-" (digits (- z)) else digits z.

Definition toString (a : number) : string :=
  match a with
  | Num z => string_of_Z z
  | NaN => "NaN"
  end.

(** White space, as [trim] removes it and [parseInt] skips it: the
    WhiteSpace and LineTerminator code points of ECMAScript.  Tab, line
    feed, vertical tab, form feed, carriage return and space take one
    byte. *)
Definition is_space (c : ascii) : bool :=
  let n := nat_of_ascii c in
  (Nat.leb 9 n && Nat.leb n 13) || Nat.eqb n 32.

(** The no-break space U+00A0 takes the two bytes C2 A0. *)
Definition is_space2 (a b : ascii) : bool :=
  Ascii.eqb a "194" && Ascii.eqb b "160".

(** Three bytes each: U+1680 (E1 9A 80), U+2000 to U+200A (E2 80 80 to
    E2 80 8A), the separators U+2028 and U+2029 (E2 80 A8, E2 80 A9),
    U+202F (E2 80 AF), U+205F (E2 81 9F), U+3000 (E3 80 80) and the byte
    order mark U+FEFF (EF BB BF). *)
Definition is_space3 (a b c : ascii) : bool :=
  let n := nat_of_ascii c in
  (Ascii.eqb a "225" && Ascii.eqb b "154" && Ascii.eqb c "128")
  || (Ascii.eqb a "226" && Ascii.eqb b "128"
      && ((Nat.leb 128 n && Nat.leb n 138) || Ascii.eqb c "168"
          || Ascii.eqb c "169" || Ascii.eqb c "175"))
  || (Ascii.eqb a "226" && Ascii.eqb b "129" && Ascii.eqb c "159")
  || (Ascii.eqb a "227" && Ascii.eqb b "128" && Ascii.eqb c "128")
  || (Ascii.eqb a "239" && Ascii.eqb b "187" && Ascii.eqb c "191").

Fixpoint trimStart (s : string) : string :=
  match s with
  | EmptyString => EmptyString
  | String a r =>
      if is_space a then trimStart r
      else
        match r with
        | EmptyString => s
        | String b r2 =>
            if is_space2 a b then trimStart r2
            else
              match r2 with
              | EmptyString => s
              | String c r3 => if is_space3 a b c then trimStart r3 else s
              end
        end
  end.

(** [s] without its trailing white space: cut where nothing but white space
    follows. *)
Fixpoint trimEnd (s : string) : string :=
  match s with
  | EmptyString => EmptyString
  | String c r =>
      match trimStart (String c r) with
      | EmptyString => EmptyString
      | _ => String c (trimEnd r)
      end
  end.

Definition trim (s : string) : string := trimEnd (trimStart s).

(** Whether [s] begins with a white space code point. *)
Definition leads_space (s : string) : bool :=
  match s with
  | EmptyString => false
  | String a r =>
      is_space a
      || match r with
         | EmptyString => false
         | String b r2 =>
             is_space2 a b
             || match r2 with
                | EmptyString => false
                | String c _ => is_space3 a b c
                end
         end
  end.

(** The bytes a white space code point can begin with. *)
Definition opens_space (c : ascii) : bool :=
  is_space c || Ascii.eqb c "194" || Ascii.eqb c "225" || Ascii.eqb c "226"
  || Ascii.eqb c "227" || Ascii.eqb c "239".

(** Value of a character as a digit in the given radix, if it is one. *)
Definition digit_value (radix : Z) (c : ascii) : option Z :=
  let n := Z.of_nat (nat_of_ascii c) in
  let v :=
    if (48 <=? n) && (n <=? 57) then Some (n - 48)
    else if (97 <=? n) && (n <=? 102) then Some (n - 87)
    else if (65 <=? n) && (n <=? 70) then Some (n - 55)
    else None in
  match v with
  | Some d => if d <? radix then Some d else None
  | None => None
  end.

(** The longest prefix of digits, read left to right; [seen] tells whether a
    digit was read at all. *)
Fixpoint parse_digits (radix : Z) (seen : bool) (acc : Z) (s : string)
  : option Z :=
  match s with
  | String c s' =>
      match digit_value radix c with
      | Some d => parse_digits radix true (acc * radix + d) s'
      | None => if seen then Some acc else None
      end
  | EmptyString => if seen then Some acc else None
  end.

Definition strip_hex (s : string) : option string :=
  match s with
  | String "0" (String "x" r) => Some r
  | String "0" (String "X" r) => Some r
  | _ => None
  end.

Definition parse_unsigned (s : string) : option Z :=
  match strip_hex s with
  | Some r => parse_digits 16 false 0 r
  | None => parse_digits 10 false 0 s
  end.

(** [parseInt(s)] with no radix argument. *)
Definition parseInt (s : string) : number :=
  let t := trimStart s in
  let '(sign, body) :=
    match t with
    | String "-" r => (-1, r)
    | String "+" r => (1, r)
    | _ => (1, t)
    end in
  match parse_unsigned body with
  | Some n => Num (sign * n)
  | None => NaN
  end.

(** A number below 100 written with exactly two decimal digits. *)
Definition two_digits (n : Z) : string :=
  String (digit_char (n / 10)) (String (digit_char (n mod 10)) "").

(** Decimal digit characters, and strings made of them only. *)
Definition is_digit (c : ascii) : bool :=
  let n := nat_of_ascii c in Nat.leb 48 n && Nat.leb n 57.

Fixpoint all_digits (s : string) : bool :=
  match s with
  | EmptyString => true
  | String c s' => is_digit c && all_digits s'
  end.

(** *** Doubles

    The value of a double is a rational.  Division and multiplication give
    the double nearest to the exact result, a tie going to the double whose
    last bit is 0; the results met here stay far below the largest
    double. *)

(** [n / d] rounded to the nearest integer, a tie going to the even one;
    [d] is above 0. *)
Definition round_half_even (n d : Z) : Z :=
  let q := n / d in
  let r := n mod d in
  if 2 * r <? d then q
  else if d <? 2 * r then q + 1
  else if Z.even q then q else q + 1.

(** [n / d] divided by [2 ^ e], as a fraction of integers. *)
Definition scale_num (n e : Z) : Z := n * 2 ^ Z.max 0 (- e).
Definition scale_den (d e : Z) : Z := d * 2 ^ Z.max 0 e.

(** The exponent of the last bit of the double nearest to [n / d], for [n]
    and [d] above 0: the [e] that puts [n / d / 2 ^ e] between [2 ^ 52] and
    [2 ^ 53], and -1074 for the numbers too small for that. *)
Definition exponent_of (n d : Z) : Z :=
  let e := Z.log2 n - Z.log2 d - 53 in
  Z.max (-1074)
    (if scale_num n e <? 2 ^ 53 * scale_den d e then e else e + 1).

Definition nearest_double (n d : Z) : Q :=
  let e := exponent_of n d in
  let m := round_half_even (scale_num n e) (scale_den d e) in
  Qred (Qmake (m * 2 ^ Z.max 0 e) (Z.to_pos (2 ^ Z.max 0 (- e)))).

(** The double nearest to [q]. *)
Definition round_double (q : Q) : Q :=
  let r := Qred q in
  match Qnum r with
  | 0 => 0%Q
  | Z.pos n => nearest_double (Z.pos n) (Z.pos (Qden r))
  | Z.neg n => (- nearest_double (Z.pos n) (Z.pos (Qden r)))%Q
  end.

(** The rationals that are doubles: [m * 2 ^ e] for a whole number [m] of at
    most 53 bits and an exponent [e] from -1074 on (the largest exponent, 971,
    is not met here). *)
Definition is_double (q : Q) : Prop :=
  exists m e,
    Z.abs m <= 2 ^ 53 /\ -1074 <= e /\
    (q == Qmake (m * 2 ^ Z.max 0 e) (Z.to_pos (2 ^ Z.max 0 (- e))))%Q.

(** [a / b] on numbers.  [None] stands for what is no finite number: NaN,
    which 0 / 0 and every quotient with NaN give, and the infinities, which
    the other quotients by 0 give. *)
Definition divide (a b : number) : option Q :=
  match a, b with
  | Num x, Num y =>
      if y =? 0 then None else Some (round_double (inject_Z x / inject_Z y))
  | _, _ => None
  end.

(** [a * k] for a quotient [a] and a whole number [k]. *)
Definition times (a : option Q) (k : Z) : option Q :=
  match a with
  | Some x => Some (round_double (x * inject_Z k))
  | None => None
  end.

(** The value of one of the kernel's binary64 floats, to set
    [round_double] against. *)
Definition Q_of_float (f : float) : option Q :=
  match Prim2SF f with
  | S754_zero _ => Some 0%Q
  | S754_finite s m e =>
      let v := Qmake (Z.pos m * 2 ^ Z.max 0 e) (Z.to_pos (2 ^ Z.max 0 (- e))) in
      Some (if s then (- v)%Q else v)
  | _ => None
  end.

(** A whole number below 2^63 in size as a float. *)
Definition float_of_Z (z : Z) : float :=
  if z <? 0 then PrimFloat.opp (PrimFloat.of_uint63 (Uint63.of_Z (- z)))
  else PrimFloat.of_uint63 (Uint63.of_Z z).

Definition agrees (f : float) (q : option Q) : bool :=
  match Q_of_float f, q with
  | Some a, Some b => Qeq_bool a b
  | _, _ => false
  end.

Fixpoint sample_range (a : Z) (n : nat) : list Z :=
  match n with
  | O => []
  | S k => a :: sample_range (a + 1) k
  end.

End Js.

(** ** The focus timer page *)
Module Timer.

(** The record the timer keeps under [SESSION_KEY]; the stored JSON text is
    represented by the record it parses back to. *)
Record Stats : Type := mkStats {
  date : string;
  count : Z
}.

(** Module-level variables, the DOM nodes the script writes, the host's
    table of live intervals and the alerts shown so far. *)
Record Page : Type := mkPage {
  countdown : option nat;          (* let countdown: undefined or an interval id *)
  timeLeft : Js.number;            (* let timeLeft: NaN stands for undefined too *)
  isRunning : bool;
  intervals : list nat;            (* ids of the intervals the host still fires *)
  next_interval : nat;             (* the id the next setInterval returns *)
  timerDisplay : string;           (* textContent *)
  statusMessage : string;          (* textContent *)
  title : string;                  (* document.title *)
  minutesInput : string;           (* value *)
  sessionCountDisplay : string;    (* textContent *)
  inputSection_display : string;   (* style.display *)
  startBtn_display : string;
  resetBtn_display : string;
  alerts : list string;
  localStorage : option Stats      (* the entry under SESSION_KEY *)
}.

Definition set_timerDisplay (v : string) (p : Page) : Page :=
  mkPage (countdown p) (timeLeft p) (isRunning p) (intervals p)
    (next_interval p) v (statusMessage p) (title p) (minutesInput p)
    (sessionCountDisplay p) (inputSection_display p) (startBtn_display p)
    (resetBtn_display p) (alerts p) (localStorage p).

Definition set_title (v : string) (p : Page) : Page :=
  mkPage (countdown p) (timeLeft p) (isRunning p) (intervals p)
    (next_interval p) (timerDisplay p) (statusMessage p) v (minutesInput p)
    (sessionCountDisplay p) (inputSection_display p) (startBtn_display p)
    (resetBtn_display p) (alerts p) (localStorage p).

Definition set_statusMessage (v : string) (p : Page) : Page :=
  mkPage (countdown p) (timeLeft p) (isRunning p) (intervals p)
    (next_interval p) (timerDisplay p) v (title p) (minutesInput p)
    (sessionCountDisplay p) (inputSection_display p) (startBtn_display p)
    (resetBtn_display p) (alerts p) (localStorage p).

Definition set_minutesInput (v : string) (p : Page) : Page :=
  mkPage (countdown p) (timeLeft p) (isRunning p) (intervals p)
    (next_interval p) (timerDisplay p) (statusMessage p) (title p) v
    (sessionCountDisplay p) (inputSection_display p) (startBtn_display p)
    (resetBtn_display p) (alerts p) (localStorage p).

Definition set_sessionCountDisplay (v : string) (p : Page) : Page :=
  mkPage (countdown p) (timeLeft p) (isRunning p) (intervals p)
    (next_interval p) (timerDisplay p) (statusMessage p) (title p)
    (minutesInput p) v (inputSection_display p) (startBtn_display p)
    (resetBtn_display p) (alerts p) (localStorage p).

Definition set_displays (inp start reset : string) (p : Page) : Page :=
  mkPage (countdown p) (timeLeft p) (isRunning p) (intervals p)
    (next_interval p) (timerDisplay p) (statusMessage p) (title p)
    (minutesInput p) (sessionCountDisplay p) inp start reset
    (alerts p) (localStorage p).

Definition set_isRunning (v : bool) (p : Page) : Page :=
  mkPage (countdown p) (timeLeft p) v (intervals p)
    (next_interval p) (timerDisplay p) (statusMessage p) (title p)
    (minutesInput p) (sessionCountDisplay p) (inputSection_display p)
    (startBtn_display p) (resetBtn_display p) (alerts p) (localStorage p).

Definition set_timeLeft (v : Js.number) (p : Page) : Page :=
  mkPage (countdown p) v (isRunning p) (intervals p)
    (next_interval p) (timerDisplay p) (statusMessage p) (title p)
    (minutesInput p) (sessionCountDisplay p) (inputSection_display p)
    (startBtn_display p) (resetBtn_display p) (alerts p) (localStorage p).

Definition set_localStorage (v : option Stats) (p : Page) : Page :=
  mkPage (countdown p) (timeLeft p) (isRunning p) (intervals p)
    (next_interval p) (timerDisplay p) (statusMessage p) (title p)
    (minutesInput p) (sessionCountDisplay p) (inputSection_display p)
    (startBtn_display p) (resetBtn_display p) (alerts p) v.

(** [alert(msg)] *)
Definition alert (msg : string) (p : Page) : Page :=
  mkPage (countdown p) (timeLeft p) (isRunning p) (intervals p)
    (next_interval p) (timerDisplay p) (statusMessage p) (title p)
    (minutesInput p) (sessionCountDisplay p) (inputSection_display p)
    (startBtn_display p) (resetBtn_display p) (alerts p ++ [msg])
    (localStorage p).

(** [countdown = setInterval(callback, 1000)]: the host hands out a fresh id
    and keeps it live. *)
Definition setInterval_countdown (p : Page) : Page :=
  mkPage (Some (next_interval p)) (timeLeft p) (isRunning p)
    (next_interval p :: intervals p) (S (next_interval p))
    (timerDisplay p) (statusMessage p) (title p)
    (minutesInput p) (sessionCountDisplay p) (inputSection_display p)
    (startBtn_display p) (resetBtn_display p) (alerts p) (localStorage p).

(** [clearInterval(countdown)]: nothing happens for [undefined] or an id that
    is no longer live. *)
Definition clearInterval_countdown (p : Page) : Page :=
  match countdown p with
  | None => p
  | Some id =>
      mkPage (countdown p) (timeLeft p) (isRunning p)
        (filter (fun i => negb (Nat.eqb i id)) (intervals p))
        (next_interval p) (timerDisplay p) (statusMessage p) (title p)
        (minutesInput p) (sessionCountDisplay p) (inputSection_display p)
        (startBtn_display p) (resetBtn_display p) (alerts p) (localStorage p)
  end.

(** The text [updateDisplay] builds.  [Math.floor(seconds / 60)] rounds down
    and [%] keeps the sign of the dividend. *)
Definition displayString (seconds : Js.number) : string :=
  match seconds with
  | Js.Num sec =>
      let m := sec / 60 in
      let s := Z.rem sec 60 in
      (if m <? 10 then "0" else "") ++ Js.string_of_Z m ++ ":" ++
      (if s <? 10 then "0" else "") ++ Js.string_of_Z s
  | Js.NaN => "NaN:NaN"
  end.

Definition updateDisplay (seconds : Js.number) (p : Page) : Page :=
  let displayString := displayString seconds in
  set_title ("(" ++ displayString ++ ") Focus Timer")
    (set_timerDisplay displayString p).

Definition saveStats (date : string) (count : Z) (p : Page) : Page :=
  set_localStorage (Some (mkStats date count)) p.

(** [today] is what [new Date().toDateString()] gives at the call.  Only
    the branch for a record of today writes the count node. *)
Definition loadDailyStats (today : string) (p : Page) : Page :=
  match localStorage p with
  | Some stored =>
      if String.eqb (date stored) today
      then set_sessionCountDisplay (Js.string_of_Z (count stored)) p
      else saveStats today 0 p
  | None => saveStats today 0 p
  end.

(** The sum is exact while the count stays below 2^53. *)
Definition incrementDailyCount (today : string) (p : Page) : Page :=
  let currentCount := Js.or_zero (Js.parseInt (sessionCountDisplay p)) in
  let newCount := currentCount + 1 in
  saveStats today newCount
    (set_sessionCountDisplay (Js.string_of_Z newCount) p).

Definition completeSession (today : string) (p : Page) : Page :=
  let p := clearInterval_countdown p in
  let p := set_isRunning false p in
  let p := set_timerDisplay "00:00" p in
  let p := set_statusMessage "Session Complete!" p in
  let p := set_title "Session Complete!" p in
  incrementDailyCount today p.

(** The function handed to [setInterval] in [startTimer]. *)
Definition interval_callback (today : string) (p : Page) : Page :=
  let left := Js.add (timeLeft p) (Js.Num (-1)) in
  let p := set_timeLeft left p in
  let p := updateDisplay left p in
  match left with
  | Js.Num t => if t <=? 0 then completeSession today p else p
  | Js.NaN => p
  end.

Definition startTimer (durationSeconds : Z) (p : Page) : Page :=
  let p := set_isRunning true p in
  let p := set_timeLeft (Js.Num durationSeconds) p in
  let p := set_displays "none" "none" "inline-block" p in
  let p := set_statusMessage "Stay Focused..." p in
  let p := updateDisplay (timeLeft p) p in
  setInterval_countdown p.

Definition validation_alert : string :=
  "Please enter a valid time between 1 and 180 minutes.".

(** The click handler of the start button. *)
Definition startBtn_click (p : Page) : Page :=
  if isRunning p then p
  else
    match Js.parseInt (minutesInput p) with
    | Js.NaN => alert validation_alert p
    | Js.Num minutes =>
        if (minutes <? 1) || (minutes >? 180)
        then alert validation_alert p
        else startTimer (minutes * 60) p
    end.

Definition resetTimer (p : Page) : Page :=
  let p := clearInterval_countdown p in
  let p := set_isRunning false p in
  let defaultMinutes := 25 in
  let p := set_minutesInput (Js.string_of_Z defaultMinutes) p in
  let p := updateDisplay (Js.Num (defaultMinutes * 60)) p in
  let p := set_statusMessage "Ready to Focus?" p in
  let p := set_title "Daily Focus Timer" p in
  set_displays "flex" "inline-block" (resetBtn_display p) p.

(** The host fires interval [id] once: its callback runs if the interval is
    still live. *)
Definition interval_fires (id : nat) (today : string) (p : Page) : Page :=
  if existsb (Nat.eqb id) (intervals p) then interval_callback today p else p.

(** The phase the page shows. *)
Inductive Phase : Type := Idle | Running | Complete.

Definition phase (p : Page) : Phase :=
  if isRunning p then Running
  else if String.eqb (statusMessage p) "Session Complete!" then Complete
  else Idle.

(** The count the page works with: what [incrementDailyCount] reads off the
    count node. *)
Definition session_count (p : Page) : Z :=
  Js.or_zero (Js.parseInt (sessionCountDisplay p)).

(** The host firing interval [id] [n] times in a row, the [k]-th firing
    happening on the day [dates k]. *)
Fixpoint fires (id : nat) (dates : nat -> string) (n : nat) (p : Page)
  : Page :=
  match n with
  | O => p
  | S k => interval_fires id (dates k) (fires id dates k p)
  end.

(** The format the specification words: minutes and seconds, each with a
    leading zero below 10, the minutes being the whole quotient by 60. *)
Definition formatted (seconds : Z) : string :=
  let m := seconds / 60 in
  (if m <? 10 then Js.two_digits m else Js.string_of_Z m) ++ ":" ++
  Js.two_digits (seconds mod 60).

(** No interval is live unless the timer runs, and the only interval that
    can be live is the one [countdown] holds. *)
Definition one_interval (p : Page) : Prop :=
  (isRunning p = false -> intervals p = []) /\
  (forall i, In i (intervals p) -> countdown p = Some i).

(** A page before any click, with a session count of [n] on display and
    [stored] in localStorage; used to run the script on concrete data. *)
Definition sample_page (n : string) (stored : option Stats) : Page :=
  mkPage None Js.NaN false [] 0%nat "25:00" "Ready to Focus?"
    "Daily Focus Timer" "25" n "flex" "inline-block" "none" [] stored.

End Timer.

(** ** The study planner page *)
Module Planner.

(** Values [JSON.parse] can return, and [undefined], which reading a
    missing property gives.  Numbers are the integral ones; an object is its
    table of own properties. *)
#[warnings="-register-all"]
Inductive JValue : Type :=
| JUndefined
| JNull
| JBool (b : bool)
| JNum (z : Z)
| JStr (s : string)
| JArr (items : list JValue)
| JObj (fields : list (string * JValue)).

(** A statement either completes or throws an error with a message. *)
Inductive Completion (A : Type) : Type :=
| Normal (a : A)
| Throw (message : string).
Arguments Normal {A} a.
Arguments Throw {A} message.

(** What the script takes from the host and does not define itself:
    [JSON.parse] (a thrown SyntaxError carries the host's message), the
    message of the TypeError raised when a property of [null] is read, and
    the message of the TypeError raised when [text.replace] is called on a
    value that has no such method. *)
Record Host : Type := mkHost {
  JSON_parse : string -> Completion JValue;
  null_read_message : string -> string;
  not_a_function_message : string
}.

Fixpoint lookup (key : string) (fields : list (string * JValue)) : JValue :=
  match fields with
  | [] => JUndefined
  | (k, v) :: rest => if String.eqb k key then v else lookup key rest
  end.

(** [item.key] for one of the keys [subject], [topic], [minutes], none of
    which a string, an array or a number has; reading from [null] throws
    ([undefined] would too, but is never an element of parsed data). *)
Definition get (host : Host) (item : JValue) (key : string)
  : Completion JValue :=
  match item with
  | JNull | JUndefined => Throw (null_read_message host key)
  | JObj fields => Normal (lookup key fields)
  | _ => Normal JUndefined
  end.

(** Truthiness, as [!v] tests it. *)
Definition truthy (v : JValue) : bool :=
  match v with
  | JUndefined => false
  | JNull => false
  | JBool b => b
  | JNum z => negb (z =? 0)
  | JStr s => negb (String.eqb s "")
  | JArr _ => true
  | JObj _ => true
  end.

(** [String(v)], the conversion [parseInt] applies to its argument: an array
    is the comma-joined conversion of its elements, [null] and [undefined]
    elements giving the empty string.  A number is written with all its
    digits, as the host writes the whole numbers below 10^21. *)
Fixpoint ToString (v : JValue) : string :=
  match v with
  | JUndefined => "undefined"
  | JNull => "null"
  | JBool true => "true"
  | JBool false => "false"
  | JNum z => Js.string_of_Z z
  | JStr s => s
  | JArr items =>
      (fix join (l : list JValue) : string :=
         match l with
         | [] => ""
         | x :: r =>
             let e :=
               match x with
               | JNull | JUndefined => ""
               | _ => ToString x
               end in
             match r with
             | [] => e
             | _ => e ++ "," ++ join r
             end
         end) items
  | JObj _ => "[object Object]"
  end.

Definition parseInt_value (v : JValue) : Js.number :=
  Js.parseInt (ToString v).

Record Task : Type := mkTask {
  id : Z;
  subject : JValue;
  topic : JValue;
  minutes : Js.number;
  completed : bool
}.

(** The module-level [tasks], the form fields and text nodes the script
    reads and writes, the alerts shown so far and the two localStorage
    entries.  The entry under [STORAGE_KEY] is kept as the list that was
    handed to [JSON.stringify]; the text written for it reads back as the
    same list unless minutes are NaN, which are written as [null]. *)
Record Page : Type := mkPage {
  tasks : list Task;
  subjectInput : string;
  topicInput : string;
  timeInput : string;
  jsonInput : string;
  importError : string;
  statsTotal : string;
  statsCompleted : string;
  progress_percent : option Q;     (* the number put in progressBar.style.width; None is NaN *)
  alerts : list string;
  stored_tasks : option (list Task);   (* entry under STORAGE_KEY: the list stringified *)
  stored_date : option string          (* entry under DATE_KEY *)
}.

Definition set_tasks (v : list Task) (p : Page) : Page :=
  mkPage v (subjectInput p) (topicInput p) (timeInput p) (jsonInput p)
    (importError p) (statsTotal p) (statsCompleted p) (progress_percent p)
    (alerts p) (stored_tasks p) (stored_date p).

Definition set_inputs (s t m : string) (p : Page) : Page :=
  mkPage (tasks p) s t m (jsonInput p)
    (importError p) (statsTotal p) (statsCompleted p) (progress_percent p)
    (alerts p) (stored_tasks p) (stored_date p).

Definition set_jsonInput (v : string) (p : Page) : Page :=
  mkPage (tasks p) (subjectInput p) (topicInput p) (timeInput p) v
    (importError p) (statsTotal p) (statsCompleted p) (progress_percent p)
    (alerts p) (stored_tasks p) (stored_date p).

Definition set_importError (v : string) (p : Page) : Page :=
  mkPage (tasks p) (subjectInput p) (topicInput p) (timeInput p) (jsonInput p)
    v (statsTotal p) (statsCompleted p) (progress_percent p)
    (alerts p) (stored_tasks p) (stored_date p).

Definition set_stats (total done : string) (percent : option Q) (p : Page)
  : Page :=
  mkPage (tasks p) (subjectInput p) (topicInput p) (timeInput p) (jsonInput p)
    (importError p) total done percent
    (alerts p) (stored_tasks p) (stored_date p).

Definition set_stored_tasks (v : option (list Task)) (p : Page) : Page :=
  mkPage (tasks p) (subjectInput p) (topicInput p) (timeInput p) (jsonInput p)
    (importError p) (statsTotal p) (statsCompleted p) (progress_percent p)
    (alerts p) v (stored_date p).

Definition set_stored_date (v : option string) (p : Page) : Page :=
  mkPage (tasks p) (subjectInput p) (topicInput p) (timeInput p) (jsonInput p)
    (importError p) (statsTotal p) (statsCompleted p) (progress_percent p)
    (alerts p) (stored_tasks p) v.

Definition alert (msg : string) (p : Page) : Page :=
  mkPage (tasks p) (subjectInput p) (topicInput p) (timeInput p) (jsonInput p)
    (importError p) (statsTotal p) (statsCompleted p) (progress_percent p)
    (alerts p ++ [msg]) (stored_tasks p) (stored_date p).

(** [ts.reduce((sum, t) => sum + t.minutes, 0)] *)
Definition sum_minutes (ts : list Task) : Js.number :=
  fold_left (fun sum t => Js.add sum (minutes t)) ts (Js.Num 0).

(** The three numbers [updateStats] computes.  The percentage is a double,
    given by its value; [None] is NaN. *)
Record Statistics : Type := mkStatistics {
  totalMinutes : Js.number;
  completedMinutes : Js.number;
  percentComplete : option Q
}.

Definition computeStatistics (ts : list Task) : Statistics :=
  let total := sum_minutes ts in
  let completed := sum_minutes (filter (fun t => completed t) ts) in
  let percent :=
    match total with
    | Js.Num 0 => Some 0%Q
    | _ => Js.times (Js.divide completed total) 100
    end in
  mkStatistics total completed percent.

Definition updateStats (p : Page) : Page :=
  let st := computeStatistics (tasks p) in
  set_stats (Js.toString (totalMinutes st) ++ " min")
            (Js.toString (completedMinutes st) ++ " min")
            (percentComplete st) p.

(** [tasks = JSON.parse(stored)]: the list that was stringified, for a list
    without NaN minutes. *)
Definition loadTasks (p : Page) : Page :=
  match stored_tasks p with
  | Some stored => set_tasks stored p
  | None => p
  end.

Definition saveTasks (p : Page) : Page :=
  updateStats (set_stored_tasks (Some (tasks p)) p).

(** [today] is [new Date().toDateString()] at the call. *)
Definition checkDayReset (today : string) (p : Page) : Page :=
  match stored_date p with
  | Some lastDate =>
      if String.eqb lastDate today then p
      else set_stored_date (Some today)
             (set_stored_tasks (Some []) (set_tasks [] p))
  | None =>
      set_stored_date (Some today)
        (set_stored_tasks (Some []) (set_tasks [] p))
  end.

(** *** The task list on screen *)

(** Texts that hold double quotes are written here with apostrophes
    standing for them. *)
Fixpoint requote (s : string) : string :=
  match s with
  | EmptyString => EmptyString
  | String c s' =>
      String (if Ascii.eqb c "'" then ascii_of_nat 34 else c) (requote s')
  end.

(** [s.replace(/c/g, new)] for a single character [c]. *)
Fixpoint replace_all (c : ascii) (new : string) (s : string) : string :=
  match s with
  | EmptyString => EmptyString
  | String x rest =>
      if Ascii.eqb x c then new ++ replace_all c new rest
      else String x (replace_all c new rest)
  end.

(** The five replacements of [escapeHtml], in the order of the source: the
    ampersand first, then the angle brackets, the double quote (character
    34) and the apostrophe. *)
Definition escape_string (text : string) : string :=
  replace_all "'" "&#039;"
    (replace_all "034" "&quot;"
       (replace_all ">" "&gt;"
          (replace_all "<" "&lt;"
             (replace_all "&" "&amp;" text)))).

(** [escapeHtml(text)]: a falsy value gives the empty string; a truthy value
    that is no string has no [replace] method, and calling it throws a
    TypeError with the host's message [not_a_function]. *)
Definition escapeHtml (not_a_function : string) (text : JValue)
  : Completion string :=
  if negb (truthy text) then Normal ""
  else
    match text with
    | JStr s => Normal (escape_string s)
    | _ => Throw not_a_function
    end.

(** A child of the task list: the [div] with its class and the markup
    assigned to its [innerHTML]. *)
Record Row : Type := mkRow {
  className : string;
  innerHTML : string
}.

(** The template of a row around its five substitutions (apostrophes stand
    for the double quote character). *)
Definition row_markup (checked data_id subject topic minutes : string)
  : string :=
  requote "
            <div class='task-left'>
                <input type='checkbox' class='task-checkbox' 
                    " ++ checked ++ requote " 
                    data-id='" ++ data_id ++ requote "'>
                <div class='task-info'>
                    <h3>" ++ subject ++ "</h3>
                    <p>" ++ topic ++ requote "</p>
                </div>
            </div>
            <div class='task-time'>" ++ minutes ++ " min</div>
        ".

(** The body of the [forEach] callback of [renderTasks] up to
    [appendChild]. *)
Definition render_row (not_a_function : string) (task : Task)
  : Completion Row :=
  match escapeHtml not_a_function (subject task) with
  | Throw m => Throw m
  | Normal s =>
      match escapeHtml not_a_function (topic task) with
      | Throw m => Throw m
      | Normal t =>
          Normal
            (mkRow
               ("task-item " ++ (if completed task then "completed" else ""))
               (row_markup (if completed task then "checked" else "")
                  (Js.string_of_Z (id task)) s t
                  (Js.toString (minutes task))))
      end
  end.

(** The task list node: the markup put in through [innerHTML], or the rows
    appended to it, with the flag telling that the checkboxes have their
    change listener. *)
Inductive TaskList : Type :=
| Markup (html : string)
| Rows (rows : list Row) (listening : bool).

Definition empty_state : string :=
  requote "<div class='empty-state'>No tasks for today. Start planning!</div>".

(** [tasks.forEach(...)] appending to the rows so far; an error ends it. *)
Fixpoint render_rows (not_a_function : string) (ts : list Task)
    (rows : list Row) : list Row * option string :=
  match ts with
  | [] => (rows, None)
  | task :: rest =>
      match render_row not_a_function task with
      | Throw m => (rows, Some m)
      | Normal row => render_rows not_a_function rest (rows ++ [row])
      end
  end.

(** [renderTasks()]: the node afterwards and the error thrown, if any. *)
Definition renderTasks (not_a_function : string) (ts : list Task)
  : TaskList * option string :=
  match ts with
  | [] => (Markup empty_state, None)
  | _ =>
      match render_rows not_a_function ts [] with
      | (rows, None) => (Rows rows true, None)
      | (rows, Some m) => (Rows rows false, Some m)
      end
  end.

(** *** The handlers

    The handlers are given here by what they do to the page record; the task
    list node itself is followed in [Render] below.  Of [renderTasks()] the
    page record only feels whether it throws. *)

(** [now] is what [Date.now()] gives at the call.  An error thrown by
    [renderTasks()] is caught by nobody and ends the handler before the
    inputs are cleared; its message plays no part. *)
Definition addManualTask (now : Z) (p : Page) : Page :=
  let subject := Js.trim (subjectInput p) in
  let topic := Js.trim (topicInput p) in
  let minutes := Js.parseInt (timeInput p) in
  let reject := alert "Please fill in all fields correctly." p in
  if String.eqb subject "" || String.eqb topic "" then reject
  else
    match minutes with
    | Js.NaN => reject
    | Js.Num m =>
        if m <=? 0 then reject
        else
          let newTask := mkTask now (JStr subject) (JStr topic) minutes false in
          let p := set_tasks (tasks p ++ [newTask]) p in
          let p := saveTasks p in
          match snd (renderTasks "" (tasks p)) with
          | None => set_inputs "" "" "" p
          | Some _ => p
          end
    end.

(** The message the import throws for the element at [index]. *)
Definition missing_message (index : nat) : string :=
  "Item at index " ++ Js.string_of_Z (Z.of_nat index) ++ " is missing fields.".

(** The body of the [forEach] callback of the import for one element; [now]
    is [Date.now()] at that element. *)
Definition import_item (host : Host) (now : Z) (item : JValue) (index : nat)
  : Completion Task :=
  let missing := Throw (missing_message index) in
  match get host item "subject" with
  | Throw m => Throw m
  | Normal s =>
      if negb (truthy s) then missing
      else
        match get host item "topic" with
        | Throw m => Throw m
        | Normal t =>
            if negb (truthy t) then missing
            else
              match get host item "minutes" with
              | Throw m => Throw m
              | Normal mi =>
                  if negb (truthy mi) then missing
                  else
                    Normal (mkTask (now + Z.of_nat index) s t
                              (parseInt_value mi) false)
              end
        end
  end.

(** [data.forEach((item, index) => ...)] pushing onto [newTasks]; [now i] is
    the clock reading while element [i] is handled. *)
Fixpoint forEach_import (host : Host) (now : nat -> Z) (data : list JValue)
    (index : nat) (newTasks : list Task) : Completion (list Task) :=
  match data with
  | [] => Normal newTasks
  | item :: rest =>
      match import_item host (now index) item index with
      | Throw m => Throw m
      | Normal t => forEach_import host now rest (S index) (newTasks ++ [t])
      end
  end.

(** The [try] block of [importJsonTasks] up to the merge. *)
Definition import_try (host : Host) (now : nat -> Z) (rawJson : string)
  : Completion (list Task) :=
  match JSON_parse host rawJson with
  | Throw m => Throw m
  | Normal (JArr data) => forEach_import host now data 0%nat []
  | Normal _ => Throw "JSON must be an array of objects."
  end.

(** [renderTasks()] sits inside the [try] block, after the merge and the
    save: an error it throws is caught like the others. *)
Definition importJsonTasks (host : Host) (now : nat -> Z) (p : Page) : Page :=
  let rawJson := Js.trim (jsonInput p) in
  let p := set_importError "" p in
  if String.eqb rawJson ""
  then set_importError "Please paste some JSON first." p
  else
    match import_try host now rawJson with
    | Normal newTasks =>
        let p := set_tasks (tasks p ++ newTasks) p in
        let p := saveTasks p in
        match snd (renderTasks (not_a_function_message host) (tasks p)) with
        | None =>
            let p := set_jsonInput "" p in
            alert ("Successfully imported "
                   ++ Js.string_of_Z (Z.of_nat (List.length newTasks))
                   ++ " tasks.") p
        | Some message => set_importError ("Invalid JSON: " ++ message) p
        end
    | Throw message => set_importError ("Invalid JSON: " ++ message) p
    end.

(** [tasks.find(t => t.id === id)] followed by [task.completed = checked]:
    the first task with that id is the one updated, in place. *)
Fixpoint set_completed (i : Z) (checked : bool) (ts : list Task)
  : option (list Task) :=
  match ts with
  | [] => None
  | t :: rest =>
      if id t =? i
      then Some (mkTask (id t) (subject t) (topic t) (minutes t) checked
                   :: rest)
      else option_map (cons t) (set_completed i checked rest)
  end.

(** [data_id] is the checkbox's [data-id] attribute, [checked] its state. *)
Definition toggleTask (data_id : string) (checked : bool) (p : Page) : Page :=
  match Js.parseInt data_id with
  | Js.NaN => p
  | Js.Num i =>
      match set_completed i checked (tasks p) with
      | Some ts => updateStats (saveTasks (set_tasks ts p))
      | None => p
      end
  end.

(** [confirmed] is the answer given to [confirm]; [renderTasks()] does not
    throw on the empty list. *)
Definition clearAllTasks (confirmed : bool) (p : Page) : Page :=
  if confirmed then saveTasks (set_tasks [] p) else p.

(** The Task invariant of the data model: subject and topic are strings
    that are not empty once trimmed, minutes is an integer above 0. *)
Definition nonblank (v : JValue) : bool :=
  match v with
  | JStr s => negb (String.eqb (Js.trim s) "")
  | _ => false
  end.

Definition valid_task (t : Task) : bool :=
  nonblank (subject t) && nonblank (topic t) &&
  match minutes t with
  | Js.Num m => 0 <? m
  | Js.NaN => false
  end.

(** The sums the specification words, over the integer minutes. *)
Fixpoint minutes_total (ts : list Task) : Z :=
  match ts with
  | [] => 0
  | t :: rest => Js.or_zero (minutes t) + minutes_total rest
  end.

Fixpoint minutes_completed (ts : list Task) : Z :=
  match ts with
  | [] => 0
  | t :: rest =>
      (if completed t then Js.or_zero (minutes t) else 0)
      + minutes_completed rest
  end.

(** A task whose minutes are a whole number, not negative. *)
Definition whole_minutes (t : Task) : Prop :=
  exists m, minutes t = Js.Num m /\ 0 <= m.

(** A task that [JSON.parse] gives back from the stored text as it was
    stringified: a number for minutes, since NaN is written as [null], and
    for subject and topic a value that is no array and no object (inside
    those, [undefined] is written as [null] or left out). *)
Definition scalar (v : JValue) : bool :=
  match v with
  | JArr _ | JObj _ => false
  | _ => true
  end.

Definition reads_back (t : Task) : bool :=
  scalar (subject t) && scalar (topic t)
  && match minutes t with
     | Js.Num _ => true
     | Js.NaN => false
     end.

(** An element the import's test lets through. *)
Definition has_fields (item : JValue) : bool :=
  match item with
  | JObj fields =>
      truthy (lookup "subject" fields) && truthy (lookup "topic" fields)
      && truthy (lookup "minutes" fields)
  | _ => false
  end.

(** The task the import builds from an object with the given fields. *)
Definition task_of (now : Z) (index : nat) (fields : list (string * JValue))
  : Task :=
  mkTask (now + Z.of_nat index) (lookup "subject" fields)
    (lookup "topic" fields) (parseInt_value (lookup "minutes" fields)) false.

(** *** Concrete data to run the planner on *)

Definition entry (s t : string) (m : JValue) : JValue :=
  JObj [("subject", JStr s); ("topic", JStr t); ("minutes", m)].

Definition two_tasks_text : string :=
  requote "[{'subject':'A','topic':'B','minutes':10},{'subject':'C','topic':'D','minutes':'15'}]".

Definition negative_minutes_text : string :=
  requote "[{'subject':'A','topic':'B','minutes':-5}]".

Definition blank_subject_text : string :=
  requote "[{'subject':' ','topic':7,'minutes':'soon'}]".

Definition task_then_null_text : string :=
  requote "[{'subject':'A','topic':'B','minutes':10},null]".

Definition second_lacks_fields_text : string :=
  requote "[{'subject':'A','topic':'B','minutes':10},{'subject':'C'}]".

(** The texts used below with the values [JSON.parse] returns for them. *)
Definition sample_texts : list (string * JValue) :=
  [ (two_tasks_text,
     JArr [entry "A" "B" (JNum 10); entry "C" "D" (JStr "15")]);
    (second_lacks_fields_text,
     JArr [entry "A" "B" (JNum 10); JObj [("subject", JStr "C")]]);
    (negative_minutes_text,
     JArr [entry "A" "B" (JNum (-5))]);
    (blank_subject_text,
     JArr [JObj [("subject", JStr " "); ("topic", JNum 7);
                 ("minutes", JStr "soon")]]);
    ("[null]", JArr [JNull]);
    (task_then_null_text,
     JArr [entry "A" "B" (JNum 10); JNull]) ].

(** A host that parses the sample texts and rejects every other text, with
    the wording V8 gives its errors. *)
Definition sample_host : Host :=
  mkHost
    (fun text =>
       match find (fun e => String.eqb (fst e) text) sample_texts with
       | Some e => Normal (snd e)
       | None => Throw "Unexpected token"
       end)
    (fun key => "Cannot read properties of null (reading '" ++ key ++ "')")
    "text.replace is not a function".

(** A planner page holding [ts], in memory and in storage, with [text] in
    the import box. *)
Definition sample_page (ts : list Task) (text : string) : Page :=
  mkPage ts "" "" "" text "" "0 min" "0 min" (Some 0%Q) [] (Some ts)
    (Some "Mon Jan 01 2024").

(** A task already on the list when the import is tried. *)
Definition earlier_task : Task :=
  mkTask 1699999999000 (JStr "Math") (JStr "Algebra") (Js.Num 30) false.

(** The clock standing still at one millisecond. *)
Definition at_ms (t : Z) : nat -> Z := fun _ => t.

End Planner.

(** ** The timer page under a sequence of events *)
Module TimerEvents.
Import Timer.

(** What can happen to the page: the two buttons, the user editing the
    minutes box, the host firing an interval, and the page being loaded
    ([DOMContentLoaded] runs [loadDailyStats]). *)
Inductive Event : Type :=
| StartClick
| ResetClick
| Edit (value : string)
| Fire (id : nat) (today : string)
| Load (today : string).

Definition step (p : Page) (e : Event) : Page :=
  match e with
  | StartClick => startBtn_click p
  | ResetClick => resetTimer p
  | Edit value => set_minutesInput value p
  | Fire id today => interval_fires id today p
  | Load today => loadDailyStats today p
  end.

Definition run (events : list Event) (p : Page) : Page :=
  fold_left step events p.

(** The timer runs exactly when an interval is live, and at most one is:
    the one whose id [countdown] holds. *)
Definition at_most_one (p : Page) : Prop :=
  (isRunning p = false /\ intervals p = []) \/
  (isRunning p = true /\
   exists id, countdown p = Some id /\ intervals p = [id]).

(** [incrementDailyCount] called [n] times, the [k]-th call on the day
    [dates k]. *)
Fixpoint increments (dates : nat -> string) (n : nat) (p : Page) : Page :=
  match n with
  | O => p
  | S k => incrementDailyCount (dates k) (increments dates k p)
  end.

End TimerEvents.

(** ** Batches and rows of the planner, as lists *)
Module Batch.
Import Planner.

(** The tasks an import makes of a batch of objects, the element at
    position [k] handled while the clock reads [now k]. *)
Fixpoint tasks_of_batch (now : nat -> Z) (index : nat) (data : list JValue)
  : list Task :=
  match data with
  | [] => []
  | JObj fields :: rest =>
      task_of (now index) index fields :: tasks_of_batch now (S index) rest
  | _ :: rest => tasks_of_batch now (S index) rest
  end.

(** [item.key] for an element that is an object. *)
Definition field (key : string) (item : JValue) : JValue :=
  match item with
  | JObj fields => lookup key fields
  | _ => JUndefined
  end.

(** The list with the task at position [k] ticked or unticked. *)
Fixpoint check_at (k : nat) (checked : bool) (ts : list Task) : list Task :=
  match ts, k with
  | [], _ => []
  | t :: rest, O =>
      mkTask (id t) (subject t) (topic t) (minutes t) checked :: rest
  | t :: rest, S k' => t :: check_at k' checked rest
  end.

End Batch.

(** ** The planner page under a sequence of events *)
Module PlannerEvents.
Import Planner.

(** The user editing the form or the import box, and the handlers with the
    clock readings and answers they get. *)
Inductive Event : Type :=
| EditForm (subject topic time : string)
| EditJson (text : string)
| AddClick (now : Z)
| ImportClick (now : nat -> Z)
| Change (data_id : string) (checked : bool)
| ClearClick (confirmed : bool).

Definition step (host : Host) (p : Page) (e : Event) : Page :=
  match e with
  | EditForm subject topic time => set_inputs subject topic time p
  | EditJson text => set_jsonInput text p
  | AddClick now => addManualTask now p
  | ImportClick now => importJsonTasks host now p
  | Change data_id checked => toggleTask data_id checked p
  | ClearClick confirmed => clearAllTasks confirmed p
  end.

Definition run (host : Host) (events : list Event) (p : Page) : Page :=
  fold_left (step host) events p.

(** The list last handed to [JSON.stringify] for storage is the list in
    memory, and the statistics on the page are those of that list. *)
Definition in_step (p : Page) : Prop :=
  stored_tasks p = Some (tasks p) /\
  statsTotal p = Js.toString (totalMinutes (computeStatistics (tasks p)))
                 ++ " min" /\
  statsCompleted p
  = Js.toString (completedMinutes (computeStatistics (tasks p))) ++ " min" /\
  progress_percent p = percentComplete (computeStatistics (tasks p)).

End PlannerEvents.

(** ** The planner's page with its task list node *)
Module Render.
Import Planner.

(** The entity one character becomes, and the text escaped in one pass. *)
Definition entity (c : ascii) : string :=
  if Ascii.eqb c "&" then "&amp;"
  else if Ascii.eqb c "<" then "&lt;"
  else if Ascii.eqb c ">" then "&gt;"
  else if Ascii.eqb c "034" then "&quot;"
  else if Ascii.eqb c "'" then "&#039;"
  else String c "".

Fixpoint escape_once (s : string) : string :=
  match s with
  | EmptyString => EmptyString
  | String c rest => entity c ++ escape_once rest
  end.

(** Reading the entities back. *)
Fixpoint unescape (s : string) : string :=
  match s with
  | EmptyString => EmptyString
  | String c rest =>
      let plain := String c (unescape rest) in
      if Ascii.eqb c "&" then
        match rest with
        | String "a" (String "m" (String "p" (String ";" r))) =>
            String "&" (unescape r)
        | String "l" (String "t" (String ";" r)) => String "<" (unescape r)
        | String "g" (String "t" (String ";" r)) => String ">" (unescape r)
        | String "q" (String "u" (String "o" (String "t" (String ";" r)))) =>
            String "034" (unescape r)
        | String "#" (String "0" (String "3" (String "9" (String ";" r)))) =>
            String "'" (unescape r)
        | _ => plain
        end
      else plain
  end.

(** Characters that open or close markup or an attribute value. *)
Definition is_markup (c : ascii) : bool :=
  Ascii.eqb c "<" || Ascii.eqb c ">" || Ascii.eqb c "034" || Ascii.eqb c "'".

Fixpoint count_char (c : ascii) (s : string) : nat :=
  match s with
  | EmptyString => O
  | String x rest => (if Ascii.eqb x c then 1 else 0) + count_char c rest
  end.

Fixpoint has_char (f : ascii -> bool) (s : string) : bool :=
  match s with
  | EmptyString => false
  | String x rest => f x || has_char f rest
  end.

(** The page with its task list node and the errors no handler caught. *)
Record Doc : Type := mkDoc {
  page : Page;
  taskList : TaskList;
  uncaught : list string
}.

Section Handlers.

Variable host : Host.
Variable not_a_function : string.

(** [addManualTask] with the node [renderTasks()] leaves: an error thrown
    there ends the handler before the inputs are cleared and is caught by
    nobody. *)
Definition addManualTask_rendered (now : Z) (d : Doc) : Doc :=
  let p := page d in
  let subject := Js.trim (subjectInput p) in
  let topic := Js.trim (topicInput p) in
  let minutes := Js.parseInt (timeInput p) in
  let reject :=
    mkDoc (alert "Please fill in all fields correctly." p) (taskList d)
      (uncaught d) in
  if String.eqb subject "" || String.eqb topic "" then reject
  else
    match minutes with
    | Js.NaN => reject
    | Js.Num m =>
        if m <=? 0 then reject
        else
          let newTask := mkTask now (JStr subject) (JStr topic) minutes false in
          let p := set_tasks (tasks p ++ [newTask]) p in
          let p := saveTasks p in
          match renderTasks not_a_function (tasks p) with
          | (node, None) => mkDoc (set_inputs "" "" "" p) node (uncaught d)
          | (node, Some m) => mkDoc p node (uncaught d ++ [m])
          end
    end.

(** [importJsonTasks] with the node [renderTasks()] leaves; the call sits
    inside the [try] block after the merge and the save. *)
Definition importJsonTasks_rendered (now : nat -> Z) (d : Doc) : Doc :=
  let p := page d in
  let rawJson := Js.trim (jsonInput p) in
  let p := set_importError "" p in
  if String.eqb rawJson ""
  then mkDoc (set_importError "Please paste some JSON first." p) (taskList d)
         (uncaught d)
  else
    match import_try host now rawJson with
    | Normal newTasks =>
        let p := set_tasks (tasks p ++ newTasks) p in
        let p := saveTasks p in
        match renderTasks not_a_function (tasks p) with
        | (node, None) =>
            let p := set_jsonInput "" p in
            mkDoc
              (alert ("Successfully imported "
                      ++ Js.string_of_Z (Z.of_nat (List.length newTasks))
                      ++ " tasks.") p)
              node (uncaught d)
        | (node, Some message) =>
            mkDoc (set_importError ("Invalid JSON: " ++ message) p) node
              (uncaught d)
        end
    | Throw message =>
        mkDoc (set_importError ("Invalid JSON: " ++ message) p) (taskList d)
          (uncaught d)
    end.

Definition clearAllTasks_rendered (confirmed : bool) (d : Doc) : Doc :=
  if confirmed then
    let p := saveTasks (set_tasks [] (page d)) in
    match renderTasks not_a_function (tasks p) with
    | (node, None) => mkDoc p node (uncaught d)
    | (node, Some m) => mkDoc p node (uncaught d ++ [m])
    end
  else d.

(** The [DOMContentLoaded] handler: [checkDayReset(); loadTasks();
    renderTasks(); updateStats();]. *)
Definition DOMContentLoaded (today : string) (d : Doc) : Doc :=
  let p := loadTasks (checkDayReset today (page d)) in
  match renderTasks not_a_function (tasks p) with
  | (node, None) => mkDoc (updateStats p) node (uncaught d)
  | (node, Some m) => mkDoc p node (uncaught d ++ [m])
  end.

End Handlers.

(** A value [escapeHtml] throws on: truthy and no string. *)
Definition not_text (v : JValue) : bool :=
  truthy v && match v with JStr _ => false | _ => true end.

(** A task both of whose texts [escapeHtml] accepts. *)
Definition renders (t : Task) : bool :=
  negb (not_text (subject t)) && negb (not_text (topic t)).

(** The characters [escapeHtml] replaces. *)
Definition is_special (c : ascii) : bool :=
  Ascii.eqb c "&" || is_markup c.

(** A document showing nothing yet around a page. *)
Definition blank_doc (p : Page) : Doc := mkDoc p (Rows [] false) [].

(** The wording V8 gives the TypeError of [escapeHtml]. *)
Definition v8_not_a_function : string := "text.replace is not a function".

End Render.

(** ** Facts on number rendering and parsing *)
Module JsFacts.
Import Js.

(** *** White space and trimming *)

Lemma trimStart_plain (c : ascii) (r : string) :
  opens_space c = false -> trimStart (String c r) = String c r.
Proof.
  destruct c as [[] [] [] [] [] [] [] []]; intros H;
    try discriminate H; destruct r as [| b [| d r3]]; reflexivity.
Qed.

Lemma trimStart_fixed (s : string) :
  leads_space s = false -> trimStart s = s.
Proof.
  destruct s as [| a [| b [| c r3]]]; cbn [leads_space trimStart]; intros H.
  - reflexivity.
  - rewrite orb_false_r in H. rewrite H. reflexivity.
  - apply orb_false_iff in H as [Ha H]. rewrite orb_false_r in H.
    rewrite Ha, H. reflexivity.
  - apply orb_false_iff in H as [Ha H]. apply orb_false_iff in H as [Hb Hc].
    rewrite Ha, Hb, Hc. reflexivity.
Qed.

Lemma trimStart_leads_bounded (n : nat) :
  forall s, (String.length s <= n)%nat -> leads_space (trimStart s) = false.
Proof.
  induction n as [| n IH]; intros s Hlen.
  - destruct s; [reflexivity | cbn in Hlen; lia].
  - destruct s as [| a r]; [reflexivity |].
    cbn [String.length] in Hlen.
    change (trimStart (String a r))
      with (if is_space a then trimStart r
            else match r with
                 | EmptyString => String a r
                 | String b r2 =>
                     if is_space2 a b then trimStart r2
                     else match r2 with
                          | EmptyString => String a r
                          | String c r3 =>
                              if is_space3 a b c then trimStart r3
                              else String a r
                          end
                 end).
    destruct (is_space a) eqn:Ha; [apply IH; lia |].
    destruct r as [| b r2].
    { cbn [leads_space]. rewrite Ha. reflexivity. }
    cbn [String.length] in Hlen.
    destruct (is_space2 a b) eqn:Hb; [apply IH; lia |].
    destruct r2 as [| c r3].
    { cbn [leads_space]. rewrite Ha, Hb. reflexivity. }
    cbn [String.length] in Hlen.
    destruct (is_space3 a b c) eqn:Hc; [apply IH; lia |].
    cbn [leads_space]. rewrite Ha, Hb, Hc. reflexivity.
Qed.

Lemma trimStart_leads (s : string) : leads_space (trimStart s) = false.
Proof. exact (trimStart_leads_bounded (String.length s) s (Nat.le_refl _)). Qed.

Lemma trimStart_idempotent (s : string) : trimStart (trimStart s) = trimStart s.
Proof. apply trimStart_fixed, trimStart_leads. Qed.

Lemma leads_space_append (s w : string) :
  leads_space s = true -> leads_space (s ++ w) = true.
Proof.
  destruct s as [| a [| b [| c r3]]]; cbn [leads_space append]; intros H.
  - discriminate H.
  - rewrite orb_false_r in H. rewrite H. reflexivity.
  - rewrite orb_false_r in H. apply orb_prop in H as [-> | ->];
      [reflexivity |].
    destruct (is_space a); [reflexivity |]. cbn [orb].
    destruct w; reflexivity.
  - exact H.
Qed.

Lemma trimEnd_prefix (s : string) : exists w, s = trimEnd s ++ w.
Proof.
  induction s as [| c r [w IH]]; [exists ""; reflexivity |].
  cbn [trimEnd]. destruct (trimStart (String c r)).
  - exists (String c r). reflexivity.
  - exists w. cbn [append]. rewrite <- IH. reflexivity.
Qed.

Lemma trimEnd_leads (s : string) :
  leads_space s = false -> leads_space (trimEnd s) = false.
Proof.
  intros H. destruct (trimEnd_prefix s) as [w Hw].
  destruct (leads_space (trimEnd s)) eqn:Hl; [| reflexivity].
  rewrite Hw, (leads_space_append _ w Hl) in H. discriminate H.
Qed.

Lemma trimEnd_nonempty (s : string) :
  s <> "" -> leads_space s = false -> trimEnd s <> "".
Proof.
  intros Hne Hl. destruct s as [| c r]; [contradiction Hne; reflexivity |].
  cbn [trimEnd]. rewrite (trimStart_fixed _ Hl). discriminate.
Qed.

(** What [trim] leaves begins and would go on without white space to
    remove: trimmed once more it is not empty either. *)
Lemma trim_trim_nonempty (s : string) : trim s <> "" -> trim (trim s) <> "".
Proof.
  unfold trim. intros H.
  pose proof (trimEnd_leads _ (trimStart_leads s)) as Hl.
  rewrite (trimStart_fixed _ Hl).
  apply trimEnd_nonempty; [exact H | exact Hl].
Qed.

Lemma trimStart_equation (a : ascii) (r : string) :
  trimStart (String a r)
  = if is_space a then trimStart r
    else match r with
         | EmptyString => String a r
         | String b r2 =>
             if is_space2 a b then trimStart r2
             else match r2 with
                  | EmptyString => String a r
                  | String c r3 =>
                      if is_space3 a b c then trimStart r3 else String a r
                  end
         end.
Proof. reflexivity. Qed.

Lemma blank_append_bounded (n : nat) :
  forall s w, (String.length s <= n)%nat ->
              trimStart s = "" -> trimStart (s ++ w) = trimStart w.
Proof.
  induction n as [| n IH]; intros s w Hlen Hs.
  - destruct s; [reflexivity | cbn in Hlen; lia].
  - destruct s as [| a r]; [reflexivity |].
    cbn [String.length] in Hlen. cbn [append].
    rewrite trimStart_equation in Hs. rewrite trimStart_equation.
    destruct (is_space a); [apply IH; [lia | exact Hs] |].
    destruct r as [| b r2]; [discriminate Hs |].
    cbn [String.length] in Hlen. cbn [append].
    destruct (is_space2 a b); [apply IH; [lia | exact Hs] |].
    destruct r2 as [| c r3]; [discriminate Hs |].
    cbn [String.length] in Hlen. cbn [append].
    destruct (is_space3 a b c); [apply IH; [lia | exact Hs] |].
    discriminate Hs.
Qed.

Lemma blank_append (s w : string) :
  trimStart s = "" -> trimStart (s ++ w) = trimStart w.
Proof. exact (blank_append_bounded (String.length s) s w (Nat.le_refl _)). Qed.

Lemma trimEnd_tail (s : string) :
  exists w, s = trimEnd s ++ w /\ trimStart w = "".
Proof.
  induction s as [| c r [w [IH Hw]]]; [exists ""; split; reflexivity |].
  cbn [trimEnd]. destruct (trimStart (String c r)) eqn:Hs.
  - exists (String c r). split; [reflexivity | exact Hs].
  - exists w. split; [cbn [append]; rewrite <- IH; reflexivity | exact Hw].
Qed.

Lemma trimEnd_idempotent (s : string) : trimEnd (trimEnd s) = trimEnd s.
Proof.
  induction s as [| c r IH]; [reflexivity |].
  cbn [trimEnd]. destruct (trimStart (String c r)) eqn:Hs; [reflexivity |].
  cbn [trimEnd]. rewrite IH.
  destruct (trimStart (String c (trimEnd r))) eqn:Hp; [| reflexivity].
  destruct (trimEnd_tail r) as [w [Hr Hw]].
  pose proof (blank_append (String c (trimEnd r)) w Hp) as H.
  cbn [append] in H. rewrite <- Hr, Hw, Hs in H. discriminate H.
Qed.

Lemma trim_idempotent (s : string) : trim (trim s) = trim s.
Proof.
  unfold trim.
  rewrite (trimStart_fixed _ (trimEnd_leads _ (trimStart_leads s))).
  apply trimEnd_idempotent.
Qed.

(** *** Printing and reading whole numbers *)

Lemma small_cases (d : Z) :
  0 <= d < 10 ->
  d = 0 \/ d = 1 \/ d = 2 \/ d = 3 \/ d = 4 \/
  d = 5 \/ d = 6 \/ d = 7 \/ d = 8 \/ d = 9.
Proof. lia. Qed.

Lemma digit_value_digit_char (d : Z) :
  0 <= d < 10 -> digit_value 10 (digit_char d) = Some d.
Proof.
  intros H.
  destruct (small_cases d H) as [-> | [-> | [-> | [-> | [-> |
            [-> | [-> | [-> | [-> | ->]]]]]]]]]; reflexivity.
Qed.

Lemma is_digit_digit_char (d : Z) :
  0 <= d < 10 -> is_digit (digit_char d) = true.
Proof.
  intros H.
  destruct (small_cases d H) as [-> | [-> | [-> | [-> | [-> |
            [-> | [-> | [-> | [-> | ->]]]]]]]]]; reflexivity.
Qed.

Lemma digits_acc_all_digits (fuel : nat) :
  forall n acc, 0 <= n -> all_digits acc = true ->
                all_digits (digits_acc fuel n acc) = true.
Proof.
  induction fuel as [| fuel IH]; intros n acc Hn Hacc; cbn [digits_acc].
  - exact Hacc.
  - assert (Hd : all_digits (String (digit_char (n mod 10)) acc) = true).
    { cbn [all_digits]. rewrite is_digit_digit_char, Hacc; [reflexivity |].
      apply Z.mod_pos_bound; lia. }
    destruct (n <? 10); [exact Hd |].
    apply IH; [apply Z.div_pos; lia | exact Hd].
Qed.

Lemma digits_acc_nonempty (fuel : nat) (n : Z) (acc : string) :
  digits_acc (S fuel) n acc <> "".
Proof.
  revert n acc. induction fuel as [| fuel IH]; intros n acc.
  - cbn [digits_acc]. destruct (n <? 10); discriminate.
  - change (digits_acc (S (S fuel)) n acc)
      with (let acc' := String (digit_char (n mod 10)) acc in
            if n <? 10 then acc' else digits_acc (S fuel) (n / 10) acc').
    cbv zeta. destruct (n <? 10); [discriminate | apply IH].
Qed.

(** Reading back what [digits_acc] printed continues with the digits that
    follow as if the number had been accumulated. *)
Lemma parse_digits_acc (fuel : nat) :
  forall n rest seen a,
    0 <= n < 2 ^ Z.of_nat (S fuel) ->
    exists k, 0 <= k /\
      (parse_digits 10 seen a (digits_acc (S fuel) n rest)
       = parse_digits 10 true (a * 10 ^ k + n) rest).
Proof.
  induction fuel as [| fuel IH]; intros n rest seen a Hn.
  - change (2 ^ Z.of_nat 1) with 2 in Hn.
    assert (Hlt : (n <? 10) = true) by (apply Z.ltb_lt; lia).
    exists 1. split; [lia |]. cbn [digits_acc]. rewrite Hlt.
    cbn [parse_digits]. rewrite digit_value_digit_char
      by (apply Z.mod_pos_bound; lia).
    rewrite Z.mod_small by lia.
    f_equal; lia.
  - change (digits_acc (S (S fuel)) n rest)
      with (let acc' := String (digit_char (n mod 10)) rest in
            if n <? 10 then acc' else digits_acc (S fuel) (n / 10) acc').
    cbv zeta. destruct (n <? 10) eqn:Hlt.
    + apply Z.ltb_lt in Hlt. exists 1. split; [lia |].
      cbn [parse_digits]. rewrite digit_value_digit_char
        by (apply Z.mod_pos_bound; lia).
      rewrite Z.mod_small by lia. f_equal; lia.
    + apply Z.ltb_ge in Hlt.
      assert (Hq : 0 <= n / 10 < 2 ^ Z.of_nat (S fuel)).
      { split; [apply Z.div_pos; lia |].
        apply Z.div_lt_upper_bound; [lia |].
        rewrite (Nat2Z.inj_succ (S fuel)), Z.pow_succ_r in Hn by lia.
        lia. }
      destruct (IH (n / 10) (String (digit_char (n mod 10)) rest) seen a Hq)
        as [k [Hk Heq]].
      exists (k + 1). split; [lia |]. rewrite Heq.
      cbn [parse_digits]. rewrite digit_value_digit_char
        by (apply Z.mod_pos_bound; lia).
      f_equal. rewrite Z.pow_add_r, Z.pow_1_r by lia.
      pose proof (Z.div_mod n 10). lia.
Qed.

Lemma digits_fuel (n : Z) :
  0 <= n -> 0 <= n < 2 ^ Z.of_nat (S (Z.to_nat (Z.log2 n))).
Proof.
  intros Hn. split; [exact Hn |].
  rewrite Nat2Z.inj_succ, Z2Nat.id by apply Z.log2_nonneg.
  destruct (Z.eq_dec n 0) as [-> | Hne]; [reflexivity |].
  apply Z.log2_spec. lia.
Qed.

Lemma parse_digits_digits (n : Z) :
  0 <= n -> parse_digits 10 false 0 (digits n) = Some n.
Proof.
  intros Hn. unfold digits.
  destruct (parse_digits_acc (Z.to_nat (Z.log2 n)) n "" false 0
              (digits_fuel n Hn)) as [k [_ Heq]].
  rewrite Heq. cbn [parse_digits]. f_equal; lia.
Qed.

Lemma digits_all_digits (n : Z) : 0 <= n -> all_digits (digits n) = true.
Proof.
  intros Hn. unfold digits. apply digits_acc_all_digits; [exact Hn | reflexivity].
Qed.

Lemma head_digit_plain (c : ascii) (s : string) :
  is_digit c = true ->
  trimStart (String c s) = String c s /\
  match String c s with
  | String "-" r => (-1, r)
  | String "+" r => (1, r)
  | _ => (1, String c s)
  end = (1, String c s).
Proof.
  intros H. split.
  - apply trimStart_plain.
    destruct c as [[] [] [] [] [] [] [] []]; try discriminate H; reflexivity.
  - destruct c as [[] [] [] [] [] [] [] []]; try discriminate H; reflexivity.
Qed.

Lemma all_digits_no_hex (s : string) :
  all_digits s = true -> strip_hex s = None.
Proof.
  destruct s as [| c [| c' s']]; [reflexivity | |].
  { intros _. destruct c as [[] [] [] [] [] [] [] []]; reflexivity. }
  cbn [all_digits]. intros H.
  apply andb_prop in H as [_ H]. apply andb_prop in H as [H _].
  destruct c' as [[] [] [] [] [] [] [] []]; try discriminate H;
    destruct c as [[] [] [] [] [] [] [] []]; reflexivity.
Qed.

Lemma parse_unsigned_digits (n : Z) :
  0 <= n -> parse_unsigned (digits n) = Some n.
Proof.
  intros Hn. unfold parse_unsigned.
  rewrite all_digits_no_hex by (apply digits_all_digits; exact Hn).
  apply parse_digits_digits; exact Hn.
Qed.

(** [parseInt(String(z))] is [z]. *)
Lemma parseInt_string_of_Z (z : Z) : parseInt (string_of_Z z) = Num z.
Proof.
  unfold string_of_Z. destruct (z <? 0) eqn:Hneg.
  - apply Z.ltb_lt in Hneg. unfold parseInt.
    rewrite (trimStart_plain "-" _ eq_refl). cbv iota.
    rewrite parse_unsigned_digits by lia. f_equal; lia.
  - apply Z.ltb_ge in Hneg.
    pose proof (digits_all_digits z Hneg) as Hall.
    pose proof (parse_unsigned_digits z Hneg) as Hparse.
    destruct (digits z) as [| c s] eqn:Hd.
    + exfalso. revert Hd. unfold digits. apply digits_acc_nonempty.
    + cbn [all_digits] in Hall. apply andb_prop in Hall as [Hc _].
      destruct (head_digit_plain c s Hc) as [Hsp Hsign].
      unfold parseInt. rewrite Hsp.
      rewrite Hsign. rewrite Hparse. f_equal; lia.
Qed.

Lemma append_assoc (a b c : string) : (a ++ b) ++ c = a ++ (b ++ c).
Proof.
  induction a as [| x a IH]; [reflexivity |].
  cbn [append]. rewrite IH. reflexivity.
Qed.

Lemma digits_acc_append (fuel : nat) :
  forall n acc rest,
    digits_acc fuel n acc ++ rest = digits_acc fuel n (acc ++ rest).
Proof.
  induction fuel as [| fuel IH]; intros n acc rest; cbn [digits_acc].
  - reflexivity.
  - destruct (n <? 10); [reflexivity |]. rewrite IH. reflexivity.
Qed.

(** Digits followed by a colon read back as the number, on top of whatever
    was accumulated before them. *)
Lemma parse_digits_colon (n : Z) (seen : bool) (a : Z) (r : string) :
  0 <= n ->
  exists k, 0 <= k /\
    (parse_digits 10 seen a (digits n ++ String ":" r)
     = Some (a * 10 ^ k + n)).
Proof.
  intros Hn. unfold digits. rewrite digits_acc_append. cbn [append].
  destruct (parse_digits_acc (Z.to_nat (Z.log2 n)) n (String ":" r) seen a
              (digits_fuel n Hn)) as [k [Hk Heq]].
  exists k. split; [exact Hk |]. rewrite Heq. reflexivity.
Qed.

Lemma digits_head (n : Z) :
  0 <= n ->
  exists c s, digits n = String c s /\ is_digit c = true
              /\ all_digits s = true.
Proof.
  intros Hn. pose proof (digits_all_digits n Hn) as Hall.
  destruct (digits n) as [| c s] eqn:Hd.
  - exfalso. revert Hd. unfold digits. apply digits_acc_nonempty.
  - cbn [all_digits] in Hall. apply andb_prop in Hall as [Hc Hs].
    exists c, s. repeat split; assumption.
Qed.

Lemma digit_then_any_no_hex (c c' : ascii) (s : string) :
  is_digit c' = true -> strip_hex (String c (String c' s)) = None.
Proof.
  intros H.
  destruct c' as [[] [] [] [] [] [] [] []]; try discriminate H;
    destruct c as [[] [] [] [] [] [] [] []]; reflexivity.
Qed.

(** *** Rounding to a double *)

Lemma round_half_even_le (n d K : Z) :
  0 < d -> n <= K * d -> round_half_even n d <= K.
Proof.
  intros Hd Hn. unfold round_half_even.
  pose proof (Z.div_mod n d ltac:(lia)) as Hdm.
  pose proof (Z.mod_pos_bound n d Hd) as Hr.
  assert (Hq : n / d <= K) by (apply Z.div_le_upper_bound; lia).
  destruct (2 * (n mod d) <? d) eqn:H1; [exact Hq |].
  apply Z.ltb_ge in H1.
  assert (n / d < K) by nia.
  destruct (d <? 2 * (n mod d)); [lia |].
  destruct (Z.even (n / d)); lia.
Qed.

Lemma round_half_even_nonneg (n d : Z) :
  0 <= n -> 0 < d -> 0 <= round_half_even n d.
Proof.
  intros Hn Hd. unfold round_half_even.
  assert (Hq : 0 <= n / d) by (apply Z.div_pos; lia).
  destruct (2 * (n mod d) <? d); [exact Hq |].
  destruct (d <? 2 * (n mod d)); [lia |].
  destruct (Z.even (n / d)); lia.
Qed.

Lemma exponent_of_small (n d B : Z) :
  0 < n -> 0 < d -> n <= B * d -> B <= 2 ^ 52 -> exponent_of n d <= 0.
Proof.
  intros Hn Hd Hle HB. unfold exponent_of.
  assert (Hlog : Z.log2 n <= 52 + Z.log2 d).
  { rewrite <- (Z.log2_mul_pow2 d 52) by lia.
    apply Z.log2_le_mono. nia. }
  destruct (scale_num n (Z.log2 n - Z.log2 d - 53)
            <? 2 ^ 53 * scale_den d (Z.log2 n - Z.log2 d - 53)); lia.
Qed.

Lemma nearest_double_le (n d B : Z) :
  0 < n -> 0 < d -> n <= B * d -> B <= 2 ^ 52 ->
  (nearest_double n d <= inject_Z B)%Q.
Proof.
  intros Hn Hd Hle HB.
  pose proof (exponent_of_small n d B Hn Hd Hle HB) as He.
  unfold nearest_double. rewrite Qred_correct.
  set (e := exponent_of n d) in *.
  assert (Hpow : 0 < 2 ^ (- e)) by (apply Z.pow_pos_nonneg; lia).
  unfold scale_num, scale_den.
  rewrite (Z.max_l 0 e), (Z.max_r 0 (- e)) by lia.
  rewrite Z.pow_0_r, !Z.mul_1_r.
  assert (Hm : round_half_even (n * 2 ^ (- e)) d <= B * 2 ^ (- e)).
  { apply round_half_even_le; [exact Hd | nia]. }
  unfold Qle, inject_Z. cbn [Qnum Qden].
  rewrite Z2Pos.id by exact Hpow. lia.
Qed.

Lemma nearest_double_nonneg (n d : Z) :
  0 < n -> 0 < d -> (0 <= nearest_double n d)%Q.
Proof.
  intros Hn Hd. unfold nearest_double. rewrite Qred_correct.
  unfold Qle. cbn [Qnum Qden]. rewrite Z.mul_1_r.
  apply Z.mul_nonneg_nonneg.
  - apply round_half_even_nonneg.
    + unfold scale_num. apply Z.mul_nonneg_nonneg; [lia |].
      apply Z.pow_nonneg. lia.
    + unfold scale_den. apply Z.mul_pos_pos; [exact Hd |].
      apply Z.pow_pos_nonneg; lia.
  - apply Z.pow_nonneg. lia.
Qed.

Lemma round_double_comp (x y : Q) : (x == y)%Q -> round_double x = round_double y.
Proof.
  intros H. unfold round_double. rewrite (Qred_complete x y H). reflexivity.
Qed.

Lemma round_double_nonneg (q : Q) : (0 <= q)%Q -> (0 <= round_double q)%Q.
Proof.
  intros Hq. unfold round_double.
  assert (Hr : (0 <= Qred q)%Q) by (rewrite Qred_correct; exact Hq).
  destruct (Qred q) as [num den]. cbn [Qnum Qden].
  destruct num as [| n | n].
  - apply Qle_refl.
  - apply nearest_double_nonneg; reflexivity.
  - unfold Qle in Hr. cbn in Hr. lia.
Qed.

Lemma round_double_le (q : Q) (B : Z) :
  (0 <= q)%Q -> (q <= inject_Z B)%Q -> B <= 2 ^ 52 ->
  (round_double q <= inject_Z B)%Q.
Proof.
  intros Hq HqB HB. unfold round_double.
  assert (Hr : (0 <= Qred q)%Q) by (rewrite Qred_correct; exact Hq).
  assert (HrB : (Qred q <= inject_Z B)%Q) by (rewrite Qred_correct; exact HqB).
  destruct (Qred q) as [num den]. cbn [Qnum Qden].
  unfold Qle, inject_Z in Hr, HrB. cbn [Qnum Qden] in Hr, HrB.
  destruct num as [| n | n].
  - unfold Qle, inject_Z. cbn [Qnum Qden]. lia.
  - apply nearest_double_le; try reflexivity; lia.
  - lia.
Qed.

Lemma pow2_pos (k : Z) : 0 <= k -> 0 < 2 ^ k.
Proof. intros H. apply Z.pow_pos_nonneg; lia. Qed.

(** At the first exponent tried the scaled quotient is below [2 ^ 54]. *)
Lemma scaled_below (n d : Z) :
  0 < n -> 0 < d ->
  let e := Z.log2 n - Z.log2 d - 53 in
  scale_num n e < 2 ^ 54 * scale_den d e.
Proof.
  intros Hn Hd. cbv zeta.
  pose proof (Z.log2_spec n Hn) as [_ Hnu].
  pose proof (Z.log2_spec d Hd) as [Hdl _].
  pose proof (Z.log2_nonneg n) as Hln. pose proof (Z.log2_nonneg d) as Hld.
  set (ln := Z.log2 n) in *. set (ld := Z.log2 d) in *.
  unfold scale_num, scale_den.
  destruct (Z_le_gt_dec 0 (ln - ld - 53)) as [He | He].
  - rewrite (Z.max_r 0 (ln - ld - 53)), (Z.max_l 0 (- (ln - ld - 53))) by lia.
    rewrite Z.pow_0_r, Z.mul_1_r.
    assert (Heq : 2 ^ Z.succ ln = 2 ^ 54 * (2 ^ ld * 2 ^ (ln - ld - 53))).
    { rewrite <- !Z.pow_add_r by lia. f_equal. lia. }
    pose proof (pow2_pos (ln - ld - 53) He) as Hp.
    assert (Hmono : 2 ^ ld * 2 ^ (ln - ld - 53) <= d * 2 ^ (ln - ld - 53)) by nia.
    lia.
  - rewrite (Z.max_l 0 (ln - ld - 53)), (Z.max_r 0 (- (ln - ld - 53))) by lia.
    rewrite Z.pow_0_r, Z.mul_1_r.
    assert (Hp : 0 < 2 ^ (- (ln - ld - 53))) by (apply pow2_pos; lia).
    assert (Heq : 2 ^ Z.succ ln * 2 ^ (- (ln - ld - 53)) = 2 ^ 54 * 2 ^ ld).
    { rewrite <- !Z.pow_add_r by lia. f_equal. lia. }
    assert (H1 : n * 2 ^ (- (ln - ld - 53))
                 < 2 ^ Z.succ ln * 2 ^ (- (ln - ld - 53))) by nia.
    assert (H2 : 2 ^ 54 * 2 ^ ld <= 2 ^ 54 * d) by lia.
    lia.
Qed.

(** One exponent further the scaled quotient is halved. *)
Lemma scaled_next (n d e : Z) :
  0 < n -> 0 < d ->
  scale_num n e < 2 ^ 54 * scale_den d e ->
  scale_num n (e + 1) < 2 ^ 53 * scale_den d (e + 1).
Proof.
  intros Hn Hd H. unfold scale_num, scale_den in *.
  destruct (Z_le_gt_dec 0 e) as [He | He].
  - rewrite (Z.max_r 0 e), (Z.max_l 0 (- e)) in H by lia.
    rewrite (Z.max_r 0 (e + 1)), (Z.max_l 0 (- (e + 1))) by lia.
    rewrite Z.pow_0_r, Z.mul_1_r in *.
    rewrite Z.pow_add_r, Z.pow_1_r by lia.
    change (2 ^ 54) with (2 ^ 53 * 2) in H. lia.
  - rewrite (Z.max_l 0 e), (Z.max_r 0 (- e)) in H by lia.
    rewrite (Z.max_l 0 (e + 1)), (Z.max_r 0 (- (e + 1))) by lia.
    rewrite Z.pow_0_r, Z.mul_1_r in *.
    replace (- e) with (- (e + 1) + 1) in H by lia.
    rewrite Z.pow_add_r, Z.pow_1_r in H by lia.
    change (2 ^ 54) with (2 ^ 53 * 2) in H. lia.
Qed.

(** A larger exponent scales further down. *)
Lemma scaled_mono (n d e e' b : Z) :
  0 < n -> 0 < d -> 0 <= b -> e <= e' ->
  scale_num n e < b * scale_den d e ->
  scale_num n e' < b * scale_den d e'.
Proof.
  intros Hn Hd Hb Hle H. unfold scale_num, scale_den in *.
  assert (Hnum : 2 ^ Z.max 0 (- e') <= 2 ^ Z.max 0 (- e)).
  { apply Z.pow_le_mono_r; lia. }
  assert (Hden : 2 ^ Z.max 0 e <= 2 ^ Z.max 0 e').
  { apply Z.pow_le_mono_r; lia. }
  assert (H1 : n * 2 ^ Z.max 0 (- e') <= n * 2 ^ Z.max 0 (- e)).
  { apply Z.mul_le_mono_nonneg_l; lia. }
  assert (H2 : b * (d * 2 ^ Z.max 0 e) <= b * (d * 2 ^ Z.max 0 e')).
  { apply Z.mul_le_mono_nonneg_l; [lia |].
    apply Z.mul_le_mono_nonneg_l; lia. }
  lia.
Qed.

Lemma mantissa_bound (n d : Z) :
  0 < n -> 0 < d ->
  0 <= round_half_even (scale_num n (exponent_of n d))
         (scale_den d (exponent_of n d)) <= 2 ^ 53.
Proof.
  intros Hn Hd.
  assert (Hden : forall e, 0 < scale_den d e).
  { intros e. unfold scale_den. apply Z.mul_pos_pos; [exact Hd |].
    apply pow2_pos. lia. }
  assert (Hnum : forall e, 0 <= scale_num n e).
  { intros e. unfold scale_num. apply Z.mul_nonneg_nonneg; [lia |].
    apply Z.pow_nonneg. lia. }
  split; [apply round_half_even_nonneg; [apply Hnum | apply Hden] |].
  apply round_half_even_le; [apply Hden |].
  apply Z.lt_le_incl.
  unfold exponent_of.
  set (e0 := Z.log2 n - Z.log2 d - 53).
  pose proof (scaled_below n d Hn Hd) as Hbelow. cbv zeta in Hbelow.
  fold e0 in Hbelow.
  destruct (scale_num n e0 <? 2 ^ 53 * scale_den d e0) eqn:Htest.
  - apply Z.ltb_lt in Htest.
    apply (scaled_mono n d e0); try assumption; lia.
  - pose proof (scaled_next n d e0 Hn Hd Hbelow) as Hnext.
    apply (scaled_mono n d (e0 + 1)); try assumption; lia.
Qed.

Lemma nearest_double_is_double (n d : Z) :
  0 < n -> 0 < d -> is_double (nearest_double n d).
Proof.
  intros Hn Hd. unfold is_double, nearest_double.
  pose proof (mantissa_bound n d Hn Hd) as Hm.
  exists (round_half_even (scale_num n (exponent_of n d))
            (scale_den d (exponent_of n d))), (exponent_of n d).
  split; [rewrite Z.abs_eq; lia |].
  split; [unfold exponent_of; lia |].
  apply Qred_correct.
Qed.

(** What [round_double] gives is a double. *)
Lemma round_double_is_double (q : Q) : is_double (round_double q).
Proof.
  unfold round_double. destruct (Qred q) as [num den]. cbn [Qnum Qden].
  destruct num as [| n | n].
  - exists 0, 0. split; [discriminate |]. split; [discriminate | reflexivity].
  - apply nearest_double_is_double; reflexivity.
  - destruct (nearest_double_is_double (Z.pos n) (Z.pos den) eq_refl eq_refl)
      as [m [e [Hm [He Heq]]]].
    exists (- m), e. split; [rewrite Z.abs_opp; exact Hm |].
    split; [exact He |].
    rewrite Heq. unfold Qeq, Qopp. cbn [Qnum Qden]. lia.
Qed.

Lemma round_half_even_error (n d : Z) :
  0 < d -> - d <= 2 * round_half_even n d * d - 2 * n <= d.
Proof.
  intros Hd. unfold round_half_even.
  pose proof (Z.div_mod n d ltac:(lia)) as Hdm.
  pose proof (Z.mod_pos_bound n d Hd) as Hr.
  destruct (2 * (n mod d) <? d) eqn:H1.
  - apply Z.ltb_lt in H1. nia.
  - apply Z.ltb_ge in H1. destruct (d <? 2 * (n mod d)) eqn:H2.
    + apply Z.ltb_lt in H2. nia.
    + apply Z.ltb_ge in H2. destruct (Z.even (n / d)); nia.
Qed.

Lemma exponent_of_le (n d k : Z) :
  0 < n -> 0 < d -> n <= 2 ^ k * d -> 0 <= k <= 52 ->
  exponent_of n d <= k - 52.
Proof.
  intros Hn Hd Hle Hk. unfold exponent_of.
  assert (Hlog : Z.log2 n <= k + Z.log2 d).
  { rewrite <- (Z.log2_mul_pow2 d k) by lia.
    apply Z.log2_le_mono. lia. }
  destruct (scale_num n (Z.log2 n - Z.log2 d - 53)
            <? 2 ^ 53 * scale_den d (Z.log2 n - Z.log2 d - 53)); lia.
Qed.

(** For a quotient of at most [2 ^ k] the nearest double is within
    [2 ^ (k - 53)] of it. *)
Lemma nearest_double_error (n : Z) (p : positive) (k : Z) :
  0 < n -> n <= 2 ^ k * Z.pos p -> 0 <= k <= 52 ->
  (Qabs (nearest_double n (Z.pos p) - (n # p))
   <= 1 # Z.to_pos (2 ^ (53 - k)))%Q.
Proof.
  intros Hn Hle Hk.
  assert (Hd : 0 < Z.pos p) by reflexivity.
  pose proof (exponent_of_le n (Z.pos p) k Hn Hd Hle Hk) as He.
  unfold nearest_double. rewrite Qred_correct.
  set (e := exponent_of n (Z.pos p)) in *.
  unfold scale_num, scale_den.
  rewrite (Z.max_l 0 e), (Z.max_r 0 (- e)) by lia.
  rewrite Z.pow_0_r, !Z.mul_1_r.
  set (P := 2 ^ (- e)).
  assert (HP : 2 ^ (52 - k) <= P).
  { unfold P. apply Z.pow_le_mono_r; lia. }
  assert (Hpow : 0 < 2 ^ (52 - k)) by (apply pow2_pos; lia).
  assert (Hsucc : 2 ^ (53 - k) = 2 * 2 ^ (52 - k)).
  { replace (53 - k) with (Z.succ (52 - k)) by lia.
    apply Z.pow_succ_r. lia. }
  pose proof (round_half_even_error (n * P) (Z.pos p) Hd) as Herr.
  set (m := round_half_even (n * P) (Z.pos p)) in *.
  apply Qabs_Qle_condition.
  unfold Qle, Qminus, Qplus, Qopp. cbn [Qnum Qden].
  rewrite !Pos2Z.inj_mul, !Z2Pos.id by lia.
  fold P. rewrite Hsucc.
  split; nia.
Qed.

Lemma round_double_error (q : Q) (k : Z) :
  (0 <= q)%Q -> (q <= inject_Z (2 ^ k))%Q -> 0 <= k <= 52 ->
  (Qabs (round_double q - q) <= 1 # Z.to_pos (2 ^ (53 - k)))%Q.
Proof.
  intros Hq Hqk Hk.
  assert (Hsame : (Qabs (round_double q - q)
                   == Qabs (round_double q - Qred q))%Q).
  { rewrite Qred_correct. reflexivity. }
  rewrite Hsame. clear Hsame.
  assert (Hr : (0 <= Qred q)%Q) by (rewrite Qred_correct; exact Hq).
  assert (Hrk : (Qred q <= inject_Z (2 ^ k))%Q)
    by (rewrite Qred_correct; exact Hqk).
  unfold round_double. destruct (Qred q) as [num den]. cbn [Qnum Qden].
  unfold Qle, inject_Z in Hr, Hrk. cbn [Qnum Qden] in Hr, Hrk.
  destruct num as [| n | n].
  - apply Qabs_Qle_condition. unfold Qle, Qminus, Qplus, Qopp.
    cbn [Qnum Qden]. split; lia.
  - apply nearest_double_error; lia.
  - lia.
Qed.

(** The percentage the host computes is within [2 ^ -45] of the exact
    one. *)
Lemma percent_error (c t : Z) :
  0 <= c <= t -> 0 < t ->
  (Qabs (round_double (round_double (inject_Z c / inject_Z t) * inject_Z 100)
         - inject_Z c / inject_Z t * inject_Z 100)
   <= 1 # 35184372088832)%Q.
Proof.
  intros Hc Ht.
  assert (Hunit : (0 <= inject_Z c / inject_Z t)%Q
                  /\ (inject_Z c / inject_Z t <= inject_Z 1)%Q).
  { destruct t as [| p | p]; try lia.
    unfold Qle, Qdiv, Qmult, Qinv, inject_Z. cbn [Qnum Qden].
    rewrite ?Pos.mul_1_r, ?Pos2Z.inj_mul. split; nia. }
  destruct Hunit as [Hlo Hhi].
  set (x := (inject_Z c / inject_Z t)%Q) in *.
  pose proof (round_double_error x 0 Hlo Hhi ltac:(lia)) as Hfirst.
  pose proof (round_double_nonneg x Hlo) as Hlo'.
  assert (H1 : 1 <= 2 ^ 52) by (vm_compute; discriminate).
  pose proof (round_double_le x 1 Hlo Hhi H1) as Hhi'.
  set (a := round_double x) in *.
  assert (Hpos : (0 <= a * inject_Z 100)%Q).
  { apply Qmult_le_0_compat; [exact Hlo' | discriminate]. }
  assert (Hle : (a * inject_Z 100 <= inject_Z (2 ^ 7))%Q).
  { apply Qle_trans with (inject_Z 1 * inject_Z 100)%Q.
    - apply Qmult_le_compat_r; [exact Hhi' | discriminate].
    - discriminate. }
  pose proof (round_double_error (a * inject_Z 100) 7 Hpos Hle ltac:(lia))
    as Hsecond.
  set (q := round_double (a * inject_Z 100)) in *.
  assert (Hsplit : (q - x * inject_Z 100
                    == (q - a * inject_Z 100) + (a - x) * inject_Z 100)%Q)
    by ring.
  rewrite Hsplit.
  eapply Qle_trans; [apply Qabs_triangle |].
  rewrite Qabs_Qmult.
  change (Z.to_pos (2 ^ (53 - 7))) with 70368744177664%positive in Hsecond.
  change (Z.to_pos (2 ^ (53 - 0))) with 9007199254740992%positive in Hfirst.
  assert (Hscaled : (Qabs (a - x) * Qabs (inject_Z 100)
                     <= (1 # 9007199254740992) * inject_Z 100)%Q).
  { apply Qmult_le_compat_r; [exact Hfirst | discriminate]. }
  eapply Qle_trans.
  - apply Qplus_le_compat; [exact Hsecond | exact Hscaled].
  - discriminate.
Qed.

(** On these quotients and percentages [round_double] gives what the
    kernel's binary64 division and multiplication give. *)
Lemma round_double_agrees_on_samples :
  forallb
    (fun c =>
       forallb
         (fun t =>
            agrees (PrimFloat.div (float_of_Z c) (float_of_Z t))
              (divide (Num c) (Num t))
            && agrees
                 (PrimFloat.mul (PrimFloat.div (float_of_Z c) (float_of_Z t))
                    (float_of_Z 100))
                 (times (divide (Num c) (Num t)) 100))
         (sample_range 1 16 ++ sample_range 9007199254740977 16))
    (sample_range (-3) 20 ++ sample_range 9007199254740977 16)
  = true.
Proof. vm_compute. reflexivity. Qed.

End JsFacts.

(** ** The focus timer: reset, start, countdown, daily count *)
Module TimerFacts.
Import Js Timer JsFacts.

(** *** Formatting *)

Lemma digits_one (n : Z) :
  0 <= n < 10 -> digits n = String (digit_char n) "".
Proof.
  intros H. unfold digits. cbn [digits_acc].
  assert (Hlt : (n <? 10) = true) by (apply Z.ltb_lt; lia).
  rewrite Hlt, Z.mod_small by lia. reflexivity.
Qed.

Lemma digits_two (n : Z) :
  10 <= n < 100 -> digits n = two_digits n.
Proof.
  intros H. unfold digits.
  assert (Hlog : 3 <= Z.log2 n).
  { change 3 with (Z.log2 10). apply Z.log2_le_mono. lia. }
  destruct (Z.to_nat (Z.log2 n)) as [| f] eqn:Hf; [lia |].
  change (digits_acc (S (S f)) n "")
    with (let acc' := String (digit_char (n mod 10)) "" in
          if n <? 10 then acc' else digits_acc (S f) (n / 10) acc').
  cbv zeta.
  assert (Hge : (n <? 10) = false) by (apply Z.ltb_ge; lia).
  rewrite Hge. cbn [digits_acc].
  assert (Hq : 0 <= n / 10 < 10).
  { split; [apply Z.div_pos; lia | apply Z.div_lt_upper_bound; lia]. }
  assert (Hlt : (n / 10 <? 10) = true) by (apply Z.ltb_lt; lia).
  rewrite Hlt, (Z.mod_small (n / 10)) by lia. reflexivity.
Qed.

Lemma string_of_Z_nonneg (n : Z) : 0 <= n -> string_of_Z n = digits n.
Proof.
  intros H. unfold string_of_Z.
  assert (Hge : (n <? 0) = false) by (apply Z.ltb_ge; lia).
  rewrite Hge. reflexivity.
Qed.

(** A component below 100 comes out of the script's padding as two digits. *)
Lemma padded_two_digits (n : Z) :
  0 <= n < 100 ->
  (if n <? 10 then "0" else "") ++ string_of_Z n = two_digits n.
Proof.
  intros H. rewrite string_of_Z_nonneg by lia.
  destruct (n <? 10) eqn:Hlt.
  - apply Z.ltb_lt in Hlt. rewrite digits_one by lia.
    unfold two_digits. rewrite Z.div_small, Z.mod_small by lia. reflexivity.
  - apply Z.ltb_ge in Hlt. rewrite digits_two by lia. reflexivity.
Qed.

Lemma displayString_formatted (sec : Z) :
  0 <= sec -> displayString (Num sec) = formatted sec.
Proof.
  intros H. unfold displayString, formatted.
  rewrite Z.rem_mod_nonneg by lia.
  assert (Hs : 0 <= sec mod 60 < 60) by (apply Z.mod_pos_bound; lia).
  assert (Hm : 0 <= sec / 60) by (apply Z.div_pos; lia).
  rewrite (padded_two_digits (sec mod 60)) by lia.
  destruct (sec / 60 <? 10) eqn:Hlt.
  - apply Z.ltb_lt in Hlt.
    rewrite <- (padded_two_digits (sec / 60)) by lia.
    assert (Hlt' : (sec / 60 <? 10) = true) by (apply Z.ltb_lt; lia).
    rewrite Hlt'. reflexivity.
  - reflexivity.
Qed.

Lemma no_hex_digits_colon (c : ascii) (s r : string) :
  all_digits s = true -> strip_hex (String c (s ++ String ":" r)) = None.
Proof.
  destruct s as [| c' s']; intros H.
  - cbn [append]. destruct c as [[] [] [] [] [] [] [] []]; reflexivity.
  - cbn [append]. apply digit_then_any_no_hex.
    cbn [all_digits] in H. apply andb_prop in H as [H _]. exact H.
Qed.

Lemma parse_unsigned_zero_pad (c : ascii) (s x : string) :
  is_digit c = true ->
  parse_unsigned (String "0" (String c s ++ x))
  = parse_digits 10 true 0 (String c s ++ x).
Proof.
  intros Hc. unfold parse_unsigned. cbn [append].
  rewrite digit_then_any_no_hex by exact Hc. reflexivity.
Qed.

(** Reading the minutes back off the display gives the whole quotient by 60,
    whatever its size: the text has no hours part. *)
Lemma parseInt_displayString (sec : Z) :
  0 <= sec -> parseInt (displayString (Num sec)) = Num (sec / 60).
Proof.
  intros H.
  assert (Hm : 0 <= sec / 60) by (apply Z.div_pos; lia).
  unfold displayString.
  set (tail := (if Z.rem sec 60 <? 10 then "0" else "")
               ++ string_of_Z (Z.rem sec 60)).
  rewrite string_of_Z_nonneg by lia.
  destruct (digits_head (sec / 60) Hm) as [c [s [Hd [Hc Hs]]]].
  destruct (sec / 60 <? 10) eqn:Hlt.
  - destruct (parse_digits_colon (sec / 60) true 0 tail Hm) as [k [Hk Hp]].
    unfold parseInt. cbn [append].
    rewrite (trimStart_plain "0" _ eq_refl). cbv iota.
    rewrite Hd in *. rewrite parse_unsigned_zero_pad by exact Hc.
    rewrite Hp. f_equal. lia.
  - destruct (parse_digits_colon (sec / 60) false 0 tail Hm) as [k [Hk Hp]].
    destruct (head_digit_plain c (s ++ String ":" tail) Hc) as [Hsp Hsign].
    unfold parseInt. rewrite Hd in *. cbn [append] in *.
    rewrite Hsp, Hsign. unfold parse_unsigned.
    rewrite no_hex_digits_colon by exact Hs.
    rewrite Hp. f_equal. lia.
Qed.

(** Claim C9.  For every non-negative number of seconds the display text is the
    minutes and the seconds, each with a leading zero below 10, joined by a
    colon; the minutes are the whole quotient by 60 written in full, so they
    read back as that quotient and 180 minutes show as 180:00. *)
Theorem display_is_padded_minutes_seconds (p : Page) (sec : Z) :
  0 <= sec ->
  timerDisplay (updateDisplay (Num sec) p) = formatted sec /\
  parseInt (timerDisplay (updateDisplay (Num sec) p)) = Num (sec / 60) /\
  displayString (Num (180 * 60)) = "180:00".
Proof.
  intros H. change (timerDisplay (updateDisplay (Num sec) p))
    with (displayString (Num sec)).
  split; [apply displayString_formatted; exact H |].
  split; [apply parseInt_displayString; exact H | reflexivity].
Qed.

Lemma display_is_padded_minutes_seconds_witness :
  0 <= 10799 /\
  timerDisplay (updateDisplay (Num 10799) (sample_page "0" None)) = "179:59".
Proof.
  assert (H : 0 <= 10799) by lia.
  split; [exact H |].
  exact (eq_trans
           (proj1 (display_is_padded_minutes_seconds
                     (sample_page "0" None) 10799 H)) eq_refl).
Defined.

(** *** Intervals *)

Lemma filter_out_In (id : nat) (l : list nat) :
  ~ In id (filter (fun i => negb (Nat.eqb i id)) l).
Proof.
  intros Hin. apply filter_In in Hin as [_ Hne].
  rewrite Nat.eqb_refl in Hne. discriminate Hne.
Qed.

Lemma filter_out_only (id : nat) (l : list nat) :
  (forall i, In i l -> i = id) ->
  filter (fun i => negb (Nat.eqb i id)) l = [].
Proof.
  induction l as [| x l IH]; intros Hall; [reflexivity |].
  cbn [filter]. rewrite (Hall x (or_introl eq_refl)), Nat.eqb_refl.
  apply IH. intros i Hi. apply Hall. right. exact Hi.
Qed.

Lemma clearInterval_dead (p : Page) (id : nat) :
  countdown p = Some id -> ~ In id (intervals (clearInterval_countdown p)).
Proof.
  intros Hc. unfold clearInterval_countdown. rewrite Hc.
  cbn [intervals]. apply filter_out_In.
Qed.

Lemma clearInterval_none_live (p : Page) :
  one_interval p -> intervals (clearInterval_countdown p) = [].
Proof.
  intros [_ Hone]. unfold clearInterval_countdown.
  destruct (countdown p) as [id |] eqn:Hc.
  - cbn [intervals]. apply filter_out_only.
    intros i Hi. specialize (Hone i Hi). congruence.
  - destruct (intervals p) as [| i l]; [reflexivity |].
    specialize (Hone i (or_introl eq_refl)). discriminate Hone.
Qed.

(** *** Reset *)

(** Claim C1, as amended.  Whatever the page is doing, [resetTimer] leaves
    it idle, showing the 1500 seconds of the 25-minute default on the
    display and 25 in the minutes box, so that the next start counts down
    from 1500; the variable [timeLeft] itself is not assigned and keeps
    what it held until that start.  The interval of [countdown] is no
    longer live and the session count, on display and in storage, is as it
    was. *)
Theorem reset_returns_to_idle (p : Page) :
  let p' := resetTimer p in
  phase p' = Idle /\
  timeLeft p' = timeLeft p /\
  timerDisplay p' = displayString (Num 1500) /\
  timerDisplay p' = "25:00" /\
  minutesInput p' = "25" /\
  timeLeft (startBtn_click p') = Num 1500 /\
  statusMessage p' = "Ready to Focus?" /\
  title p' = "Daily Focus Timer" /\
  (forall id, countdown p = Some id -> ~ In id (intervals p')) /\
  sessionCountDisplay p' = sessionCountDisplay p /\
  localStorage p' = localStorage p.
Proof.
  cbv zeta.
  assert (Hlive : forall id, countdown p = Some id ->
                             ~ In id (intervals (resetTimer p))).
  { intros id Hc. change (intervals (resetTimer p))
      with (intervals (clearInterval_countdown p)).
    apply clearInterval_dead. exact Hc. }
  unfold resetTimer in *. unfold clearInterval_countdown in *.
  destruct (countdown p) as [id |];
    repeat split; try reflexivity; exact Hlive.
Qed.

(** On a page whose only possibly live interval is the one in [countdown],
    nothing is left to fire after a reset. *)
Lemma reset_stops_every_interval (p : Page) :
  one_interval p -> intervals (resetTimer p) = [].
Proof.
  intros H. change (intervals (resetTimer p))
    with (intervals (clearInterval_countdown p)).
  apply clearInterval_none_live. exact H.
Qed.

Lemma reset_returns_to_idle_witness :
  let p := startBtn_click (sample_page "3" None) in
  phase p = Running /\ phase (resetTimer p) = Idle /\
  intervals (resetTimer p) = [].
Proof.
  cbv zeta. split; [reflexivity |].
  split; [exact (proj1 (reset_returns_to_idle _)) | reflexivity].
Defined.

(** Claim C1 as first stated does not hold of the variable: after a start
    from the default 25 minutes and one firing of the interval, [timeLeft]
    is 1499, and it is 1499 still after the reset, while the display shows
    25:00. *)
Lemma reset_leaves_timeLeft_as_it_was :
  let p :=
    interval_fires 0 "Mon Jan 01 2024"
      (startBtn_click (sample_page "0" None)) in
  phase p = Running /\ timeLeft p = Num 1499 /\
  phase (resetTimer p) = Idle /\
  timerDisplay (resetTimer p) = "25:00" /\
  timeLeft (resetTimer p) = Num 1499 /\
  timeLeft (resetTimer p) <> Num 1500.
Proof. cbv zeta. repeat split; try reflexivity. discriminate. Qed.

(** *** Start *)

Lemma startBtn_click_valid (p : Page) (m : Z) :
  isRunning p = false -> parseInt (minutesInput p) = Num m ->
  1 <= m <= 180 -> startBtn_click p = startTimer (m * 60) p.
Proof.
  intros Hrun Hparse Hm. unfold startBtn_click. rewrite Hrun, Hparse.
  assert (H1 : (m <? 1) = false) by (apply Z.ltb_ge; lia).
  assert (H2 : (m >? 180) = false) by (rewrite Z.gtb_ltb; apply Z.ltb_ge; lia).
  rewrite H1, H2. reflexivity.
Qed.

Lemma startBtn_click_invalid (p : Page) :
  isRunning p = false ->
  (parseInt (minutesInput p) = NaN \/
   exists m, parseInt (minutesInput p) = Num m /\ (m < 1 \/ 180 < m)) ->
  startBtn_click p = alert validation_alert p.
Proof.
  intros Hrun Hbad. unfold startBtn_click. rewrite Hrun.
  destruct Hbad as [-> | [m [-> Hm]]]; [reflexivity |].
  destruct Hm as [Hm | Hm].
  - assert (H1 : (m <? 1) = true) by (apply Z.ltb_lt; lia).
    rewrite H1. reflexivity.
  - assert (H2 : (m >? 180) = true) by (rewrite Z.gtb_ltb; apply Z.ltb_lt; lia).
    rewrite H2, orb_true_r. reflexivity.
Qed.

(** One firing of the live interval on a page with more than a second
    left. *)
Lemma interval_fires_running (p : Page) (id : nat) (today : string) (t : Z) :
  In id (intervals p) -> timeLeft p = Num t -> 1 < t ->
  interval_fires id today p
  = updateDisplay (Num (t + -1)) (set_timeLeft (Num (t + -1)) p).
Proof.
  intros Hin Ht Hgt. unfold interval_fires.
  assert (Hlive : existsb (Nat.eqb id) (intervals p) = true).
  { apply existsb_exists. exists id. split; [exact Hin | apply Nat.eqb_refl]. }
  rewrite Hlive. unfold interval_callback. rewrite Ht. cbn [Js.add].
  assert (Hpos : (t + -1 <=? 0) = false) by (apply Z.leb_gt; lia).
  rewrite Hpos. reflexivity.
Qed.

(** The firing that brings the time left to zero or below. *)
Lemma interval_fires_last (p : Page) (id : nat) (today : string) (t : Z) :
  In id (intervals p) -> timeLeft p = Num t -> t <= 1 ->
  interval_fires id today p
  = completeSession today
      (updateDisplay (Num (t + -1)) (set_timeLeft (Num (t + -1)) p)).
Proof.
  intros Hin Ht Hle. unfold interval_fires.
  assert (Hlive : existsb (Nat.eqb id) (intervals p) = true).
  { apply existsb_exists. exists id. split; [exact Hin | apply Nat.eqb_refl]. }
  rewrite Hlive. unfold interval_callback. rewrite Ht. cbn [Js.add].
  assert (Hpos : (t + -1 <=? 0) = true) by (apply Z.leb_le; lia).
  rewrite Hpos. reflexivity.
Qed.

Lemma interval_fires_dead (p : Page) (id : nat) (today : string) :
  intervals p = [] -> interval_fires id today p = p.
Proof. intros H. unfold interval_fires. rewrite H. reflexivity. Qed.

(** Claim C6.  The start click does nothing on a running timer; on a timer that
    is not running it refuses minutes that do not parse or lie outside
    1..180 with an alert and no other change; and for minutes m in 1..180 it
    sets the time left and the display to m*60 seconds and starts an
    interval whose first firing leaves m*60 - 1. *)
Theorem start_click_validates_and_starts (p : Page) :
  (isRunning p = true -> startBtn_click p = p) /\
  (isRunning p = false ->
   (parseInt (minutesInput p) = NaN \/
    exists m, parseInt (minutesInput p) = Num m /\ (m < 1 \/ 180 < m)) ->
   startBtn_click p = alert validation_alert p /\
   phase (startBtn_click p) = phase p /\
   timeLeft (startBtn_click p) = timeLeft p /\
   intervals (startBtn_click p) = intervals p) /\
  (forall m today,
     isRunning p = false -> parseInt (minutesInput p) = Num m ->
     1 <= m <= 180 ->
     let p' := startBtn_click p in
     let p'' := interval_fires (next_interval p) today p' in
     phase p' = Running /\
     timeLeft p' = Num (m * 60) /\
     timerDisplay p' = displayString (Num (m * 60)) /\
     countdown p' = Some (next_interval p) /\
     intervals p' = next_interval p :: intervals p /\
     timeLeft p'' = Num (m * 60 - 1) /\
     timerDisplay p'' = displayString (Num (m * 60 - 1)) /\
     phase p'' = Running).
Proof.
  split; [| split].
  - intros Hrun. unfold startBtn_click. rewrite Hrun. reflexivity.
  - intros Hrun Hbad. rewrite (startBtn_click_invalid p Hrun Hbad).
    repeat split; reflexivity.
  - intros m today Hrun Hparse Hm. cbv zeta.
    rewrite (startBtn_click_valid p m Hrun Hparse Hm).
    assert (Hfire : interval_fires (next_interval p) today
                      (startTimer (m * 60) p)
                    = updateDisplay (Num (m * 60 + -1))
                        (set_timeLeft (Num (m * 60 + -1))
                           (startTimer (m * 60) p))).
    { apply interval_fires_running; [left; reflexivity | reflexivity | lia]. }
    rewrite Hfire. replace (m * 60 - 1) with (m * 60 + -1) by lia.
    repeat split; reflexivity.
Qed.

Lemma start_click_validates_and_starts_witness :
  let idle v := set_minutesInput v (sample_page "0" None) in
  phase (startBtn_click (idle "0")) = Idle /\
  phase (startBtn_click (idle "181")) = Idle /\
  timeLeft (interval_fires 0 "Mon Jan 01 2024" (startBtn_click (idle "180")))
  = Num 10799.
Proof.
  cbv zeta.
  pose (idle := fun v => set_minutesInput v (sample_page "0" None)).
  assert (H0 : parseInt (minutesInput (idle "0")) = NaN \/
               exists m, parseInt (minutesInput (idle "0")) = Num m /\
                         (m < 1 \/ 180 < m)).
  { right. exists 0. split; [reflexivity | lia]. }
  assert (H181 : parseInt (minutesInput (idle "181")) = NaN \/
                 exists m, parseInt (minutesInput (idle "181")) = Num m /\
                           (m < 1 \/ 180 < m)).
  { right. exists 181. split; [reflexivity | lia]. }
  assert (H180 : 1 <= 180 <= 180) by lia.
  split; [| split].
  - exact (proj1 (proj2 (proj1 (proj2 (start_click_validates_and_starts
                                         (idle "0"))) eq_refl H0))).
  - exact (proj1 (proj2 (proj1 (proj2 (start_click_validates_and_starts
                                         (idle "181"))) eq_refl H181))).
  - exact (proj1 (proj2 (proj2 (proj2 (proj2 (proj2
             (proj2 (proj2 (start_click_validates_and_starts (idle "180")))
                180 "Mon Jan 01 2024" eq_refl eq_refl H180))))))).
Defined.

(** *** Countdown to completion *)

Lemma completeSession_fields (today : string) (p : Page) :
  intervals p = [] \/
  (exists id, countdown p = Some id /\ intervals p = [id]) ->
  let q := completeSession today p in
  isRunning q = false /\
  statusMessage q = "Session Complete!" /\
  timerDisplay q = "00:00" /\
  timeLeft q = timeLeft p /\
  intervals q = [] /\
  sessionCountDisplay q = string_of_Z (session_count p + 1) /\
  localStorage q = Some (mkStats today (session_count p + 1)).
Proof.
  intros Hint. cbv zeta. unfold completeSession, clearInterval_countdown.
  destruct Hint as [Hnil | [id [Hc Hone]]].
  - destruct (countdown p) as [id |]; repeat split; try reflexivity.
    + cbn [intervals set_isRunning set_timerDisplay set_statusMessage
             set_title incrementDailyCount saveStats set_localStorage
             set_sessionCountDisplay].
      rewrite Hnil. reflexivity.
    + exact Hnil.
  - rewrite Hc. repeat split; try reflexivity.
    cbn [intervals set_isRunning set_timerDisplay set_statusMessage
           set_title incrementDailyCount saveStats set_localStorage
           set_sessionCountDisplay].
    rewrite Hone. cbn [filter]. rewrite Nat.eqb_refl. reflexivity.
Qed.

(** While the countdown is under way: after [k] firings, fewer than the
    seconds started with, the timer still runs with [k] seconds gone and the
    session count untouched. *)
Lemma fires_while_running (p : Page) (total : Z) (dates : nat -> string)
    (k : nat) :
  intervals p = [] -> Z.of_nat k < total ->
  let q := fires (next_interval p) dates k (startTimer total p) in
  isRunning q = true /\
  timeLeft q = Num (total - Z.of_nat k) /\
  timerDisplay q = displayString (Num (total - Z.of_nat k)) /\
  intervals q = [next_interval p] /\
  countdown q = Some (next_interval p) /\
  sessionCountDisplay q = sessionCountDisplay p /\
  localStorage q = localStorage p.
Proof.
  intros Hnil. cbv zeta. induction k as [| k IH]; intros Hlt.
  - cbn [fires]. rewrite Z.sub_0_r.
    repeat split; try reflexivity.
    cbn [intervals startTimer setInterval_countdown]. cbn.
    rewrite Hnil. reflexivity.
  - cbn [fires].
    destruct IH as [Hrun [Hleft [Hdisp [Hint [Hc [Hcount Hstore]]]]]];
      [lia |].
    rewrite (interval_fires_running _ _ _ (total - Z.of_nat k));
      [| rewrite Hint; left; reflexivity | exact Hleft | lia].
    replace (total - Z.of_nat (S k)) with (total - Z.of_nat k + -1) by lia.
    repeat split; assumption || reflexivity.
Qed.

Lemma fires_after_stop (p : Page) (id : nat) (dates : nat -> string)
    (n k : nat) :
  intervals (fires id dates n p) = [] -> (n <= k)%nat ->
  fires id dates k p = fires id dates n p.
Proof.
  intros Hnil Hle. induction Hle as [| k Hle IH]; [reflexivity |].
  cbn [fires]. rewrite IH. apply interval_fires_dead. exact Hnil.
Qed.

(** Claim C5.  Started with m minutes, m in 1..180, the timer runs through
    m*60 - 1 firings without touching the session count; the firing
    number m*60 completes the session: the count read back is one more than
    before, stored under the date of that firing, and no interval is live
    any more, so later firings change nothing and the count stays. *)
Theorem countdown_completes_once (p : Page) (m : Z) (dates : nat -> string) :
  isRunning p = false -> intervals p = [] ->
  parseInt (minutesInput p) = Num m -> 1 <= m <= 180 ->
  let n := Z.to_nat (m * 60) in
  let after k := fires (next_interval p) dates k (startBtn_click p) in
  (forall k, (k < n)%nat ->
     phase (after k) = Running /\
     timeLeft (after k) = Num (m * 60 - Z.of_nat k) /\
     sessionCountDisplay (after k) = sessionCountDisplay p /\
     localStorage (after k) = localStorage p) /\
  phase (after n) = Complete /\
  timeLeft (after n) = Num 0 /\
  timerDisplay (after n) = "00:00" /\
  session_count (after n) = session_count p + 1 /\
  localStorage (after n)
  = Some (mkStats (dates (pred n)) (session_count p + 1)) /\
  intervals (after n) = [] /\
  (forall k, (n <= k)%nat -> after k = after n) /\
  (forall id today, interval_fires id today (after n) = after n).
Proof.
  intros Hrun Hnil Hparse Hm. cbv zeta.
  rewrite (startBtn_click_valid p m Hrun Hparse Hm).
  set (total := m * 60).
  assert (Htotal : 60 <= total) by (unfold total; lia).
  set (id := next_interval p).
  assert (Hbefore : forall k, (k < Z.to_nat total)%nat ->
            let q := fires id dates k (startTimer total p) in
            isRunning q = true /\
            timeLeft q = Num (total - Z.of_nat k) /\
            timerDisplay q = displayString (Num (total - Z.of_nat k)) /\
            intervals q = [id] /\
            countdown q = Some id /\
            sessionCountDisplay q = sessionCountDisplay p /\
            localStorage q = localStorage p).
  { intros k Hk. apply fires_while_running; [exact Hnil | lia]. }
  destruct (Z.to_nat total) as [| n'] eqn:Hn; [lia |].
  cbn [pred].
  destruct (Hbefore n' (Nat.lt_succ_diag_r n'))
    as [Hr [Hleft [_ [Hint [Hc [Hcount Hstore]]]]]].
  assert (Hone : total - Z.of_nat n' = 1) by lia.
  rewrite Hone in Hleft.
  set (q := fires id dates n' (startTimer total p)) in *.
  assert (Hlast : fires id dates (S n') (startTimer total p)
                  = completeSession (dates n')
                      (updateDisplay (Num (1 + -1))
                         (set_timeLeft (Num (1 + -1)) q))).
  { cbn [fires]. fold q. apply interval_fires_last;
      [rewrite Hint; left; reflexivity | exact Hleft | lia]. }
  set (q' := updateDisplay (Num (1 + -1)) (set_timeLeft (Num (1 + -1)) q))
    in Hlast.
  assert (Hq' : exists i, countdown q' = Some i /\ intervals q' = [i]).
  { exists id. split; [exact Hc | exact Hint]. }
  destruct (completeSession_fields (dates n') q' (or_intror Hq'))
    as [Hrun' [Hstatus [Hdisp [Htl [Hint' [Hcnt Hsto]]]]]].
  assert (Hsc : session_count q' = session_count p).
  { unfold session_count.
    change (sessionCountDisplay q') with (sessionCountDisplay q).
    rewrite Hcount. reflexivity. }
  rewrite Hsc in Hcnt, Hsto. rewrite <- Hlast in *.
  split; [| repeat split].
  - intros k Hk.
    destruct (Hbefore k Hk) as [Hr' [Hl' [_ [_ [_ [Hc' Hs']]]]]].
    repeat split; try assumption.
    unfold phase. rewrite Hr'. reflexivity.
  - unfold phase. rewrite Hrun', Hstatus. reflexivity.
  - rewrite Htl. reflexivity.
  - exact Hdisp.
  - unfold session_count at 1. rewrite Hcnt, parseInt_string_of_Z.
    reflexivity.
  - exact Hsto.
  - exact Hint'.
  - intros k Hk. apply fires_after_stop; assumption.
  - intros i today. apply interval_fires_dead. exact Hint'.
Qed.

Lemma countdown_completes_once_witness :
  let p := set_minutesInput "1" (sample_page "4" None) in
  let day := fun _ : nat => "Mon Jan 01 2024" in
  (isRunning p = false /\ intervals p = [] /\
   parseInt (minutesInput p) = Num 1 /\ 1 <= 1 <= 180) /\
  session_count (fires 0 day 60 (startBtn_click p)) = 4 + 1 /\
  fires 0 day 75 (startBtn_click p) = fires 0 day 60 (startBtn_click p).
Proof.
  cbv zeta.
  pose (p := set_minutesInput "1" (sample_page "4" None)).
  pose (day := fun _ : nat => "Mon Jan 01 2024").
  assert (Hm : 1 <= 1 <= 180) by lia.
  assert (Hle : (60 <= 75)%nat) by lia.
  split.
  { split; [reflexivity |].
    split; [reflexivity |].
    split; [reflexivity | exact Hm]. }
  pose proof (countdown_completes_once p 1 day eq_refl eq_refl eq_refl Hm)
    as H.
  destruct H as [_ [_ [_ [_ [Hcount [_ [_ [Hlater _]]]]]]]].
  split; [exact Hcount | exact (Hlater 75%nat Hle)].
Defined.

(** *** At most one live interval *)

Lemma one_interval_start (p : Page) :
  one_interval p -> one_interval (startBtn_click p).
Proof.
  intros H. pose proof H as [Hidle Hone]. unfold startBtn_click.
  destruct (isRunning p) eqn:Hrun; [exact H |].
  specialize (Hidle eq_refl).
  destruct (parseInt (minutesInput p)) as [m |];
    [destruct ((m <? 1) || (m >? 180)) |];
    try (split; [intros _; exact Hidle | exact Hone]).
  split.
  - intros Hfalse. discriminate Hfalse.
  - intros i Hi. change (In i (next_interval p :: intervals p)) in Hi.
    rewrite Hidle in Hi. destruct Hi as [<- | []]. reflexivity.
Qed.

Lemma one_interval_reset (p : Page) :
  one_interval p -> one_interval (resetTimer p).
Proof.
  intros H. pose proof (reset_stops_every_interval p H) as Hnil.
  split; [intros _; exact Hnil |].
  intros i Hi. rewrite Hnil in Hi. destruct Hi.
Qed.

Lemma one_interval_fires (p : Page) (id : nat) (today : string) :
  one_interval p -> one_interval (interval_fires id today p).
Proof.
  intros H. unfold interval_fires.
  destruct (existsb (Nat.eqb id) (intervals p)); [| exact H].
  unfold interval_callback.
  set (left := Js.add (timeLeft p) (Num (-1))).
  set (q := updateDisplay left (set_timeLeft left p)).
  assert (Hq : one_interval q) by exact H.
  destruct left as [t |]; [| exact Hq].
  destruct (t <=? 0); [| exact Hq].
  assert (Hnil : intervals (completeSession today q) = []).
  { change (intervals (completeSession today q))
      with (intervals (clearInterval_countdown q)).
    apply clearInterval_none_live. exact Hq. }
  split; [intros _; exact Hnil |].
  intros i Hi. rewrite Hnil in Hi. destruct Hi.
Qed.

Lemma one_interval_load (p : Page) (today : string) :
  one_interval p -> one_interval (loadDailyStats today p).
Proof.
  intros H. unfold loadDailyStats.
  destruct (localStorage p) as [st |]; [| exact H].
  destruct (String.eqb (date st) today); exact H.
Qed.

(** *** The daily count *)

Lemma incrementDailyCount_shown (today : string) (p : Page) (c : Z) :
  sessionCountDisplay p = string_of_Z c ->
  incrementDailyCount today p
  = saveStats today (c + 1) (set_sessionCountDisplay (string_of_Z (c + 1)) p).
Proof.
  intros Hshown. unfold incrementDailyCount.
  rewrite Hshown, parseInt_string_of_Z. reflexivity.
Qed.

Lemma loadDailyStats_stale (today : string) (p : Page) :
  (localStorage p = None \/
   exists st, localStorage p = Some st /\ date st <> today) ->
  loadDailyStats today p = saveStats today 0 p.
Proof.
  intros [Hnone | [st [Hsome Hne]]]; unfold loadDailyStats.
  - rewrite Hnone. reflexivity.
  - rewrite Hsome. apply String.eqb_neq in Hne. rewrite Hne. reflexivity.
Qed.

Lemma loadDailyStats_fresh (today : string) (p : Page) (st : Stats) :
  localStorage p = Some st -> date st = today ->
  loadDailyStats today p
  = set_sessionCountDisplay (string_of_Z (count st)) p.
Proof.
  intros Hsome Heq. unfold loadDailyStats.
  rewrite Hsome. apply String.eqb_eq in Heq. rewrite Heq. reflexivity.
Qed.

(** Claim C10.  When the day has changed since the count was stored,
    completing a session takes the count on display, adds one and stores the sum under
    the new date, with no reset to 0; the reset to 0 for a new day is what
    the load path writes. *)
Theorem completion_across_midnight_keeps_count (p : Page)
    (yesterday today : string) (c : Z) :
  yesterday <> today ->
  localStorage p = Some (mkStats yesterday c) ->
  sessionCountDisplay p = string_of_Z c ->
  localStorage (incrementDailyCount today p) = Some (mkStats today (c + 1)) /\
  localStorage (completeSession today p) = Some (mkStats today (c + 1)) /\
  sessionCountDisplay (completeSession today p) = string_of_Z (c + 1) /\
  localStorage (loadDailyStats today p) = Some (mkStats today 0).
Proof.
  intros Hne Hstored Hshown.
  assert (Hinc : forall q, sessionCountDisplay q = string_of_Z c ->
            localStorage (incrementDailyCount today q)
            = Some (mkStats today (c + 1)) /\
            sessionCountDisplay (incrementDailyCount today q)
            = string_of_Z (c + 1)).
  { intros q Hq. rewrite (incrementDailyCount_shown today q c Hq).
    split; reflexivity. }
  split; [apply Hinc; exact Hshown |].
  assert (Hcomplete :
            localStorage (completeSession today p)
            = Some (mkStats today (c + 1)) /\
            sessionCountDisplay (completeSession today p)
            = string_of_Z (c + 1)).
  { unfold completeSession. apply Hinc.
    unfold clearInterval_countdown.
    destruct (countdown p); exact Hshown. }
  split; [exact (proj1 Hcomplete) |].
  split; [exact (proj2 Hcomplete) |].
  rewrite loadDailyStats_stale; [reflexivity |].
  right. exists (mkStats yesterday c). split; [exact Hstored | exact Hne].
Qed.

Lemma completion_across_midnight_keeps_count_witness :
  let p := sample_page "5" (Some (mkStats "Sun Dec 31 2023" 5)) in
  ("Sun Dec 31 2023" <> "Mon Jan 01 2024" /\
   localStorage p = Some (mkStats "Sun Dec 31 2023" 5) /\
   sessionCountDisplay p = string_of_Z 5) /\
  localStorage (completeSession "Mon Jan 01 2024" p)
  = Some (mkStats "Mon Jan 01 2024" 6).
Proof.
  cbv zeta.
  assert (Hne : "Sun Dec 31 2023" <> "Mon Jan 01 2024") by discriminate.
  split.
  { split; [exact Hne | split; reflexivity]. }
  exact (proj1 (proj2 (completion_across_midnight_keeps_count
                         (sample_page "5" (Some (mkStats "Sun Dec 31 2023" 5)))
                         "Sun Dec 31 2023" "Mon Jan 01 2024" 5
                         Hne eq_refl eq_refl))).
Defined.

End TimerFacts.

(** ** The study planner: statistics, manual entry, import, day reset *)
Module PlannerFacts.
Import Js Planner JsFacts.

(** *** Statistics *)

Lemma sum_minutes_from (ts : list Task) :
  Forall whole_minutes ts ->
  forall acc,
    fold_left (fun sum t => Js.add sum (minutes t)) ts (Num acc)
    = Num (acc + minutes_total ts).
Proof.
  induction 1 as [| t ts [m [Hm _]] _ IH]; intros acc;
    cbn [fold_left minutes_total].
  - f_equal. lia.
  - rewrite Hm. cbn [Js.add or_zero]. rewrite IH. f_equal. lia.
Qed.

Lemma minutes_total_filter (ts : list Task) :
  minutes_total (filter (fun t => completed t) ts) = minutes_completed ts.
Proof.
  induction ts as [| t ts IH]; [reflexivity |].
  cbn [filter minutes_completed]. destruct (completed t);
    cbn [minutes_total]; rewrite IH; reflexivity.
Qed.

Lemma Forall_filter_whole (ts : list Task) :
  Forall whole_minutes ts ->
  Forall whole_minutes (filter (fun t => completed t) ts).
Proof.
  intros H. apply Forall_forall. intros t Hin.
  apply filter_In in Hin as [Hin _].
  exact (proj1 (Forall_forall _ _) H t Hin).
Qed.

Lemma minutes_bounds (ts : list Task) :
  Forall whole_minutes ts ->
  0 <= minutes_completed ts <= minutes_total ts.
Proof.
  induction 1 as [| t ts [m [Hm Hpos]] _ IH];
    cbn [minutes_completed minutes_total]; [lia |].
  rewrite Hm. cbn [or_zero]. destruct (completed t); lia.
Qed.

Lemma quotient_in_unit (c t : Z) :
  0 <= c <= t -> 0 < t ->
  (0 <= inject_Z c / inject_Z t)%Q /\ (inject_Z c / inject_Z t <= inject_Z 1)%Q.
Proof.
  intros Hc Ht. destruct t as [| p | p]; try lia.
  unfold Qle, Qdiv, Qmult, Qinv, inject_Z. cbn [Qnum Qden].
  rewrite ?Pos.mul_1_r, ?Pos2Z.inj_mul. split; nia.
Qed.

(** The percentage of [c] in [t] as the host computes it: the quotient
    rounded to a double, times 100, rounded again. *)
Lemma percent_in_range (c t : Z) :
  0 <= c <= t -> 0 < t ->
  let q := round_double (round_double (inject_Z c / inject_Z t) * inject_Z 100) in
  (0 <= q)%Q /\ (q <= 100)%Q.
Proof.
  intros Hc Ht. cbv zeta.
  destruct (quotient_in_unit c t Hc Ht) as [Hlo Hhi].
  pose proof (round_double_nonneg _ Hlo) as Hlo'.
  assert (H1 : 1 <= 2 ^ 52) by (vm_compute; discriminate).
  pose proof (round_double_le _ 1 Hlo Hhi H1) as Hhi'.
  set (a := round_double (inject_Z c / inject_Z t)) in *.
  assert (Hpos : (0 <= a * inject_Z 100)%Q).
  { apply Qmult_le_0_compat; [exact Hlo' | discriminate]. }
  assert (Hle : (a * inject_Z 100 <= inject_Z 100)%Q).
  { setoid_replace (inject_Z 100) with (inject_Z 1 * inject_Z 100)%Q at 2
      by reflexivity.
    apply Qmult_le_compat_r; [exact Hhi' | discriminate]. }
  split; [apply round_double_nonneg; exact Hpos |].
  apply (round_double_le _ 100 Hpos Hle). vm_compute. discriminate.
Qed.

(** Claim C8, as amended.  For a collection of tasks with whole minutes, none
    negative (the Task invariant asks for more: above 0), and a total within
    the whole numbers a double holds exactly, the statistics are the sum of
    all minutes, the sum of the minutes of the completed tasks, and a
    percentage that is 0 when the total is 0 and otherwise the double the
    host computes for (completed / total) * 100: the quotient rounded to the
    nearest double, times 100, rounded again.  That double lies between 0
    and 100 and is within 2^-45 of 100 * completed / total. *)
Theorem statistics_are_sums (ts : list Task) :
  Forall whole_minutes ts -> minutes_total ts <= 2 ^ 53 ->
  let st := computeStatistics ts in
  totalMinutes st = Num (minutes_total ts) /\
  completedMinutes st = Num (minutes_completed ts) /\
  (minutes_total ts = 0 -> percentComplete st = Some 0%Q) /\
  (minutes_total ts <> 0 ->
   percentComplete st
   = Some (round_double
             (round_double (inject_Z (minutes_completed ts)
                            / inject_Z (minutes_total ts)) * 100))) /\
  exists q,
    percentComplete st = Some q /\ is_double q /\
    (0 <= q)%Q /\ (q <= 100)%Q /\
    (minutes_total ts <> 0 ->
     (Qabs (q - 100 * inject_Z (minutes_completed ts)
                / inject_Z (minutes_total ts))
      <= 1 # 35184372088832)%Q).
Proof.
  intros Hall _. cbv zeta.
  assert (Htotal : sum_minutes ts = Num (minutes_total ts)).
  { unfold sum_minutes. rewrite (sum_minutes_from ts Hall 0). reflexivity. }
  assert (Hdone : sum_minutes (filter (fun t => completed t) ts)
                  = Num (minutes_completed ts)).
  { unfold sum_minutes.
    rewrite (sum_minutes_from _ (Forall_filter_whole ts Hall) 0).
    rewrite minutes_total_filter. reflexivity. }
  pose proof (minutes_bounds ts Hall) as Hbounds.
  unfold computeStatistics. rewrite Htotal, Hdone.
  cbn [totalMinutes completedMinutes percentComplete].
  split; [reflexivity |]. split; [reflexivity |].
  destruct (minutes_total ts) as [| t | t] eqn:Ht.
  - split; [reflexivity |].
    split; [intros Hne; contradiction Hne; reflexivity |].
    exists 0%Q. split; [reflexivity |].
    split; [exact (round_double_is_double 0) |].
    split; [discriminate |]. split; [discriminate |].
    intros Hne. contradiction Hne. reflexivity.
  - assert (Hpos : 0 < Z.pos t) by lia.
    destruct (percent_in_range (minutes_completed ts) (Z.pos t) Hbounds Hpos)
      as [Hlo Hhi].
    pose proof (percent_error (minutes_completed ts) (Z.pos t) Hbounds Hpos)
      as Herr.
    split; [intros H0; discriminate H0 |].
    split; [intros _; reflexivity |].
    eexists. split; [reflexivity |].
    split; [apply round_double_is_double |].
    split; [exact Hlo |]. split; [exact Hhi |].
    intros _.
    assert (Hsame : (100 * inject_Z (minutes_completed ts) / inject_Z (Z.pos t)
                     == inject_Z (minutes_completed ts) / inject_Z (Z.pos t)
                        * inject_Z 100)%Q).
    { unfold Qdiv. change (inject_Z 100) with 100%Q. ring. }
    rewrite Hsame. exact Herr.
  - lia.
Qed.

Lemma statistics_are_sums_witness :
  let ts := [mkTask 1 (JStr "Math") (JStr "Algebra") (Num 10) true;
             mkTask 2 (JStr "Art") (JStr "Ink") (Num 20) false] in
  (Forall whole_minutes ts /\ minutes_total ts <= 2 ^ 53) /\
  totalMinutes (computeStatistics ts) = Num 30 /\
  completedMinutes (computeStatistics ts) = Num 10 /\
  percentComplete (computeStatistics ts)
  = Some (2345624805922133 # 70368744177664)%Q.
Proof.
  cbv zeta.
  pose (ts := [mkTask 1 (JStr "Math") (JStr "Algebra") (Num 10) true;
               mkTask 2 (JStr "Art") (JStr "Ink") (Num 20) false]).
  assert (Hall : Forall whole_minutes ts).
  { repeat constructor.
    - exists 10. split; [reflexivity | discriminate].
    - exists 20. split; [reflexivity | discriminate]. }
  assert (Hsize : minutes_total ts <= 2 ^ 53) by (vm_compute; discriminate).
  split; [split; [exact Hall | exact Hsize] |].
  pose proof (statistics_are_sums ts Hall Hsize) as H.
  destruct H as [Htotal [Hdone [_ [Hpercent _]]]].
  split; [exact Htotal |]. split; [exact Hdone |].
  assert (Hne : minutes_total ts <> 0) by discriminate.
  exact (Hpercent Hne).
Defined.

(** Ticking or unticking a task leaves the total alone and moves the
    completed minutes by the minutes of the task that was found. *)
Lemma set_completed_sums (i : Z) (checked : bool) (ts ts' : list Task) :
  set_completed i checked ts = Some ts' ->
  minutes_total ts' = minutes_total ts /\
  exists t, In t ts /\ id t = i /\
    minutes_completed ts'
    = minutes_completed ts
      - (if completed t then or_zero (minutes t) else 0)
      + (if checked then or_zero (minutes t) else 0).
Proof.
  revert ts'. induction ts as [| t ts IH]; intros ts' H; [discriminate H |].
  cbn [set_completed] in H. destruct (id t =? i) eqn:Hid.
  - injection H as <-. apply Z.eqb_eq in Hid.
    split; [reflexivity |].
    exists t. split; [left; reflexivity |]. split; [exact Hid |].
    cbn [minutes_completed completed minutes]. lia.
  - destruct (set_completed i checked ts) as [r |]; [| discriminate H].
    injection H as <-. destruct (IH r eq_refl) as [Htot [u [Hin [Hu Hdone]]]].
    split; [cbn [minutes_total]; rewrite Htot; reflexivity |].
    exists u. split; [right; exact Hin |]. split; [exact Hu |].
    cbn [minutes_completed]. rewrite Hdone. lia.
Qed.

(** *** Manual entry *)

(** What [addManualTask] lets through: both texts non-empty once trimmed
    and minutes that parse to a number above 0. *)
Lemma addManualTask_cases (now : Z) (p : Page) :
  (addManualTask now p = alert "Please fill in all fields correctly." p) \/
  exists m,
    trim (subjectInput p) <> "" /\ trim (topicInput p) <> "" /\
    parseInt (timeInput p) = Num m /\ 0 < m /\
    tasks (addManualTask now p)
    = (tasks p ++ [mkTask now (JStr (trim (subjectInput p)))
                     (JStr (trim (topicInput p))) (Num m) false])%list.
Proof.
  unfold addManualTask.
  destruct (String.eqb (trim (subjectInput p)) "") eqn:Hs;
    [left; reflexivity |].
  destruct (String.eqb (trim (topicInput p)) "") eqn:Ht;
    [left; reflexivity |].
  cbn [orb].
  destruct (parseInt (timeInput p)) as [m |] eqn:Hm; [| left; reflexivity].
  destruct (m <=? 0) eqn:Hle; [left; reflexivity |].
  right. exists m. apply String.eqb_neq in Hs, Ht. apply Z.leb_gt in Hle.
  repeat split; try assumption.
  destruct (snd (renderTasks "" _)); reflexivity.
Qed.

(** Every task the manual form adds satisfies the Task invariant. *)
Lemma addManualTask_valid (now : Z) (p : Page) :
  Forall (fun t => valid_task t = true) (tasks p) ->
  Forall (fun t => valid_task t = true) (tasks (addManualTask now p)).
Proof.
  intros Hall.
  destruct (addManualTask_cases now p) as [-> | [m [Hs [Ht [_ [Hm ->]]]]]];
    [exact Hall |].
  apply Forall_app. split; [exact Hall |].
  constructor; [| constructor].
  unfold valid_task, nonblank. cbn [subject topic minutes].
  rewrite !trim_idempotent.
  apply String.eqb_neq in Hs, Ht. rewrite Hs, Ht.
  apply Z.ltb_lt in Hm. rewrite Hm. reflexivity.
Qed.

(** *** Import, element by element *)

Section ImportBatch.

Variable host : Host.

Lemma import_item_ok (now : Z) (index : nat)
    (fields : list (string * JValue)) :
  has_fields (JObj fields) = true ->
  import_item host now (JObj fields) index
  = Normal (task_of now index fields).
Proof.
  cbn [has_fields]. intros H.
  apply andb_prop in H as [H Hm]. apply andb_prop in H as [Hs Ht].
  unfold import_item. cbn [get]. rewrite Hs, Ht, Hm. reflexivity.
Qed.

(** An element other than [null] that lacks one of the three fields is
    turned down with a message that carries its index. *)
Lemma import_item_missing (now : Z) (index : nat)
    (item : JValue) :
  item <> JNull -> item <> JUndefined -> has_fields item = false ->
  import_item host now item index = Throw (missing_message index).
Proof.
  intros Hnull Hundef Hbad. unfold import_item.
  destruct item as [| | b | z | s | items | fields];
    try reflexivity; try contradiction.
  cbn [has_fields] in Hbad. cbn [get].
  destruct (truthy (lookup "subject" fields)); [| reflexivity].
  destruct (truthy (lookup "topic" fields)); [| reflexivity].
  destruct (truthy (lookup "minutes" fields)); [discriminate Hbad |].
  reflexivity.
Qed.

(** For [null] the message is the host's and the same at every index. *)
Lemma import_item_null (now : Z) (index : nat) :
  import_item host now JNull index
  = Throw (null_read_message host "subject").
Proof. reflexivity. Qed.

Lemma has_fields_object (item : JValue) :
  has_fields item = true -> exists fields, item = JObj fields.
Proof.
  destruct item; try discriminate. intros _. eexists. reflexivity.
Qed.

(** A batch whose elements all pass: the tasks come out in input order, the
    one at position [k] with the id [now k + k]. *)
Lemma forEach_import_ok (now : nat -> Z) (data : list JValue) :
  Forall (fun item => has_fields item = true) data ->
  forall index acc,
  exists out,
    forEach_import host now data index acc = Normal (acc ++ out)%list /\
    map id out
    = map (fun k => now k + Z.of_nat k) (seq index (List.length data)).
Proof.
  induction 1 as [| item data Hitem _ IH]; intros index acc.
  - exists []. split; [cbn [forEach_import]; rewrite app_nil_r |];
      reflexivity.
  - destruct (has_fields_object item Hitem) as [fields ->].
    cbn [forEach_import]. rewrite (import_item_ok _ _ _ Hitem).
    destruct (IH (S index) (acc ++ [task_of (now index) index fields])%list)
      as [out [Hrun Hids]].
    exists (task_of (now index) index fields :: out).
    split.
    + rewrite Hrun, <- app_assoc. reflexivity.
    + cbn [map List.length seq id task_of]. rewrite Hids. reflexivity.
Qed.

(** The first element that is turned down ends the batch with its error. *)
Lemma forEach_import_stops (now : nat -> Z)
    (pre post : list JValue) (bad : JValue) (message : string) :
  Forall (fun item => has_fields item = true) pre ->
  forall index acc,
    import_item host (now (index + List.length pre)%nat) bad
      (index + List.length pre) = Throw message ->
    forEach_import host now (pre ++ bad :: post) index acc = Throw message.
Proof.
  induction 1 as [| item pre Hitem _ IH]; intros index acc Hbad.
  - cbn [app forEach_import]. cbn [List.length] in Hbad.
    rewrite Nat.add_0_r in Hbad. rewrite Hbad. reflexivity.
  - destruct (has_fields_object item Hitem) as [fields ->].
    cbn [app forEach_import]. rewrite (import_item_ok _ _ _ Hitem).
    apply IH. cbn [List.length] in Hbad.
    rewrite Nat.add_succ_r in Hbad. exact Hbad.
Qed.

(** *** Import as a whole *)

(** What an import can come to: the page keeps its tasks, in memory and in
    storage, and shows a message (nothing to parse, or an error thrown
    before the merge); or all new tasks are appended in order and saved,
    after which either the list renders and no message is shown, or
    [renderTasks()] throws and its message is shown for a batch that is
    kept. *)
Lemma importJsonTasks_outcomes (now : nat -> Z) (p : Page) :
  (tasks (importJsonTasks host now p) = tasks p /\
   stored_tasks (importJsonTasks host now p) = stored_tasks p /\
   importError (importJsonTasks host now p) <> "") \/
  (exists newTasks,
     import_try host now (trim (jsonInput p)) = Normal newTasks /\
     tasks (importJsonTasks host now p) = (tasks p ++ newTasks)%list /\
     stored_tasks (importJsonTasks host now p)
     = Some (tasks p ++ newTasks)%list /\
     (importError (importJsonTasks host now p) = "" \/
      exists message,
        snd (renderTasks (not_a_function_message host) (tasks p ++ newTasks))
        = Some message /\
        importError (importJsonTasks host now p)
        = "Invalid JSON: " ++ message)).
Proof.
  unfold importJsonTasks.
  destruct (String.eqb (trim (jsonInput p)) "").
  - left. repeat split; discriminate.
  - destruct (import_try host now (trim (jsonInput p))) as [new | message].
    + right. exists new. split; [reflexivity |].
      cbn [tasks saveTasks updateStats set_stats set_stored_tasks set_tasks
             set_importError].
      destruct (snd (renderTasks (not_a_function_message host)
                       (tasks p ++ new))) as [message |] eqn:Hr.
      * repeat split. right. exists message. split; reflexivity.
      * repeat split. left. reflexivity.
    + left. repeat split. discriminate.
Qed.

Lemma importJsonTasks_throw (now : nat -> Z) (p : Page)
    (message : string) :
  trim (jsonInput p) <> "" ->
  import_try host now (trim (jsonInput p)) = Throw message ->
  importJsonTasks host now p
  = set_importError ("Invalid JSON: " ++ message) (set_importError "" p).
Proof.
  intros Hraw Hthrow. unfold importJsonTasks.
  apply String.eqb_neq in Hraw. rewrite Hraw, Hthrow. reflexivity.
Qed.

(** A batch with an element, not [null], that lacks a field, after elements
    that all pass: nothing is imported and the message names the position
    of that element. *)
Lemma importJsonTasks_names_missing (now : nat -> Z) (p : Page)
    (pre post : list JValue) (bad : JValue) :
  trim (jsonInput p) <> "" ->
  JSON_parse host (trim (jsonInput p)) = Normal (JArr (pre ++ bad :: post)) ->
  Forall (fun item => has_fields item = true) pre ->
  bad <> JNull -> bad <> JUndefined -> has_fields bad = false ->
  let p' := importJsonTasks host now p in
  tasks p' = tasks p /\ stored_tasks p' = stored_tasks p /\
  importError p' = "Invalid JSON: " ++ missing_message (List.length pre).
Proof.
  intros Hraw Hparse Hpre Hnull Hundef Hbad. cbv zeta.
  rewrite (importJsonTasks_throw now p (missing_message (List.length pre)));
    [repeat split; reflexivity | exact Hraw |].
  unfold import_try. rewrite Hparse.
  apply forEach_import_stops; [exact Hpre |].
  apply import_item_missing; assumption.
Qed.

(** *** Ids *)

(** Within one batch the ids differ, as long as the clock does not run
    backwards while the batch is handled. *)
Lemma batch_ids_distinct (now : nat -> Z) (n : nat) :
  (forall a b, (a <= b)%nat -> now a <= now b) ->
  forall index,
    NoDup (map (fun k => now k + Z.of_nat k) (seq index n)).
Proof.
  intros Hmono. induction n as [| n IH]; intros index; cbn [seq map].
  - constructor.
  - constructor; [| apply IH].
    intros Hin. apply in_map_iff in Hin as [k [Heq Hk]].
    apply in_seq in Hk. specialize (Hmono index k). lia.
Qed.

Lemma import_ids_distinct_in_batch (now : nat -> Z)
    (data : list JValue) (newTasks : list Task) :
  (forall a b, (a <= b)%nat -> now a <= now b) ->
  forEach_import host now data 0 [] = Normal newTasks ->
  NoDup (map id newTasks).
Proof.
  intros Hmono Hrun.
  assert (Hall : Forall (fun item => has_fields item = true) data).
  { clear Hmono. revert Hrun. generalize 0%nat, (@nil Task).
    induction data as [| item data IH]; intros index acc Hrun;
      [constructor |].
    cbn [forEach_import] in Hrun.
    destruct (import_item host (now index) item index) as [t |] eqn:Hitem;
      [| discriminate Hrun].
    constructor; [| exact (IH _ _ Hrun)].
    destruct (has_fields item) eqn:Hf; [reflexivity |].
    destruct item as [| | b | z | s | items | fields];
      try (cbn in Hitem; discriminate Hitem).
    rewrite (import_item_missing _ _ (JObj fields)) in Hitem;
      [discriminate Hitem | discriminate | discriminate | exact Hf]. }
  destruct (forEach_import_ok now data Hall 0%nat []) as [out [Hout Hids]].
  rewrite Hrun in Hout. injection Hout as ->. cbn [app]. rewrite Hids.
  apply batch_ids_distinct. exact Hmono.
Qed.

(** A batch of [n] elements imported while the clock reads [t] takes the
    ids [t], [t + 1], ..., [t + n - 1]: the ids the clock itself hands out
    during the following milliseconds. *)
Lemma batch_takes_coming_ids (t : Z) (data : list JValue)
    (newTasks : list Task) (k : nat) :
  forEach_import host (at_ms t) data 0 [] = Normal newTasks ->
  Forall (fun item => has_fields item = true) data ->
  (k < List.length data)%nat ->
  In (t + Z.of_nat k) (map id newTasks).
Proof.
  intros Hrun Hall Hk.
  destruct (forEach_import_ok (at_ms t) data Hall 0%nat [])
    as [out [Hout Hids]].
  rewrite Hrun in Hout. injection Hout as ->. cbn [app]. rewrite Hids.
  apply in_map_iff. exists k. split; [reflexivity |].
  apply in_seq. lia.
Qed.

(** Whatever the host's wording, a [null] element gives the same message at
    every position of the batch. *)
Lemma importJsonTasks_null_message (now : nat -> Z) (p : Page)
    (pre post : list JValue) :
  trim (jsonInput p) <> "" ->
  JSON_parse host (trim (jsonInput p)) = Normal (JArr (pre ++ JNull :: post)) ->
  Forall (fun item => has_fields item = true) pre ->
  let p' := importJsonTasks host now p in
  tasks p' = tasks p /\ stored_tasks p' = stored_tasks p /\
  importError p' = "Invalid JSON: " ++ null_read_message host "subject".
Proof.
  intros Hraw Hparse Hpre. cbv zeta.
  rewrite (importJsonTasks_throw now p (null_read_message host "subject"));
    [repeat split; reflexivity | exact Hraw |].
  unfold import_try. rewrite Hparse.
  apply forEach_import_stops; [exact Hpre | reflexivity].
Qed.

End ImportBatch.

(** A batch whose elements all pass gives one task per element, in input
    order. *)
Lemma forEach_import_batch (host : Host) (now : nat -> Z)
    (data : list JValue) :
  Forall (fun item => has_fields item = true) data ->
  forall index acc,
    forEach_import host now data index acc
    = Normal (acc ++ Batch.tasks_of_batch now index data)%list /\
    List.length (Batch.tasks_of_batch now index data) = List.length data.
Proof.
  induction 1 as [| item data Hitem _ IH]; intros index acc.
  - cbn [forEach_import Batch.tasks_of_batch]. rewrite app_nil_r.
    split; reflexivity.
  - destruct (has_fields_object item Hitem) as [fields ->].
    cbn [forEach_import Batch.tasks_of_batch].
    rewrite (import_item_ok host _ _ _ Hitem).
    destruct (IH (S index) (acc ++ [task_of (now index) index fields])%list)
      as [Hrun Hlen].
    rewrite Hrun, <- app_assoc. split; [reflexivity |].
    cbn [List.length]. rewrite Hlen. reflexivity.
Qed.

(** A batch imported within the milliseconds whose ids an earlier batch
    took: the id of its first task is already on the list.  The earlier
    batch of [n] elements was handled while the clock read [t]; the later
    one starts while it reads [t + k], for some [k] below [n]. *)
Lemma later_batch_meets_earlier (host : Host) (t : Z) (k : nat)
    (now : nat -> Z) (earlier later : list JValue)
    (first rest : list Task) (head : Task) :
  Forall (fun item => has_fields item = true) earlier ->
  (k < List.length earlier)%nat -> now 0%nat = t + Z.of_nat k ->
  forEach_import host (at_ms t) earlier 0 [] = Normal first ->
  forEach_import host now later 0 [] = Normal (head :: rest) ->
  In (id head) (map id first).
Proof.
  intros Hall Hk Hnow Hfirst Hlater.
  assert (Hhead : id head = t + Z.of_nat k).
  { destruct later as [| item later]; [discriminate Hlater |].
    cbn [forEach_import] in Hlater.
    destruct (import_item host (now 0%nat) item 0) as [u |] eqn:Hitem;
      [| discriminate Hlater].
    assert (Hu : id u = now 0%nat + Z.of_nat 0).
    { unfold import_item in Hitem.
      destruct (get host item "subject") as [sv |]; [| discriminate Hitem].
      destruct (negb (truthy sv)); [discriminate Hitem |].
      destruct (get host item "topic") as [tv |]; [| discriminate Hitem].
      destruct (negb (truthy tv)); [discriminate Hitem |].
      destruct (get host item "minutes") as [mv |]; [| discriminate Hitem].
      destruct (negb (truthy mv)); [discriminate Hitem |].
      injection Hitem as <-. reflexivity. }
    assert (Hpre : forall data index acc out,
               forEach_import host now data index acc = Normal out ->
               exists more, out = (acc ++ more)%list).
    { induction data as [| x data IH]; intros index acc out Hrun.
      - cbn [forEach_import] in Hrun. injection Hrun as <-.
        exists []. rewrite app_nil_r. reflexivity.
      - cbn [forEach_import] in Hrun.
        destruct (import_item host (now index) x index) as [v |];
          [| discriminate Hrun].
        destruct (IH _ _ _ Hrun) as [more ->].
        exists (v :: more). rewrite <- app_assoc. reflexivity. }
    destruct (Hpre _ _ _ _ Hlater) as [more Hmore].
    cbn [app] in Hmore. injection Hmore as -> _.
    rewrite Hu, Hnow. cbn [Z.of_nat]. lia. }
  rewrite Hhead.
  exact (batch_takes_coming_ids host t earlier first k Hfirst Hall Hk).
Qed.

(** Claim C2.  The ids of an import are not always apart from the ids already
    on the list.  Two tasks imported while the clock reads 1700000000000
    get the ids 1700000000000 and 1700000000001; a second import of two
    tasks, started while the clock reads 1700000000001, gives its first
    task the id 1700000000001 again.  Ticking the box of that task then
    marks the task of the first import, the first one found with the
    id. *)
Theorem imported_id_is_given_out_again :
  let first :=
    importJsonTasks sample_host (at_ms 1700000000000)
      (sample_page [] two_tasks_text) in
  let second :=
    importJsonTasks sample_host (at_ms 1700000000001)
      (set_jsonInput two_tasks_text first) in
  map id (tasks first) = [1700000000000; 1700000000001] /\
  importError second = "" /\
  map id (tasks second)
  = [1700000000000; 1700000000001; 1700000000001; 1700000000002] /\
  ~ NoDup (map id (tasks second)) /\
  map completed (tasks (toggleTask "1700000000001" true second))
  = [false; true; false; false].
Proof.
  cbv zeta. split; [reflexivity |]. split; [reflexivity |].
  split; [reflexivity |]. split; [| reflexivity].
  assert (Hids : map id (tasks (importJsonTasks sample_host
                   (at_ms 1700000000001)
                   (set_jsonInput two_tasks_text
                      (importJsonTasks sample_host (at_ms 1700000000000)
                         (sample_page [] two_tasks_text)))))
                 = [1700000000000; 1700000000001; 1700000000001;
                    1700000000002])
    by reflexivity.
  rewrite Hids. intros Hnodup.
  inversion Hnodup as [| x l _ Hrest]; subst.
  inversion Hrest as [| y l' Hnotin _]; subst.
  apply Hnotin. left. reflexivity.
Qed.

(** Claim C3.  The import lets in tasks that break the Task invariant: minutes
    of -5 are kept as they are, and a blank subject, a topic that is a
    number and minutes that do not parse (NaN) all pass; the manual form
    turns the same entries down. *)
Theorem import_lets_invalid_tasks_in :
  let negative :=
    importJsonTasks sample_host (at_ms 1700000000000)
      (sample_page [] negative_minutes_text) in
  let blank :=
    importJsonTasks sample_host (at_ms 1700000000000)
      (sample_page [] blank_subject_text) in
  let by_hand :=
    addManualTask 1700000000000 (set_inputs "A" "B" "-5" (sample_page [] "")) in
  tasks negative
  = [mkTask 1700000000000 (JStr "A") (JStr "B") (Num (-5)) false] /\
  tasks blank
  = [mkTask 1700000000000 (JStr " ") (JNum 7) NaN false] /\
  forallb valid_task (tasks negative) = false /\
  forallb valid_task (tasks blank) = false /\
  tasks by_hand = [].
Proof. cbv zeta. repeat split; reflexivity. Qed.

(** Claim C4.  A batch with a [null] element is turned down and the list stays
    as it was, but the message shown is the host's complaint about reading
    a property of null, the same whether the [null] comes first or second:
    it does not name the element.  An element that is an object lacking
    fields is named by its index. *)
Theorem null_element_is_not_named :
  let import_of text :=
    importJsonTasks sample_host (at_ms 1700000000000)
      (sample_page [earlier_task] text) in
  importError (import_of "[null]")
  = "Invalid JSON: Cannot read properties of null (reading 'subject')" /\
  importError (import_of task_then_null_text)
  = importError (import_of "[null]") /\
  importError (import_of second_lacks_fields_text)
  = "Invalid JSON: Item at index 1 is missing fields." /\
  tasks (import_of "[null]") = [earlier_task] /\
  tasks (import_of task_then_null_text) = [earlier_task] /\
  tasks (import_of second_lacks_fields_text) = [earlier_task] /\
  stored_tasks (import_of task_then_null_text) = Some [earlier_task].
Proof. cbv zeta. repeat split; reflexivity. Qed.

(** Claim C8 as first stated does not hold of every collection the page can
    come to hold, nor of the quotient.  Minutes of -5 come in through the
    import; with the tasks of 10 and 15 minutes ticked the completed
    minutes are 25 of a total of 20 and the percentage is 125.  For 10
    completed minutes of 30 the percentage is the double
    33.33333333333333, which is not 100 * 10 / 30.  With minutes that did
    not parse, which come in through the import as well, the percentage is
    NaN.  And from 2^53 on a sum of doubles is no longer the sum of the
    numbers: 9007199254740992 + 1 is 9007199254740992. *)
Lemma percent_leaves_the_range :
  let p :=
    PlannerEvents.run sample_host
      [PlannerEvents.ImportClick (at_ms 1700000000000);
       PlannerEvents.EditJson two_tasks_text;
       PlannerEvents.ImportClick (at_ms 1700000000010);
       PlannerEvents.Change "1700000000010" true;
       PlannerEvents.Change "1700000000011" true]
      (sample_page [] negative_minutes_text) in
  let third :=
    [mkTask 1 (JStr "Math") (JStr "Algebra") (Num 10) true;
     mkTask 2 (JStr "Art") (JStr "Ink") (Num 20) false] in
  map minutes (tasks p) = [Num (-5); Num 10; Num 15] /\
  map completed (tasks p) = [false; true; true] /\
  totalMinutes (computeStatistics (tasks p)) = Num 20 /\
  completedMinutes (computeStatistics (tasks p)) = Num 25 /\
  percentComplete (computeStatistics (tasks p)) = Some 125%Q /\
  progress_percent p = Some 125%Q /\
  ~ (125 <= 100)%Q /\
  percentComplete (computeStatistics third)
  = Some (2345624805922133 # 70368744177664)%Q /\
  ~ (2345624805922133 # 70368744177664
     == 100 * inject_Z 10 / inject_Z 30)%Q /\
  percentComplete
    (computeStatistics [mkTask 4 (JStr " ") (JNum 7) NaN false])
  = None /\
  Q_of_float
    (PrimFloat.add (float_of_Z 9007199254740992) (float_of_Z 1))
  = Some 9007199254740992%Q.
Proof.
  cbv zeta. repeat split; try (vm_compute; reflexivity).
  - intros H. apply H. reflexivity.
  - intros H. vm_compute in H. discriminate H.
Qed.

End PlannerFacts.

(** ** The daily reset, in both pages *)
Module DailyStore.
Import Js JsFacts.



Lemma checkDayReset_stale (today : string) (p : Planner.Page) :
  Planner.stored_date p <> Some today ->
  Planner.checkDayReset today p
  = Planner.set_stored_date (Some today)
      (Planner.set_stored_tasks (Some []) (Planner.set_tasks [] p)).
Proof.
  intros Hstale. unfold Planner.checkDayReset.
  destruct (Planner.stored_date p) as [lastDate |]; [| reflexivity].
  destruct (String.eqb lastDate today) eqn:Hd; [| reflexivity].
  apply String.eqb_eq in Hd. subst lastDate. contradiction Hstale.
  reflexivity.
Qed.

Lemma checkDayReset_fresh (today : string) (p : Planner.Page) :
  Planner.stored_date p = Some today -> Planner.checkDayReset today p = p.
Proof.
  intros Hfresh. unfold Planner.checkDayReset.
  rewrite Hfresh, String.eqb_refl. reflexivity.
Qed.



End DailyStore.

(** ** The timer page: further properties *)
Module TimerMore.
Import Js Timer TimerEvents JsFacts.

(** *** One interval at most *)

Lemma at_most_one_cleared (p : Page) :
  at_most_one p -> intervals (clearInterval_countdown p) = [].
Proof.
  intros [[_ Hnil] | [_ [id [Hc Hone]]]]; unfold clearInterval_countdown.
  - destruct (countdown p); [cbn [intervals]; rewrite Hnil |]; trivial.
  - rewrite Hc. cbn [intervals]. rewrite Hone. cbn [filter].
    rewrite Nat.eqb_refl. reflexivity.
Qed.

Lemma at_most_one_step (p : Page) (e : Event) :
  at_most_one p -> at_most_one (step p e).
Proof.
  intros H. destruct e as [| | value | id today | today]; cbn [step].
  - unfold startBtn_click. destruct (isRunning p) eqn:Hrun; [exact H |].
    destruct H as [[_ Hnil] | [Htrue _]]; [| congruence].
    destruct (parseInt (minutesInput p)) as [m |];
      [destruct ((m <? 1) || (m >? 180)) |];
      try (left; split; [exact Hrun | exact Hnil]).
    right. split; [reflexivity |].
    exists (next_interval p). split; [reflexivity |].
    change (next_interval p :: intervals p = [next_interval p]).
    rewrite Hnil. reflexivity.
  - left. split; [reflexivity |].
    change (intervals (resetTimer p))
      with (intervals (clearInterval_countdown p)).
    apply at_most_one_cleared. exact H.
  - exact H.
  - unfold interval_fires.
    destruct (existsb (Nat.eqb id) (intervals p)); [| exact H].
    unfold interval_callback.
    set (left := Js.add (timeLeft p) (Num (-1))).
    set (q := updateDisplay left (set_timeLeft left p)).
    assert (Hq : at_most_one q) by exact H.
    destruct left as [t |]; [| exact Hq].
    destruct (t <=? 0); [| exact Hq].
    left. split.
    + unfold completeSession, clearInterval_countdown.
      destruct (countdown q); reflexivity.
    + change (intervals (completeSession today q))
        with (intervals (clearInterval_countdown q)).
      apply at_most_one_cleared. exact Hq.
  - unfold loadDailyStats. destruct (localStorage p) as [st |]; [| exact H].
    destruct (String.eqb (date st) today); exact H.
Qed.

(** Whatever the sequence of clicks, edits, interval firings and loads, the
    page keeps at most one live interval, and has one exactly while the
    timer runs. *)
Theorem at_most_one_interval_ever (events : list Event) (p : Page) :
  at_most_one p ->
  at_most_one (run events p) /\
  (List.length (intervals (run events p)) <= 1)%nat /\
  (isRunning (run events p) = true <-> intervals (run events p) <> []).
Proof.
  intros H.
  assert (Hrun : at_most_one (run events p)).
  { revert p H. induction events as [| e events IH]; intros p H;
      [exact H |].
    cbn [run fold_left]. apply IH. apply at_most_one_step. exact H. }
  split; [exact Hrun |].
  destruct Hrun as [[Hfalse Hnil] | [Htrue [id [_ Hone]]]].
  - rewrite Hnil, Hfalse. split; [cbn; lia |].
    split; [discriminate | intros Hne; contradiction Hne; reflexivity].
  - rewrite Hone, Htrue. split; [cbn; lia |].
    split; [discriminate | reflexivity].
Qed.

Lemma at_most_one_interval_ever_witness :
  let p := sample_page "0" None in
  let events :=
    [StartClick; StartClick; Fire 0 "Mon Jan 01 2024"; ResetClick;
     Edit "1"; StartClick] in
  at_most_one p /\ (List.length (intervals (run events p)) <= 1)%nat.
Proof.
  cbv zeta.
  assert (H : at_most_one (sample_page "0" None)).
  { left. split; reflexivity. }
  split; [exact H |].
  exact (proj1 (proj2 (at_most_one_interval_ever
                         [StartClick; StartClick; Fire 0 "Mon Jan 01 2024";
                          ResetClick; Edit "1"; StartClick]
                         (sample_page "0" None) H))).
Defined.

(** *** A session given up *)

(** A reset while the countdown is under way ends the session without
    counting it: the page is idle, the count on display and in storage is
    the one from before the start, and no firing changes the page again. *)
Theorem reset_discards_running_session (p : Page) (m : Z)
    (dates : nat -> string) (k : nat) :
  isRunning p = false -> intervals p = [] ->
  parseInt (minutesInput p) = Num m -> 1 <= m <= 180 ->
  Z.of_nat k < m * 60 ->
  let q := resetTimer (fires (next_interval p) dates k (startBtn_click p)) in
  phase q = Idle /\
  sessionCountDisplay q = sessionCountDisplay p /\
  localStorage q = localStorage p /\
  intervals q = [] /\
  (forall id later n, fires id later n q = q).
Proof.
  intros Hrun Hnil Hparse Hm Hk. cbv zeta.
  rewrite (TimerFacts.startBtn_click_valid p m Hrun Hparse Hm).
  destruct (TimerFacts.fires_while_running p (m * 60) dates k Hnil Hk)
    as [_ [_ [_ [Hint [Hc [Hcount Hstore]]]]]].
  set (r := fires (next_interval p) dates k (startTimer (m * 60) p)) in *.
  assert (Hdead : intervals (resetTimer r) = []).
  { change (intervals (resetTimer r))
      with (intervals (clearInterval_countdown r)).
    unfold clearInterval_countdown. rewrite Hc. cbn [intervals].
    rewrite Hint. cbn [filter]. rewrite Nat.eqb_refl. reflexivity. }
  assert (Hfields : phase (resetTimer r) = Idle /\
                    sessionCountDisplay (resetTimer r)
                    = sessionCountDisplay r /\
                    localStorage (resetTimer r) = localStorage r).
  { unfold resetTimer, clearInterval_countdown.
    destruct (countdown r); repeat split; reflexivity. }
  destruct Hfields as [Hphase [Hd Hs]].
  split; [exact Hphase |].
  split; [rewrite Hd; exact Hcount |].
  split; [rewrite Hs; exact Hstore |].
  split; [exact Hdead |].
  intros id later n. induction n as [| n IH]; [reflexivity |].
  cbn [fires]. rewrite IH. apply TimerFacts.interval_fires_dead. exact Hdead.
Qed.

Lemma reset_discards_running_session_witness :
  let p := set_minutesInput "2" (sample_page "7" None) in
  let day := fun _ : nat => "Mon Jan 01 2024" in
  (isRunning p = false /\ intervals p = [] /\
   parseInt (minutesInput p) = Num 2 /\ 1 <= 2 <= 180 /\
   Z.of_nat 100 < 2 * 60) /\
  sessionCountDisplay (resetTimer (fires 0 day 100 (startBtn_click p))) = "7".
Proof.
  cbv zeta.
  assert (Hm : 1 <= 2 <= 180) by (split; discriminate).
  assert (Hk : Z.of_nat 100 < 2 * 60) by reflexivity.
  split.
  { split; [reflexivity |]. split; [reflexivity |].
    split; [reflexivity |]. split; [exact Hm | exact Hk]. }
  exact (proj1 (proj2 (reset_discards_running_session
                         (set_minutesInput "2" (sample_page "7" None)) 2
                         (fun _ : nat => "Mon Jan 01 2024") 100
                         eq_refl eq_refl eq_refl Hm Hk))).
Defined.

(** *** The count over several sessions and a reload *)

(** Counting [n] sessions adds [n] to the count read off the page,
    whatever text the count node started with, and stores the sum under the
    date of the last one, as long as the count stays within the whole
    numbers a double holds exactly. *)
Theorem increments_add_up (dates : nat -> string) (n : nat) (p : Page) :
  - 2 ^ 53 <= session_count p ->
  session_count p + Z.of_nat n <= 2 ^ 53 ->
  session_count (increments dates n p) = session_count p + Z.of_nat n /\
  (forall k, n = S k ->
     sessionCountDisplay (increments dates n p)
     = string_of_Z (session_count p + Z.of_nat n) /\
     localStorage (increments dates n p)
     = Some (mkStats (dates k) (session_count p + Z.of_nat n))).
Proof.
  intros Hlow. induction n as [| n IH]; intros Hhigh.
  - split; [cbn [increments]; lia | intros k Hk; discriminate Hk].
  - assert (Hbefore : session_count p + Z.of_nat n <= 2 ^ 53) by lia.
    destruct (IH Hbefore) as [IHcount _].
    assert (Hshown : sessionCountDisplay (increments dates (S n) p)
                     = string_of_Z (session_count p + Z.of_nat (S n))).
    { cbn [increments]. unfold incrementDailyCount.
      cbn [sessionCountDisplay saveStats set_localStorage
             set_sessionCountDisplay].
      fold (session_count (increments dates n p)). rewrite IHcount.
      f_equal. lia. }
    split.
    + unfold session_count at 1. rewrite Hshown, parseInt_string_of_Z.
      reflexivity.
    + intros k Hk. injection Hk as <-. split; [exact Hshown |].
      cbn [increments]. unfold incrementDailyCount.
      cbn [localStorage saveStats set_localStorage].
      fold (session_count (increments dates n p)). rewrite IHcount.
      do 2 f_equal. lia.
Qed.

Lemma increments_add_up_witness :
  let p := sample_page "7 done" None in
  let day := fun _ : nat => "Mon Jan 01 2024" in
  (- 2 ^ 53 <= session_count p /\ session_count p + Z.of_nat 3 <= 2 ^ 53) /\
  session_count (increments day 3 p) = 7 + Z.of_nat 3.
Proof.
  cbv zeta.
  assert (Hlow : - 2 ^ 53 <= session_count (sample_page "7 done" None))
    by (vm_compute; discriminate).
  assert (Hhigh : session_count (sample_page "7 done" None) + Z.of_nat 3
                  <= 2 ^ 53) by (vm_compute; discriminate).
  split; [split; [exact Hlow | exact Hhigh] |].
  exact (proj1 (increments_add_up (fun _ : nat => "Mon Jan 01 2024") 3
                  (sample_page "7 done" None) Hlow Hhigh)).
Defined.

(** What a completed session stored is what a reload on the same day shows,
    and a reload on another day starts from 0 again. *)
Theorem count_survives_reload (p q : Page) (today : string) :
  localStorage q = localStorage (completeSession today p) ->
  session_count (loadDailyStats today q) = session_count p + 1 /\
  localStorage (loadDailyStats today q) = localStorage q /\
  (forall later, later <> today ->
     localStorage (loadDailyStats later q) = Some (mkStats later 0)).
Proof.
  intros Hq.
  assert (Hstored : localStorage q
                    = Some (mkStats today (session_count p + 1))).
  { rewrite Hq. unfold completeSession, clearInterval_countdown.
    destruct (countdown p); reflexivity. }
  rewrite (TimerFacts.loadDailyStats_fresh today q _ Hstored eq_refl).
  split.
  - unfold session_count at 1.
    cbn [sessionCountDisplay set_sessionCountDisplay count].
    rewrite parseInt_string_of_Z. reflexivity.
  - split; [reflexivity |].
    intros later Hne. rewrite TimerFacts.loadDailyStats_stale; [reflexivity |].
    right. eexists. split; [exact Hstored |].
    cbn [date]. intros Heq. apply Hne. symmetry. exact Heq.
Qed.

Lemma count_survives_reload_witness :
  let p := sample_page "3" None in
  let q := sample_page "0" (Some (mkStats "Mon Jan 01 2024" 4)) in
  localStorage q = localStorage (completeSession "Mon Jan 01 2024" p) /\
  session_count (loadDailyStats "Mon Jan 01 2024" q) = 3 + 1.
Proof.
  cbv zeta. split; [reflexivity |].
  exact (proj1 (count_survives_reload
                  (sample_page "3" None)
                  (sample_page "0" (Some (mkStats "Mon Jan 01 2024" 4)))
                  "Mon Jan 01 2024" eq_refl)).
Defined.

(** *** Minutes typed with something after the number *)

Lemma digits_acc_leading (fuel : nat) :
  forall n acc,
    0 < n < 2 ^ Z.of_nat (S fuel) ->
    exists d s, digits_acc (S fuel) n acc = String (digit_char d) s
                /\ 1 <= d <= 9.
Proof.
  induction fuel as [| fuel IH]; intros n acc Hn.
  - change (2 ^ Z.of_nat 1) with 2 in Hn.
    assert (Hlt : (n <? 10) = true) by (apply Z.ltb_lt; lia).
    exists n, acc. cbn [digits_acc]. rewrite Hlt, Z.mod_small by lia.
    split; [reflexivity | lia].
  - change (digits_acc (S (S fuel)) n acc)
      with (let acc' := String (digit_char (n mod 10)) acc in
            if n <? 10 then acc' else digits_acc (S fuel) (n / 10) acc').
    cbv zeta. destruct (n <? 10) eqn:Hlt.
    + apply Z.ltb_lt in Hlt. exists n, acc.
      rewrite Z.mod_small by lia. split; [reflexivity | lia].
    + apply Z.ltb_ge in Hlt. apply IH. split.
      * apply Z.div_str_pos. lia.
      * apply Z.div_lt_upper_bound; [lia |].
        rewrite (Nat2Z.inj_succ (S fuel)), Z.pow_succ_r in Hn by lia. lia.
Qed.

Lemma leading_digit_no_hex (d : Z) (s : string) :
  1 <= d <= 9 -> strip_hex (String (digit_char d) s) = None.
Proof.
  intros H.
  assert (Hd : d = 1 \/ d = 2 \/ d = 3 \/ d = 4 \/ d = 5 \/
               d = 6 \/ d = 7 \/ d = 8 \/ d = 9) by lia.
  destruct Hd as [-> | [-> | [-> | [-> | [-> | [-> | [-> | [-> | ->]]]]]]]];
    reflexivity.
Qed.

(** A positive number followed by anything that is no digit reads back as
    the number. *)
Lemma parseInt_number_then (n : Z) (c : ascii) (r : string) :
  0 < n -> digit_value 10 c = None ->
  parseInt (string_of_Z n ++ String c r) = Num n.
Proof.
  intros Hn Hc. rewrite TimerFacts.string_of_Z_nonneg by lia.
  assert (Hfuel := digits_fuel n (Z.lt_le_incl _ _ Hn)).
  destruct (digits_acc_leading (Z.to_nat (Z.log2 n)) n ""
              (conj Hn (proj2 Hfuel))) as [d [s [Hd Hrange]]].
  fold (digits n) in Hd.
  assert (Hparse : parse_digits 10 false 0 (digits n ++ String c r) = Some n).
  { unfold digits. rewrite digits_acc_append. cbn [append].
    destruct (parse_digits_acc (Z.to_nat (Z.log2 n)) n (String c r) false 0
                Hfuel) as [k [_ Heq]].
    rewrite Heq. cbn [parse_digits]. rewrite Hc. f_equal. }
  assert (Hdigit : is_digit (digit_char d) = true)
    by (apply is_digit_digit_char; lia).
  rewrite Hd in *. cbn [append] in *.
  destruct (head_digit_plain (digit_char d) (s ++ String c r) Hdigit)
    as [Hsp Hsign].
  unfold parseInt. rewrite Hsp, Hsign.
  unfold parse_unsigned. rewrite leading_digit_no_hex by exact Hrange.
  rewrite Hparse. f_equal. lia.
Qed.

(** The start click goes by the number the minutes text begins with: text
    such as 25 followed by a unit or a fraction starts the 25 minutes. *)
Theorem start_reads_leading_number (p : Page) (m : Z) (c : ascii)
    (r : string) :
  isRunning p = false ->
  minutesInput p = string_of_Z m ++ String c r ->
  digit_value 10 c = None -> 1 <= m <= 180 ->
  timeLeft (startBtn_click p) = Num (m * 60) /\
  phase (startBtn_click p) = Running.
Proof.
  intros Hrun Htext Hc Hm.
  assert (Hparse : parseInt (minutesInput p) = Num m).
  { rewrite Htext. apply parseInt_number_then; [lia | exact Hc]. }
  rewrite (TimerFacts.startBtn_click_valid p m Hrun Hparse Hm).
  split; reflexivity.
Qed.

Lemma start_reads_leading_number_witness :
  let p := set_minutesInput "25.9 min" (sample_page "0" None) in
  (isRunning p = false /\
   minutesInput p = string_of_Z 25 ++ String "." "9 min" /\
   digit_value 10 "." = None /\ 1 <= 25 <= 180) /\
  timeLeft (startBtn_click p) = Num (25 * 60).
Proof.
  cbv zeta.
  assert (Hm : 1 <= 25 <= 180) by (split; discriminate).
  split.
  { split; [reflexivity |]. split; [reflexivity |].
    split; [reflexivity | exact Hm]. }
  exact (proj1 (start_reads_leading_number
                  (set_minutesInput "25.9 min" (sample_page "0" None))
                  25 "." "9 min" eq_refl eq_refl eq_refl Hm)).
Defined.

End TimerMore.

(** ** Escaping and rendering *)
Module RenderFacts.
Import Js Planner Batch Render JsFacts.

(** *** Escaping *)

Lemma replace_all_append (c : ascii) (new a b : string) :
  replace_all c new (a ++ b) = replace_all c new a ++ replace_all c new b.
Proof.
  induction a as [| x a IH]; [reflexivity |].
  cbn [append replace_all]. rewrite IH.
  destruct (Ascii.eqb x c); [rewrite append_assoc |]; reflexivity.
Qed.

Lemma replace_all_cons (c : ascii) (new : string) (x : ascii) (s : string) :
  replace_all c new (String x s)
  = (if Ascii.eqb x c then new else String x "") ++ replace_all c new s.
Proof. cbn [replace_all]. destruct (Ascii.eqb x c); reflexivity. Qed.

Lemma escape_string_cons (c : ascii) (s : string) :
  escape_string (String c s) = entity c ++ escape_string s.
Proof.
  unfold escape_string.
  rewrite (replace_all_cons "&"), !replace_all_append. f_equal.
  destruct c as [[] [] [] [] [] [] [] []]; reflexivity.
Qed.

Lemma escape_string_once (s : string) : escape_string s = escape_once s.
Proof.
  induction s as [| c s IH]; [reflexivity |].
  rewrite escape_string_cons, IH. reflexivity.
Qed.

(** The five passes of [escapeHtml] come to one pass that turns each
    special character into its entity: the ampersands the later passes
    write are not escaped again. *)
Theorem escape_passes_are_one_pass (s : string) :
  escape_string s = escape_once s.
Proof. exact (escape_string_once s). Qed.

Lemma has_char_append (f : ascii -> bool) (a b : string) :
  has_char f (a ++ b) = has_char f a || has_char f b.
Proof.
  induction a as [| x a IH]; [reflexivity |].
  cbn [append has_char]. rewrite IH, orb_assoc. reflexivity.
Qed.

Lemma entity_no_markup (c : ascii) : has_char is_markup (entity c) = false.
Proof. destruct c as [[] [] [] [] [] [] [] []]; reflexivity. Qed.

Lemma unescape_entity (c : ascii) (t : string) :
  unescape (entity c ++ t) = String c (unescape t).
Proof. destruct c as [[] [] [] [] [] [] [] []]; reflexivity. Qed.

Lemma escape_no_markup (s : string) :
  has_char is_markup (escape_string s) = false.
Proof.
  rewrite escape_string_once. induction s as [| c s IH]; [reflexivity |].
  cbn [escape_once]. rewrite has_char_append, entity_no_markup, IH.
  reflexivity.
Qed.

Lemma unescape_escape (s : string) : unescape (escape_string s) = s.
Proof.
  rewrite escape_string_once. induction s as [| c s IH]; [reflexivity |].
  cbn [escape_once]. rewrite unescape_entity, IH. reflexivity.
Qed.

(** Escaped text holds no angle bracket and no quote of either kind, and
    reading its entities back gives the text that was escaped. *)
Theorem escaped_text_is_inert_and_reversible (s : string) :
  has_char is_markup (escape_string s) = false /\
  unescape (escape_string s) = s.
Proof. split; [apply escape_no_markup | apply unescape_escape]. Qed.

Lemma length_append (a b : string) :
  String.length (a ++ b) = (String.length a + String.length b)%nat.
Proof.
  induction a as [| x a IH]; [reflexivity |].
  cbn [append String.length]. rewrite IH. reflexivity.
Qed.

Lemma entity_length (c : ascii) :
  (if is_special c then 4 <= String.length (entity c)
   else entity c = String c "")%nat.
Proof.
  destruct c as [[] [] [] [] [] [] [] []]; cbn; try reflexivity; lia.
Qed.

Lemma escape_once_length (s : string) :
  (String.length s <= String.length (escape_once s))%nat /\
  (has_char is_special s = true ->
   String.length s < String.length (escape_once s))%nat.
Proof.
  induction s as [| c s [IHle IHlt]]; [split; [reflexivity | discriminate] |].
  cbn [escape_once has_char String.length]. rewrite length_append.
  pose proof (entity_length c) as Hc.
  destruct (is_special c).
  - split; [lia | intros _; lia].
  - rewrite Hc. cbn [String.length orb]. split; [lia |].
    intros Hs. specialize (IHlt Hs). lia.
Qed.

(** Text comes out of [escapeHtml] unchanged exactly when it holds none of
    the five characters; otherwise it comes out longer. *)
Theorem escape_leaves_plain_text_alone (s : string) :
  (escape_string s = s <-> has_char is_special s = false) /\
  (String.length s <= String.length (escape_string s))%nat.
Proof.
  rewrite escape_string_once.
  destruct (escape_once_length s) as [Hle Hlt].
  split; [| exact Hle]. split.
  - intros Heq. destruct (has_char is_special s); [| reflexivity].
    specialize (Hlt eq_refl). rewrite Heq in Hlt. lia.
  - clear Hle Hlt. induction s as [| c s IH]; [reflexivity |].
    cbn [has_char escape_once]. intros H.
    apply orb_false_iff in H as [Hc Hs].
    pose proof (entity_length c) as He. rewrite Hc in He.
    rewrite He, (IH Hs). reflexivity.
Qed.

(** *** Rows *)

Lemma count_char_append (c : ascii) (a b : string) :
  count_char c (a ++ b) = (count_char c a + count_char c b)%nat.
Proof.
  induction a as [| x a IH]; [reflexivity |].
  cbn [append count_char]. rewrite IH. lia.
Qed.

Lemma count_char_absent (c : ascii) (s : string) :
  is_markup c = true -> has_char is_markup s = false -> count_char c s = 0%nat.
Proof.
  intros Hc. induction s as [| x s IH]; [reflexivity |].
  cbn [has_char count_char]. intros H.
  apply orb_false_iff in H as [Hx Hs]. rewrite (IH Hs).
  destruct (Ascii.eqb x c) eqn:Heq; [| reflexivity].
  apply Ascii.eqb_eq in Heq. subst x. congruence.
Qed.

Lemma digit_is_no_markup (c : ascii) : is_digit c = true -> is_markup c = false.
Proof.
  destruct c as [[] [] [] [] [] [] [] []]; intros H;
    try discriminate H; reflexivity.
Qed.

Lemma all_digits_no_markup (s : string) :
  all_digits s = true -> has_char is_markup s = false.
Proof.
  induction s as [| c s IH]; [reflexivity |].
  cbn [all_digits has_char]. intros H. apply andb_prop in H as [Hc Hs].
  rewrite (digit_is_no_markup c Hc), (IH Hs). reflexivity.
Qed.

Lemma string_of_Z_no_markup (z : Z) :
  has_char is_markup (string_of_Z z) = false.
Proof.
  unfold string_of_Z. destruct (z <? 0) eqn:Hneg.
  - apply Z.ltb_lt in Hneg. cbn [has_char].
    rewrite all_digits_no_markup by (apply digits_all_digits; lia).
    reflexivity.
  - apply Z.ltb_ge in Hneg. apply all_digits_no_markup.
    apply digits_all_digits. exact Hneg.
Qed.

Lemma toString_no_markup (n : number) :
  has_char is_markup (Js.toString n) = false.
Proof.
  destruct n as [z |]; [apply string_of_Z_no_markup | reflexivity].
Qed.

Lemma escapeHtml_renders (nf : string) (v : JValue) :
  not_text v = false ->
  exists s, escapeHtml nf v = Normal s /\ has_char is_markup s = false.
Proof.
  unfold not_text, escapeHtml. intros H.
  destruct (truthy v) eqn:Ht; cbn [negb andb] in *.
  - destruct v; try discriminate H.
    eexists. split; [reflexivity | apply escape_no_markup].
  - exists "". split; reflexivity.
Qed.

Lemma escapeHtml_throws (nf : string) (v : JValue) :
  not_text v = true -> escapeHtml nf v = Throw nf.
Proof.
  unfold not_text, escapeHtml. intros H.
  apply andb_prop in H as [Ht Hv]. rewrite Ht. cbn [negb].
  destruct v; try discriminate Hv; reflexivity.
Qed.

(** The row of a task that renders: whatever its texts, the markup holds
    each angle bracket and quote exactly as often as the bare template. *)
Lemma render_row_ok (nf : string) (t : Task) :
  renders t = true ->
  exists row,
    render_row nf t = Normal row /\
    forall c, is_markup c = true ->
      count_char c (innerHTML row)
      = count_char c (row_markup "" "" "" "" "").
Proof.
  unfold renders. intros H. apply andb_prop in H as [Hs Ht].
  apply negb_true_iff in Hs, Ht.
  destruct (escapeHtml_renders nf (subject t) Hs) as [s [Es Ms]].
  destruct (escapeHtml_renders nf (topic t) Ht) as [tp [Et Mt]].
  unfold render_row. rewrite Es, Et.
  eexists. split; [reflexivity |].
  intros c Hc. cbn [innerHTML]. unfold row_markup.
  rewrite !count_char_append.
  rewrite (count_char_absent c s Hc Ms), (count_char_absent c tp Hc Mt).
  rewrite (count_char_absent c (string_of_Z (id t)) Hc
             (string_of_Z_no_markup _)).
  rewrite (count_char_absent c (Js.toString (minutes t)) Hc
             (toString_no_markup _)).
  assert (Hchecked : count_char c (if completed t then "checked" else "")
                     = 0%nat).
  { apply count_char_absent; [exact Hc |].
    destruct (completed t); reflexivity. }
  rewrite Hchecked. cbn [count_char]. reflexivity.
Qed.

Lemma render_row_throws (nf : string) (t : Task) :
  renders t = false -> render_row nf t = Throw nf.
Proof.
  unfold renders, render_row. intros H.
  destruct (not_text (subject t)) eqn:Hs.
  - rewrite (escapeHtml_throws nf _ Hs). reflexivity.
  - destruct (escapeHtml_renders nf _ Hs) as [s [-> _]].
    cbn [negb andb] in H. apply negb_false_iff in H.
    rewrite (escapeHtml_throws nf _ H). reflexivity.
Qed.

Lemma render_rows_ok (nf : string) (ts : list Task) :
  forallb renders ts = true ->
  forall done,
  exists rows,
    render_rows nf ts done = ((done ++ rows)%list, None) /\
    List.length rows = List.length ts /\
    (forall row c, In row rows -> is_markup c = true ->
       count_char c (innerHTML row)
       = count_char c (row_markup "" "" "" "" "")).
Proof.
  induction ts as [| t ts IH]; intros H done.
  - exists []. cbn [render_rows]. rewrite app_nil_r.
    repeat split. intros row c [].
  - cbn [forallb] in H. apply andb_prop in H as [Ht Hrest].
    destruct (render_row_ok nf t Ht) as [row [Hrow Hcount]].
    destruct (IH Hrest (done ++ [row])%list) as [rows [Hrun [Hlen Hall]]].
    exists (row :: rows). cbn [render_rows]. rewrite Hrow, Hrun, <- app_assoc.
    split; [reflexivity |]. split; [cbn [List.length]; rewrite Hlen; reflexivity |].
    intros r c [<- | Hin] Hc; [apply Hcount | apply Hall]; assumption.
Qed.

Lemma render_rows_stop (nf : string) (pre post : list Task) (bad : Task) :
  forallb renders pre = true -> renders bad = false ->
  forall done,
  exists rows,
    render_rows nf (pre ++ bad :: post) done = ((done ++ rows)%list, Some nf) /\
    List.length rows = List.length pre.
Proof.
  intros Hpre Hbad. induction pre as [| t pre IH]; intros done.
  - exists []. cbn [app render_rows]. rewrite (render_row_throws nf bad Hbad).
    rewrite app_nil_r. split; reflexivity.
  - cbn [forallb] in Hpre. apply andb_prop in Hpre as [Ht Hrest].
    destruct (render_row_ok nf t Ht) as [row [Hrow _]].
    destruct (IH Hrest (done ++ [row])%list) as [rows [Hrun Hlen]].
    exists (row :: rows). cbn [app render_rows].
    rewrite Hrow, Hrun, <- app_assoc.
    split; [reflexivity | cbn [List.length]; rewrite Hlen; reflexivity].
Qed.

Lemma first_that_fails (ts : list Task) :
  forallb renders ts = false ->
  exists pre bad post,
    ts = (pre ++ bad :: post)%list /\ forallb renders pre = true /\
    renders bad = false.
Proof.
  induction ts as [| t ts IH]; intros H; [discriminate H |].
  cbn [forallb] in H. destruct (renders t) eqn:Ht.
  - destruct (IH H) as [pre [bad [post [-> [Hpre Hbad]]]]].
    exists (t :: pre), bad, post. cbn [forallb]. rewrite Ht, Hpre.
    repeat split. exact Hbad.
  - exists [], t, ts. repeat split. exact Ht.
Qed.

Lemma renderTasks_ok (nf : string) (ts : list Task) :
  forallb renders ts = true -> exists node, renderTasks nf ts = (node, None).
Proof.
  intros H. unfold renderTasks. destruct ts as [| t ts]; [eexists; reflexivity |].
  destruct (render_rows_ok nf (t :: ts) H []) as [rows [-> _]].
  eexists. reflexivity.
Qed.

Lemma renderTasks_fails (nf : string) (ts : list Task) :
  forallb renders ts = false ->
  exists rows, renderTasks nf ts = (Rows rows false, Some nf).
Proof.
  intros H. destruct (first_that_fails ts H) as [pre [bad [post [-> [Hpre Hbad]]]]].
  destruct (render_rows_stop nf pre post bad Hpre Hbad []) as [rows [Hrun _]].
  unfold renderTasks. rewrite Hrun.
  destruct (pre ++ bad :: post)%list eqn:Hl.
  - destruct pre; discriminate Hl.
  - eexists. reflexivity.
Qed.

(** A list of tasks that all render gives one row per task with the
    listeners attached, and no text of a task adds or removes an angle
    bracket or a quote in its row; the empty list gives the empty-state
    markup. *)
Theorem rendered_rows_keep_their_markup (nf : string) (ts : list Task) :
  forallb renders ts = true ->
  (ts = [] -> renderTasks nf ts = (Markup empty_state, None)) /\
  (ts <> [] ->
   exists rows,
     renderTasks nf ts = (Rows rows true, None) /\
     List.length rows = List.length ts /\
     (forall row c, In row rows -> is_markup c = true ->
        count_char c (innerHTML row)
        = count_char c (row_markup "" "" "" "" ""))).
Proof.
  intros H. split; [intros ->; reflexivity |].
  intros Hne. destruct (render_rows_ok nf ts H []) as [rows [Hrun Hrest]].
  exists rows. split; [| exact Hrest].
  unfold renderTasks. destruct ts as [| t ts]; [contradiction Hne; reflexivity |].
  rewrite Hrun. reflexivity.
Qed.

Lemma rendered_rows_keep_their_markup_witness :
  let t :=
    mkTask 7 (JStr "<script>alert('x')</script>") (JStr "a & b") (Num 5) true in
  forallb renders [t] = true /\
  exists rows,
    renderTasks v8_not_a_function [t] = (Rows rows true, None) /\
    List.length rows = 1%nat /\
    (forall row c, In row rows -> is_markup c = true ->
       count_char c (innerHTML row)
       = count_char c (row_markup "" "" "" "" "")).
Proof.
  cbv zeta. split; [reflexivity |].
  refine (proj2 (rendered_rows_keep_their_markup v8_not_a_function
                   [mkTask 7 (JStr "<script>alert('x')</script>")
                      (JStr "a & b") (Num 5) true] eq_refl) _).
  discriminate.
Defined.

(** Rendering stops at the first task one of whose texts is truthy and no
    string: the rows of the tasks before it are in place, none for it or
    the tasks after it, and the checkboxes get no listener. *)
Theorem render_stops_at_first_non_text (nf : string) (pre post : list Task)
    (bad : Task) :
  forallb renders pre = true -> renders bad = false ->
  exists rows,
    renderTasks nf (pre ++ bad :: post) = (Rows rows false, Some nf) /\
    List.length rows = List.length pre.
Proof.
  intros Hpre Hbad.
  destruct (render_rows_stop nf pre post bad Hpre Hbad []) as [rows [Hrun Hlen]].
  exists rows. split; [| exact Hlen].
  unfold renderTasks. rewrite Hrun.
  destruct (pre ++ bad :: post)%list eqn:Hl; [| reflexivity].
  destruct pre; discriminate Hl.
Qed.

Lemma render_stops_at_first_non_text_witness :
  let bad := mkTask 17 (JStr " ") (JNum 7) NaN false in
  (forallb renders [earlier_task] = true /\ renders bad = false) /\
  exists rows,
    renderTasks v8_not_a_function ([earlier_task] ++ bad :: [earlier_task])
    = (Rows rows false, Some v8_not_a_function) /\
    List.length rows = List.length [earlier_task].
Proof.
  cbv zeta. split; [split; reflexivity |].
  exact (render_stops_at_first_non_text v8_not_a_function [earlier_task]
           [earlier_task] (mkTask 17 (JStr " ") (JNum 7) NaN false)
           eq_refl eq_refl).
Defined.

(** *** The handlers with their rendering *)

Section RenderedHandlers.

Variable host : Host.
Variable nf : string.

(** Before the loop the import gives up in three ways, each leaving
    everything but the error text as it was: nothing but white space in the
    box, text the host cannot parse, and a parsed value that is no array. *)
Theorem import_refused_before_the_loop (now : nat -> Z) (d : Doc) :
  let p := page d in
  let d' := importJsonTasks_rendered host nf now d in
  let only message :=
    mkDoc (set_importError message (set_importError "" p)) (taskList d)
      (uncaught d) in
  (trim (jsonInput p) = "" -> d' = only "Please paste some JSON first.") /\
  (forall message,
     trim (jsonInput p) <> "" ->
     JSON_parse host (trim (jsonInput p)) = Throw message ->
     d' = only ("Invalid JSON: " ++ message)) /\
  (forall v,
     trim (jsonInput p) <> "" ->
     JSON_parse host (trim (jsonInput p)) = Normal v ->
     (forall data, v <> JArr data) ->
     d' = only "Invalid JSON: JSON must be an array of objects.").
Proof.
  cbv zeta. unfold importJsonTasks_rendered. split; [| split].
  - intros Hblank. apply String.eqb_eq in Hblank. rewrite Hblank.
    reflexivity.
  - intros message Hraw Hparse. apply String.eqb_neq in Hraw.
    rewrite Hraw. unfold import_try. rewrite Hparse. reflexivity.
  - intros v Hraw Hparse Hshape. apply String.eqb_neq in Hraw.
    rewrite Hraw. unfold import_try. rewrite Hparse.
    destruct v as [| | b | z | s | items | fields]; try reflexivity.
    contradiction (Hshape items). reflexivity.
Qed.

(** When a task of the merged list does not render, the import has already
    taken the whole batch and saved it, and then reports it as invalid
    JSON: the box keeps its text and no success alert is shown. *)
Theorem import_keeps_batch_it_cannot_show (now : nat -> Z) (d : Doc)
    (data : list JValue) :
  trim (jsonInput (page d)) <> "" ->
  JSON_parse host (trim (jsonInput (page d))) = Normal (JArr data) ->
  Forall (fun item => has_fields item = true) data ->
  forallb renders (tasks (page d) ++ tasks_of_batch now 0 data) = false ->
  let d' := importJsonTasks_rendered host nf now d in
  tasks (page d') = (tasks (page d) ++ tasks_of_batch now 0 data)%list /\
  stored_tasks (page d')
  = Some (tasks (page d) ++ tasks_of_batch now 0 data)%list /\
  importError (page d') = "Invalid JSON: " ++ nf /\
  jsonInput (page d') = jsonInput (page d) /\
  alerts (page d') = alerts (page d) /\
  uncaught d' = uncaught d /\
  exists rows, taskList d' = Rows rows false.
Proof.
  intros Hraw Hparse Hall Hbad. cbv zeta.
  destruct (PlannerFacts.forEach_import_batch host now data Hall 0%nat [])
    as [Hrun _].
  cbn [app] in Hrun.
  destruct (renderTasks_fails nf _ Hbad) as [rows Hrender].
  unfold importJsonTasks_rendered. apply String.eqb_neq in Hraw.
  rewrite Hraw. unfold import_try. rewrite Hparse, Hrun.
  cbn [tasks saveTasks updateStats set_stats set_stored_tasks set_tasks
         set_importError].
  rewrite Hrender. repeat split. exists rows. reflexivity.
Qed.

(** As long as every task on the list renders, the handlers followed
    together with the task list node change the page record exactly as the
    handlers followed on the page record alone, and nothing is thrown; a
    task added by hand keeps the list rendering. *)
Theorem rendering_leaves_the_page_alone (import_clock : nat -> Z) (now : Z)
    (d : Doc) :
  (forallb renders (tasks (importJsonTasks host import_clock (page d))) = true ->
   page (importJsonTasks_rendered host nf import_clock d)
   = importJsonTasks host import_clock (page d) /\
   uncaught (importJsonTasks_rendered host nf import_clock d) = uncaught d) /\
  (forallb renders (tasks (page d)) = true ->
   page (addManualTask_rendered nf now d) = addManualTask now (page d) /\
   uncaught (addManualTask_rendered nf now d) = uncaught d /\
   forallb renders (tasks (addManualTask now (page d))) = true).
Proof.
  split.
  - unfold importJsonTasks_rendered, importJsonTasks.
    destruct (String.eqb (trim (jsonInput (page d))) "");
      [intros _; split; reflexivity |].
    destruct (import_try host import_clock (trim (jsonInput (page d))))
      as [new | message]; [| intros _; split; reflexivity].
    cbn [tasks saveTasks updateStats set_stats set_stored_tasks set_tasks
           set_importError].
    intros Hok.
    assert (Hall : forallb renders (tasks (page d) ++ new) = true).
    { destruct (snd (renderTasks (not_a_function_message host)
                       (tasks (page d) ++ new))); exact Hok. }
    destruct (renderTasks_ok nf _ Hall) as [node Hrender].
    destruct (renderTasks_ok (not_a_function_message host) _ Hall)
      as [node' Hrender'].
    rewrite Hrender, Hrender'. split; reflexivity.
  - intros Hok. unfold addManualTask_rendered, addManualTask.
    destruct (String.eqb (trim (subjectInput (page d))) ""
              || String.eqb (trim (topicInput (page d))) "");
      [repeat split; exact Hok |].
    destruct (parseInt (timeInput (page d))) as [m |];
      [| repeat split; exact Hok].
    destruct (m <=? 0); [repeat split; exact Hok |].
    cbn [tasks saveTasks updateStats set_stats set_stored_tasks set_tasks
           set_inputs].
    set (newTask := mkTask now (JStr (trim (subjectInput (page d))))
                      (JStr (trim (topicInput (page d)))) (Num m) false).
    assert (Hall : forallb renders (tasks (page d) ++ [newTask]) = true).
    { rewrite forallb_app, Hok. cbn [forallb andb].
      unfold renders, not_text. cbn [subject topic newTask].
      rewrite !andb_false_r. reflexivity. }
    destruct (renderTasks_ok nf _ Hall) as [node Hrender].
    destruct (renderTasks_ok "" _ Hall) as [node' Hrender'].
    rewrite Hrender, Hrender'. repeat split. exact Hall.
Qed.

(** Clearing after a confirmation empties the list in memory and in
    storage, zeroes the statistics and shows the empty-state markup;
    without the confirmation nothing happens. *)
Theorem clear_all_empties_everything (d : Doc) :
  clearAllTasks_rendered nf false d = d /\
  let d' := clearAllTasks_rendered nf true d in
  page d' = clearAllTasks true (page d) /\
  tasks (page d') = [] /\
  stored_tasks (page d') = Some [] /\
  statsTotal (page d') = "0 min" /\
  statsCompleted (page d') = "0 min" /\
  progress_percent (page d') = Some 0%Q /\
  taskList d' = Markup empty_state /\
  uncaught d' = uncaught d.
Proof. cbv zeta. repeat split; reflexivity. Qed.

(** Loading the page on a new day drops the stored tasks and shows the
    empty state with zeroed statistics; on the same day it takes up the
    stored list, for a list that reads back from its text, and refreshes
    the statistics only if every task renders: otherwise the error is left
    uncaught and the statistics stay as the markup has them. *)
Theorem page_load_resets_or_restores (today : string) (d : Doc) :
  let d' := DOMContentLoaded nf today d in
  (stored_date (page d) <> Some today ->
   tasks (page d') = [] /\
   stored_tasks (page d') = Some [] /\
   stored_date (page d') = Some today /\
   taskList d' = Markup empty_state /\
   statsTotal (page d') = "0 min" /\
   progress_percent (page d') = Some 0%Q /\
   uncaught d' = uncaught d) /\
  (forall ts,
     stored_date (page d) = Some today ->
     stored_tasks (page d) = Some ts ->
     forallb reads_back ts = true ->
     tasks (page d') = ts /\
     stored_tasks (page d') = Some ts /\
     (forallb renders ts = true ->
      uncaught d' = uncaught d /\
      statsTotal (page d')
      = Js.toString (totalMinutes (computeStatistics ts)) ++ " min") /\
     (forallb renders ts = false ->
      uncaught d' = app (uncaught d) [nf] /\
      statsTotal (page d') = statsTotal (page d))).
Proof.
  cbv zeta. unfold DOMContentLoaded. split.
  - intros Hstale. rewrite (DailyStore.checkDayReset_stale today _ Hstale).
    repeat split; reflexivity.
  - intros ts Hfresh Hstored _.
    rewrite (DailyStore.checkDayReset_fresh today _ Hfresh).
    unfold loadTasks. rewrite Hstored. cbn [tasks set_tasks].
    destruct (forallb renders ts) eqn:Hr.
    + destruct (renderTasks_ok nf ts Hr) as [node Hrender].
      rewrite Hrender.
      split; [reflexivity |]. split; [exact Hstored |].
      split; [intros _; split; reflexivity | intros Hfalse; discriminate Hfalse].
    + destruct (renderTasks_fails nf ts Hr) as [rows Hrender].
      rewrite Hrender.
      split; [reflexivity |]. split; [exact Hstored |].
      split; [intros Htrue; discriminate Htrue | intros _; split; reflexivity].
Qed.

End RenderedHandlers.

Lemma import_keeps_batch_it_cannot_show_witness :
  let d := blank_doc (sample_page [earlier_task] blank_subject_text) in
  let data :=
    [JObj [("subject", JStr " "); ("topic", JNum 7);
           ("minutes", JStr "soon")]] in
  (trim (jsonInput (page d)) <> "" /\
   JSON_parse sample_host (trim (jsonInput (page d))) = Normal (JArr data) /\
   Forall (fun item => has_fields item = true) data /\
   forallb renders (tasks (page d) ++ tasks_of_batch (at_ms 17) 0 data)
   = false) /\
  List.length
    (tasks (page (importJsonTasks_rendered sample_host v8_not_a_function
                    (at_ms 17) d))) = 2%nat /\
  importError
    (page (importJsonTasks_rendered sample_host v8_not_a_function
             (at_ms 17) d))
  = "Invalid JSON: text.replace is not a function".
Proof.
  cbv zeta.
  assert (Hraw : trim (jsonInput (page (blank_doc
                   (sample_page [earlier_task] blank_subject_text)))) <> "")
    by discriminate.
  assert (Hall : Forall (fun item => has_fields item = true)
                   [JObj [("subject", JStr " "); ("topic", JNum 7);
                          ("minutes", JStr "soon")]])
    by (repeat constructor).
  split.
  { split; [exact Hraw |]. split; [reflexivity |].
    split; [exact Hall | reflexivity]. }
  pose proof (import_keeps_batch_it_cannot_show sample_host
                v8_not_a_function (at_ms 17)
                (blank_doc (sample_page [earlier_task] blank_subject_text))
                [JObj [("subject", JStr " "); ("topic", JNum 7);
                       ("minutes", JStr "soon")]]
                Hraw eq_refl Hall eq_refl) as [Htasks [_ [Herror _]]].
  split; [rewrite Htasks; reflexivity | exact Herror].
Defined.

End RenderFacts.

(** ** The planner: further properties *)
Module PlannerMore.
Import Js Planner Batch Render JsFacts.

(** *** A batch that passes *)

Lemma tasks_of_batch_fields (now : nat -> Z) (data : list JValue) :
  Forall (fun item => has_fields item = true) data ->
  forall index,
    map subject (tasks_of_batch now index data) = map (field "subject") data /\
    map topic (tasks_of_batch now index data) = map (field "topic") data /\
    Forall (fun t => completed t = false) (tasks_of_batch now index data).
Proof.
  induction 1 as [| item data Hitem _ IH]; intros index.
  - repeat split. constructor.
  - destruct (PlannerFacts.has_fields_object item Hitem) as [fields ->].
    destruct (IH (S index)) as [Hs [Ht Hc]].
    cbn [tasks_of_batch map field]. rewrite Hs, Ht.
    repeat split. constructor; [reflexivity | exact Hc].
Qed.

(** A batch whose elements all have the three fields, and which leaves a
    list that renders, is taken whole: one task per element, in input
    order, with the element's subject and topic and not completed, after
    the tasks already there; the list is saved, the box is cleared and the
    alert gives the number of elements, 0 for an empty array. *)
Theorem import_takes_whole_batch (host : Host) (now : nat -> Z) (p : Page)
    (data : list JValue) :
  trim (jsonInput p) <> "" ->
  JSON_parse host (trim (jsonInput p)) = Normal (JArr data) ->
  Forall (fun item => has_fields item = true) data ->
  forallb renders (tasks p ++ tasks_of_batch now 0 data) = true ->
  let p' := importJsonTasks host now p in
  exists new,
    tasks p' = (tasks p ++ new)%list /\
    stored_tasks p' = Some (tasks p ++ new)%list /\
    map subject new = map (field "subject") data /\
    map topic new = map (field "topic") data /\
    Forall (fun t => completed t = false) new /\
    jsonInput p' = "" /\
    importError p' = "" /\
    alerts p'
    = app (alerts p)
        ["Successfully imported "
         ++ string_of_Z (Z.of_nat (List.length data)) ++ " tasks."].
Proof.
  intros Hraw Hparse Hall Hrenders. cbv zeta.
  destruct (PlannerFacts.forEach_import_batch host now data Hall 0%nat [])
    as [Hrun Hlen].
  cbn [app] in Hrun.
  destruct (tasks_of_batch_fields now data Hall 0%nat) as [Hs [Ht Hc]].
  destruct (RenderFacts.renderTasks_ok (not_a_function_message host) _
              Hrenders) as [node Hnode].
  exists (tasks_of_batch now 0 data).
  unfold importJsonTasks. apply String.eqb_neq in Hraw. rewrite Hraw.
  unfold import_try. rewrite Hparse, Hrun.
  cbn [tasks saveTasks updateStats set_stats set_stored_tasks set_tasks
         set_importError].
  rewrite Hnode. cbn [snd].
  repeat split; try reflexivity; try assumption.
  cbn [alerts alert]. rewrite Hlen. reflexivity.
Qed.

Lemma import_takes_whole_batch_witness :
  let p := sample_page [earlier_task] two_tasks_text in
  let data := [entry "A" "B" (JNum 10); entry "C" "D" (JStr "15")] in
  (trim (jsonInput p) <> "" /\
   JSON_parse sample_host (trim (jsonInput p)) = Normal (JArr data) /\
   Forall (fun item => has_fields item = true) data /\
   forallb renders (tasks p ++ tasks_of_batch (at_ms 1700000000000) 0 data)
   = true) /\
  exists new,
    tasks (importJsonTasks sample_host (at_ms 1700000000000) p)
    = (earlier_task :: new)%list /\
    map subject new = [JStr "A"; JStr "C"].
Proof.
  cbv zeta.
  assert (Hraw : trim (jsonInput (sample_page [earlier_task] two_tasks_text))
                 <> "") by discriminate.
  assert (Hall : Forall (fun item => has_fields item = true)
                   [entry "A" "B" (JNum 10); entry "C" "D" (JStr "15")]).
  { repeat constructor. }
  split.
  { split; [exact Hraw |]. split; [reflexivity |].
    split; [exact Hall | reflexivity]. }
  destruct (import_takes_whole_batch sample_host (at_ms 1700000000000)
              (sample_page [earlier_task] two_tasks_text)
              [entry "A" "B" (JNum 10); entry "C" "D" (JStr "15")]
              Hraw eq_refl Hall eq_refl) as [new [Htasks [_ [Hsubjects _]]]].
  exists new. split; [exact Htasks | exact Hsubjects].
Defined.

(** Minutes written as a whole number, or as that number in a string, are
    stored as the number, for numbers within those a double holds
    exactly. *)
Theorem import_reads_minutes (host : Host) (now : Z) (index : nat)
    (fields : list (string * JValue)) (z : Z) :
  has_fields (JObj fields) = true ->
  Z.abs z <= 2 ^ 53 ->
  lookup "minutes" fields = JNum z \/
  lookup "minutes" fields = JStr (string_of_Z z) ->
  exists t,
    import_item host now (JObj fields) index = Normal t /\
    minutes t = Num z /\ completed t = false.
Proof.
  intros Hfields _ Hminutes.
  rewrite (PlannerFacts.import_item_ok host now index fields Hfields).
  eexists. split; [reflexivity |].
  split; [| reflexivity].
  cbn [minutes task_of]. unfold parseInt_value.
  destruct Hminutes as [-> | ->]; cbn [ToString];
    apply parseInt_string_of_Z.
Qed.

Lemma import_reads_minutes_witness :
  let fields :=
    [("subject", JStr "C"); ("topic", JStr "D"); ("minutes", JStr "15")] in
  (has_fields (JObj fields) = true /\
   Z.abs 15 <= 2 ^ 53 /\
   (lookup "minutes" fields = JNum 15 \/
    lookup "minutes" fields = JStr (string_of_Z 15))) /\
  exists t,
    import_item sample_host 1000 (JObj fields) 1 = Normal t /\
    minutes t = Num 15 /\ completed t = false.
Proof.
  cbv zeta.
  assert (Hsize : Z.abs 15 <= 2 ^ 53) by (vm_compute; discriminate).
  split.
  { split; [reflexivity |]. split; [exact Hsize | right; reflexivity]. }
  exact (import_reads_minutes sample_host 1000 1
           [("subject", JStr "C"); ("topic", JStr "D");
            ("minutes", JStr "15")] 15 eq_refl Hsize (or_intror eq_refl)).
Defined.

(** *** Manual entry and the Task invariant *)

(** When every task on the list satisfies the Task invariant, so does every
    task after [addManualTask], whether it adds a task or turns the entry
    down, for minutes typed within the whole numbers a double holds
    exactly. *)
Theorem manual_entry_keeps_the_invariant (now : Z) (p : Page) :
  (forall m, parseInt (timeInput p) = Num m -> m <= 2 ^ 53) ->
  Forall (fun t => valid_task t = true) (tasks p) ->
  Forall (fun t => valid_task t = true) (tasks (addManualTask now p)) /\
  (tasks (addManualTask now p) = tasks p \/
   exists t,
     tasks (addManualTask now p) = (tasks p ++ [t])%list /\
     id t = now /\ completed t = false /\
     subject t = JStr (trim (subjectInput p)) /\
     topic t = JStr (trim (topicInput p)) /\
     minutes t = parseInt (timeInput p)).
Proof.
  intros _ Hall.
  split; [exact (PlannerFacts.addManualTask_valid now p Hall) |].
  destruct (PlannerFacts.addManualTask_cases now p)
    as [-> | [m [_ [_ [Hparse [_ ->]]]]]]; [left; reflexivity |].
  right. eexists. split; [reflexivity |].
  cbn [id completed subject topic minutes]. rewrite Hparse.
  repeat split.
Qed.

Lemma manual_entry_keeps_the_invariant_witness :
  let p := set_inputs " Math " "Algebra" "30" (sample_page [earlier_task] "") in
  ((forall m, parseInt (timeInput p) = Num m -> m <= 2 ^ 53) /\
   Forall (fun t => valid_task t = true) (tasks p)) /\
  Forall (fun t => valid_task t = true) (tasks (addManualTask 1700000000000 p)).
Proof.
  cbv zeta.
  assert (Hsize : forall m,
             parseInt (timeInput (set_inputs " Math " "Algebra" "30"
                                    (sample_page [earlier_task] "")))
             = Num m -> m <= 2 ^ 53).
  { intros m Hm. injection Hm as <-. discriminate. }
  assert (H : Forall (fun t => valid_task t = true)
                (tasks (set_inputs " Math " "Algebra" "30"
                          (sample_page [earlier_task] "")))).
  { repeat constructor. }
  split; [split; [exact Hsize | exact H] |].
  exact (proj1 (manual_entry_keeps_the_invariant 1700000000000 _ Hsize H)).
Defined.

(** *** Witnesses for facts proved with the import *)

Lemma import_ids_distinct_in_batch_witness :
  let data := [entry "A" "B" (JNum 10); entry "C" "D" (JStr "15")] in
  let new := [task_of 1700000000000 0 [("subject", JStr "A");
                                       ("topic", JStr "B");
                                       ("minutes", JNum 10)];
              task_of 1700000000000 1 [("subject", JStr "C");
                                       ("topic", JStr "D");
                                       ("minutes", JStr "15")]] in
  ((forall a b, (a <= b)%nat ->
                at_ms 1700000000000 a <= at_ms 1700000000000 b) /\
   forEach_import sample_host (at_ms 1700000000000) data 0 [] = Normal new) /\
  NoDup (map id new).
Proof.
  cbv zeta.
  assert (Hmono : forall a b, (a <= b)%nat ->
                    at_ms 1700000000000 a <= at_ms 1700000000000 b).
  { intros a b _. unfold at_ms. apply Z.le_refl. }
  split; [split; [exact Hmono | reflexivity] |].
  exact (PlannerFacts.import_ids_distinct_in_batch sample_host
           (at_ms 1700000000000)
           [entry "A" "B" (JNum 10); entry "C" "D" (JStr "15")]
           [task_of 1700000000000 0 [("subject", JStr "A");
                                     ("topic", JStr "B");
                                     ("minutes", JNum 10)];
            task_of 1700000000000 1 [("subject", JStr "C");
                                     ("topic", JStr "D");
                                     ("minutes", JStr "15")]]
           Hmono eq_refl).
Defined.

Lemma importJsonTasks_names_missing_witness :
  let p := sample_page [earlier_task] second_lacks_fields_text in
  let pre := [entry "A" "B" (JNum 10)] in
  let bad := JObj [("subject", JStr "C")] in
  (trim (jsonInput p) <> "" /\
   JSON_parse sample_host (trim (jsonInput p))
   = Normal (JArr (pre ++ bad :: [])) /\
   Forall (fun item => has_fields item = true) pre /\
   bad <> JNull /\ bad <> JUndefined /\ has_fields bad = false) /\
  importError (importJsonTasks sample_host (at_ms 1700000000000) p)
  = "Invalid JSON: " ++ missing_message 1.
Proof.
  cbv zeta.
  assert (Hraw : trim (jsonInput (sample_page [earlier_task]
                                    second_lacks_fields_text)) <> "")
    by discriminate.
  assert (Hpre : Forall (fun item => has_fields item = true)
                   [entry "A" "B" (JNum 10)]) by (repeat constructor).
  assert (Hnull : JObj [("subject", JStr "C")] <> JNull) by discriminate.
  assert (Hundef : JObj [("subject", JStr "C")] <> JUndefined)
    by discriminate.
  split.
  { split; [exact Hraw |]. split; [reflexivity |].
    split; [exact Hpre |]. split; [exact Hnull |].
    split; [exact Hundef | reflexivity]. }
  exact (proj2 (proj2 (PlannerFacts.importJsonTasks_names_missing
                         sample_host (at_ms 1700000000000)
                         (sample_page [earlier_task] second_lacks_fields_text)
                         [entry "A" "B" (JNum 10)] []
                         (JObj [("subject", JStr "C")])
                         Hraw eq_refl Hpre Hnull Hundef eq_refl))).
Defined.

(** *** Ticking a task *)

Lemma set_completed_ids (i : Z) (checked : bool) (ts ts' : list Task) :
  set_completed i checked ts = Some ts' -> map id ts' = map id ts.
Proof.
  revert ts'. induction ts as [| t ts IH]; intros ts' H; [discriminate H |].
  cbn [set_completed] in H. destruct (id t =? i).
  - injection H as <-. reflexivity.
  - destruct (set_completed i checked ts) as [r |]; [| discriminate H].
    injection H as <-. cbn [map]. rewrite (IH r eq_refl). reflexivity.
Qed.

Lemma minutes_completed_app (a b : list Task) :
  minutes_completed (a ++ b) = minutes_completed a + minutes_completed b.
Proof.
  induction a as [| t a IH]; [reflexivity |].
  cbn [app minutes_completed]. rewrite IH. lia.
Qed.

Lemma minutes_total_app (a b : list Task) :
  minutes_total (a ++ b) = minutes_total a + minutes_total b.
Proof.
  induction a as [| t a IH]; [reflexivity |].
  cbn [app minutes_total]. rewrite IH. lia.
Qed.

(** [tasks.find] stops at the first task with the id. *)
Lemma set_completed_first (i : Z) (checked : bool) (ts : list Task) :
  In i (map id ts) ->
  exists pre t post,
    ts = (pre ++ t :: post)%list /\ id t = i /\ ~ In i (map id pre) /\
    set_completed i checked ts
    = Some (pre ++ mkTask (id t) (subject t) (topic t) (minutes t) checked
                   :: post)%list.
Proof.
  induction ts as [| u ts IH]; intros Hin; [contradiction Hin |].
  cbn [set_completed]. destruct (id u =? i) eqn:Hid.
  - apply Z.eqb_eq in Hid. exists [], u, ts.
    repeat split; [exact Hid | intros []].
  - apply Z.eqb_neq in Hid. cbn [map] in Hin.
    destruct Hin as [Heq | Hin]; [contradiction |].
    destruct (IH Hin) as [pre [t [post [-> [Ht [Hpre Hset]]]]]].
    exists (u :: pre), t, post. rewrite Hset.
    repeat split; [exact Ht |].
    cbn [map]. intros [Heq | Hin']; [contradiction | exact (Hpre Hin')].
Qed.

Lemma set_completed_absent (i : Z) (checked : bool) (ts : list Task) :
  ~ In i (map id ts) -> set_completed i checked ts = None.
Proof.
  induction ts as [| t ts IH]; intros Hnotin; [reflexivity |].
  cbn [set_completed]. destruct (id t =? i) eqn:Heq.
  - apply Z.eqb_eq in Heq. exfalso. apply Hnotin. left. exact Heq.
  - rewrite IH; [reflexivity |]. intros Hin. apply Hnotin. right. exact Hin.
Qed.

(** A change of a checkbox never alters the ids or the sum of the minutes.
    When a task carries the id of the box, the first such task takes the
    state of the box and no other task changes, the sum of the minutes of
    the completed tasks moves by that task's minutes, and the list is
    saved and the statistics refreshed; when the id is no number or no
    task carries it, the page stays as it is. *)
Theorem toggle_moves_completed_minutes (data_id : string) (checked : bool)
    (p : Page) :
  let p' := toggleTask data_id checked p in
  map id (tasks p') = map id (tasks p) /\
  minutes_total (tasks p') = minutes_total (tasks p) /\
  (forall i,
     parseInt data_id = Num i -> In i (map id (tasks p)) ->
     exists pre t post,
       tasks p = (pre ++ t :: post)%list /\ id t = i /\
       ~ In i (map id pre) /\
       tasks p'
       = (pre ++ mkTask (id t) (subject t) (topic t) (minutes t) checked
              :: post)%list /\
       minutes_completed (tasks p')
       = minutes_completed (tasks p)
         - (if completed t then or_zero (minutes t) else 0)
         + (if checked then or_zero (minutes t) else 0) /\
       stored_tasks p' = Some (tasks p') /\
       statsCompleted p'
       = Js.toString (completedMinutes (computeStatistics (tasks p')))
         ++ " min") /\
  ((parseInt data_id = NaN \/
    exists i, parseInt data_id = Num i /\ ~ In i (map id (tasks p))) ->
   p' = p).
Proof.
  cbv zeta. unfold toggleTask.
  destruct (parseInt data_id) as [i |] eqn:Hparse.
  - destruct (in_dec Z.eq_dec i (map id (tasks p))) as [Hin | Hnotin].
    + destruct (set_completed_first i checked (tasks p) Hin)
        as [pre [t [post [Hsplit [Hid [Hpre Hset]]]]]].
      rewrite Hset.
      cbn [tasks updateStats saveTasks set_stats set_stored_tasks set_tasks
             stored_tasks statsCompleted].
      split; [rewrite Hsplit, !map_app; reflexivity |].
      split; [rewrite Hsplit, !minutes_total_app; reflexivity |].
      split.
      * intros j Hj _. injection Hj as <-.
        exists pre, t, post. repeat split; try assumption.
        rewrite Hsplit, !minutes_completed_app.
        cbn [minutes_completed completed minutes]. lia.
      * intros [Hnan | [j [Hj Hnotin]]]; [discriminate Hnan |].
        injection Hj as <-. contradiction.
    + rewrite (set_completed_absent i checked (tasks p) Hnotin).
      split; [reflexivity |]. split; [reflexivity |].
      split; [| intros _; reflexivity].
      intros j Hj Hin. injection Hj as <-. contradiction.
  - split; [reflexivity |]. split; [reflexivity |].
    split; [intros j Hj; discriminate Hj | intros _; reflexivity].
Qed.

Lemma set_completed_at (checked : bool) (ts : list Task) :
  NoDup (map id ts) ->
  forall k t,
    nth_error ts k = Some t ->
    set_completed (id t) checked ts = Some (check_at k checked ts).
Proof.
  induction ts as [| u ts IH]; intros Hnodup k t Hnth.
  - destruct k; discriminate Hnth.
  - cbn [map] in Hnodup. inversion Hnodup as [| x l Hnotin Hrest]; subst.
    destruct k as [| k]; cbn [nth_error] in Hnth.
    + injection Hnth as ->. cbn [set_completed check_at].
      rewrite Z.eqb_refl. reflexivity.
    + cbn [set_completed check_at].
      destruct (id u =? id t) eqn:Heq.
      * apply Z.eqb_eq in Heq. exfalso. apply Hnotin. rewrite Heq.
        apply in_map. exact (nth_error_In _ _ Hnth).
      * rewrite (IH Hrest k t Hnth). reflexivity.
Qed.

(** With ids that are all different, the box of the task at position [k],
    whose [data-id] is that task's id, ticks or unticks that task and no
    other. *)
Theorem toggle_hits_the_clicked_task (p : Page) (k : nat) (t : Task)
    (checked : bool) :
  NoDup (map id (tasks p)) ->
  nth_error (tasks p) k = Some t ->
  let p' := toggleTask (string_of_Z (id t)) checked p in
  tasks p' = check_at k checked (tasks p) /\
  stored_tasks p' = Some (check_at k checked (tasks p)) /\
  nth_error (tasks p') k
  = Some (mkTask (id t) (subject t) (topic t) (minutes t) checked) /\
  (forall j, j <> k -> nth_error (tasks p') j = nth_error (tasks p) j).
Proof.
  intros Hnodup Hnth. cbv zeta. unfold toggleTask.
  rewrite parseInt_string_of_Z.
  rewrite (set_completed_at checked (tasks p) Hnodup k t Hnth).
  split; [reflexivity |]. split; [reflexivity |].
  cbn [tasks updateStats saveTasks set_stats set_stored_tasks set_tasks].
  clear Hnodup. revert k Hnth.
  induction (tasks p) as [| u ts IH]; intros k Hnth.
  - destruct k; discriminate Hnth.
  - destruct k as [| k]; cbn [nth_error] in Hnth.
    + injection Hnth as ->. split; [reflexivity |].
      intros j Hj. destruct j as [| j]; [contradiction Hj |]; reflexivity.
    + destruct (IH k Hnth) as [Hk Hothers]. split; [exact Hk |].
      intros j Hj. destruct j as [| j]; [reflexivity |].
      cbn [check_at nth_error]. apply Hothers.
      intros Heq. apply Hj. rewrite Heq. reflexivity.
Qed.

Lemma toggle_hits_the_clicked_task_witness :
  let second := mkTask 1700000000001 (JStr "C") (JStr "D") (Num 15) false in
  let p := sample_page [earlier_task; second] "" in
  (NoDup (map id (tasks p)) /\ nth_error (tasks p) 1 = Some second) /\
  tasks (toggleTask (string_of_Z (id second)) true p)
  = [earlier_task;
     mkTask 1700000000001 (JStr "C") (JStr "D") (Num 15) true].
Proof.
  cbv zeta.
  assert (Hnodup : NoDup [1699999999000; 1700000000001]).
  { constructor; [| constructor; [intros [] | constructor]].
    intros [H | []]. discriminate H. }
  split; [split; [exact Hnodup | reflexivity] |].
  exact (proj1 (toggle_hits_the_clicked_task
                  (sample_page
                     [earlier_task;
                      mkTask 1700000000001 (JStr "C") (JStr "D") (Num 15)
                        false] "")
                  1 (mkTask 1700000000001 (JStr "C") (JStr "D") (Num 15) false)
                  true Hnodup eq_refl)).
Defined.

(** A box whose [data-id] is no number, or is the id of no task, changes
    nothing. *)
Theorem toggle_unknown_id_is_ignored (data_id : string) (checked : bool)
    (p : Page) :
  (parseInt data_id = NaN \/
   exists i, parseInt data_id = Num i /\ ~ In i (map id (tasks p))) ->
  toggleTask data_id checked p = p.
Proof.
  intros H. unfold toggleTask.
  destruct H as [-> | [i [-> Hnotin]]]; [reflexivity |].
  assert (Hnone : set_completed i checked (tasks p) = None).
  { induction (tasks p) as [| t ts IH]; [reflexivity |].
    cbn [set_completed]. destruct (id t =? i) eqn:Heq.
    - apply Z.eqb_eq in Heq. exfalso. apply Hnotin. left. exact Heq.
    - rewrite IH; [reflexivity |]. intros Hin. apply Hnotin. right.
      exact Hin. }
  rewrite Hnone. reflexivity.
Qed.

Lemma toggle_unknown_id_is_ignored_witness :
  let p := sample_page [earlier_task] "" in
  (parseInt "12" = NaN \/
   exists i, parseInt "12" = Num i /\ ~ In i (map id (tasks p))) /\
  toggleTask "12" true p = p.
Proof.
  cbv zeta.
  assert (H : parseInt "12" = NaN \/
              exists i, parseInt "12" = Num i /\
                        ~ In i (map id (tasks (sample_page [earlier_task] "")))).
  { right. exists 12. split; [reflexivity |].
    intros [Heq | []]. discriminate Heq. }
  split; [exact H |].
  exact (toggle_unknown_id_is_ignored "12" true
           (sample_page [earlier_task] "") H).
Defined.

(** *** The ends of the progress bar *)

Lemma all_completed_minutes (ts : list Task) :
  forallb (fun t => completed t) ts = true ->
  minutes_completed ts = minutes_total ts.
Proof.
  induction ts as [| t ts IH]; intros H; [reflexivity |].
  cbn [forallb] in H. apply andb_prop in H as [Ht Hrest].
  cbn [minutes_completed minutes_total]. rewrite Ht, (IH Hrest).
  reflexivity.
Qed.

Lemma none_completed_minutes (ts : list Task) :
  forallb (fun t => negb (completed t)) ts = true ->
  minutes_completed ts = 0.
Proof.
  induction ts as [| t ts IH]; intros H; [reflexivity |].
  cbn [forallb] in H. apply andb_prop in H as [Ht Hrest].
  cbn [minutes_completed]. apply negb_true_iff in Ht.
  rewrite Ht, (IH Hrest). reflexivity.
Qed.

(** With whole minutes and a total above 0, the percentage is 100 when every
    task is completed and 0 when none is. *)
Theorem percent_at_the_ends (ts : list Task) :
  Forall whole_minutes ts -> 0 < minutes_total ts ->
  exists q,
    percentComplete (computeStatistics ts) = Some q /\
    (forallb (fun t => completed t) ts = true -> (q == 100)%Q) /\
    (forallb (fun t => negb (completed t)) ts = true -> (q == 0)%Q).
Proof.
  intros Hall Hpos.
  assert (Htotal : sum_minutes ts = Num (minutes_total ts)).
  { unfold sum_minutes.
    rewrite (PlannerFacts.sum_minutes_from ts Hall 0). reflexivity. }
  assert (Hdone : sum_minutes (filter (fun t => completed t) ts)
                  = Num (minutes_completed ts)).
  { unfold sum_minutes.
    rewrite (PlannerFacts.sum_minutes_from _
               (PlannerFacts.Forall_filter_whole ts Hall) 0).
    rewrite PlannerFacts.minutes_total_filter. reflexivity. }
  unfold computeStatistics. rewrite Htotal, Hdone.
  cbn [percentComplete].
  destruct (minutes_total ts) as [| t | t] eqn:Ht; try lia.
  cbn [divide times Z.eqb].
  eexists. split; [reflexivity |]. split.
  - intros Hevery. rewrite (all_completed_minutes ts Hevery), Ht.
    rewrite (round_double_comp (inject_Z (Z.pos t) / inject_Z (Z.pos t)) 1).
    + vm_compute. reflexivity.
    + unfold Qeq, Qdiv, Qmult, Qinv, inject_Z. cbn [Qnum Qden]. lia.
  - intros Hnone. rewrite (none_completed_minutes ts Hnone).
    rewrite (round_double_comp (inject_Z 0 / inject_Z (Z.pos t)) 0).
    + vm_compute. reflexivity.
    + unfold Qeq, Qdiv, Qmult, Qinv, inject_Z. cbn [Qnum Qden]. lia.
Qed.

Lemma percent_at_the_ends_witness :
  let ts := [mkTask 1 (JStr "Math") (JStr "Algebra") (Num 30) true;
             mkTask 2 (JStr "Art") (JStr "Ink") (Num 20) true] in
  (Forall whole_minutes ts /\ 0 < minutes_total ts) /\
  exists q,
    percentComplete (computeStatistics ts) = Some q /\
    (forallb (fun t => completed t) ts = true -> (q == 100)%Q) /\
    (forallb (fun t => negb (completed t)) ts = true -> (q == 0)%Q).
Proof.
  cbv zeta.
  assert (Hall : Forall whole_minutes
                   [mkTask 1 (JStr "Math") (JStr "Algebra") (Num 30) true;
                    mkTask 2 (JStr "Art") (JStr "Ink") (Num 20) true]).
  { repeat constructor.
    - exists 30. split; [reflexivity | discriminate].
    - exists 20. split; [reflexivity | discriminate]. }
  assert (Hpos : 0 < minutes_total
                       [mkTask 1 (JStr "Math") (JStr "Algebra") (Num 30) true;
                        mkTask 2 (JStr "Art") (JStr "Ink") (Num 20) true])
    by reflexivity.
  split; [split; [exact Hall | exact Hpos] |].
  exact (percent_at_the_ends _ Hall Hpos).
Defined.

(** *** Memory, storage and statistics in step *)

Lemma saveTasks_in_step (p : Page) : PlannerEvents.in_step (saveTasks p).
Proof. repeat split. Qed.

Lemma in_step_step (host : Host) (p : Page) (e : PlannerEvents.Event) :
  PlannerEvents.in_step p -> PlannerEvents.in_step (PlannerEvents.step host p e).
Proof.
  intros H.
  destruct e as [s t m | text | now | now | data_id checked | confirmed];
    cbn [PlannerEvents.step].
  - exact H.
  - exact H.
  - unfold addManualTask.
    destruct (String.eqb (trim (subjectInput p)) ""
              || String.eqb (trim (topicInput p)) ""); [exact H |].
    destruct (parseInt (timeInput p)) as [m |]; [| exact H].
    destruct (m <=? 0); [exact H |].
    destruct (snd (renderTasks "" _)); repeat split.
  - unfold importJsonTasks.
    destruct (String.eqb (trim (jsonInput p)) ""); [exact H |].
    destruct (import_try host now (trim (jsonInput p))); [| exact H].
    destruct (snd (renderTasks (not_a_function_message host) _));
      repeat split.
  - unfold toggleTask. destruct (parseInt data_id) as [i |]; [| exact H].
    destruct (set_completed i checked (tasks p)); [| exact H].
    repeat split.
  - destruct confirmed; [repeat split | exact H].
Qed.

(** Through any sequence of edits, additions, imports, ticks and clears, no
    handler leaves the list in memory changed without saving it: the list
    last handed to [JSON.stringify] for storage is the list in memory, and
    the statistics on the page are those of that list. *)
Theorem storage_and_statistics_stay_in_step (host : Host)
    (events : list PlannerEvents.Event) (p : Page) :
  PlannerEvents.in_step p ->
  PlannerEvents.in_step (PlannerEvents.run host events p).
Proof.
  revert p. induction events as [| e events IH]; intros p H; [exact H |].
  cbn [PlannerEvents.run fold_left]. apply IH. apply in_step_step. exact H.
Qed.

Lemma storage_and_statistics_stay_in_step_witness :
  let p := sample_page [] "" in
  let events :=
    [PlannerEvents.EditJson two_tasks_text;
     PlannerEvents.ImportClick (at_ms 1700000000000);
     PlannerEvents.Change "1700000000001" true;
     PlannerEvents.EditForm "Math" "Algebra" "30";
     PlannerEvents.AddClick 1700000005000] in
  PlannerEvents.in_step p /\
  PlannerEvents.in_step (PlannerEvents.run sample_host events p) /\
  statsCompleted (PlannerEvents.run sample_host events p) = "15 min".
Proof.
  cbv zeta.
  assert (H : PlannerEvents.in_step (sample_page [] "")) by (repeat split).
  split; [exact H |].
  split; [| reflexivity].
  exact (storage_and_statistics_stay_in_step sample_host
           [PlannerEvents.EditJson two_tasks_text;
            PlannerEvents.ImportClick (at_ms 1700000000000);
            PlannerEvents.Change "1700000000001" true;
            PlannerEvents.EditForm "Math" "Algebra" "30";
            PlannerEvents.AddClick 1700000005000]
           (sample_page [] "") H).
Defined.

End PlannerMore.
